(** * Sapora LAN collaboration server: a shallow embedding of the server core

    The development follows the Python sources of the server:
    - [shared/constants.py], [shared/protocol.py]: constants and type codes;
    - [shared/helpers.py]: the wire codec ([pack_message], [unpack_message])
      and the file metadata codec;
    - [server/utils.py]: reading framed messages from a TCP stream;
    - [server/connection_manager.py]: the connection registry, the stream
      registrations, the heartbeat and the cleanup of stale streams;
    - [server/tcp_handler.py]: the receive loop, registration, the chat
      router and the cleanup of a handler;
    - [server/udp_audio_server.py]: the jitter buffers, one tick of the audio
      mixer and the cleanup of silent sources;
    - [server/udp_video_server.py]: the fan-out of a video datagram;
    - [server/file_server.py]: upload, download and the availability notice.

    Conventions of the embedding.
    - Python [bytes] are [list byte]; Python [str] values are modelled as
      [string] (their UTF-8 bytes); [str.lower] and [str.strip] act on
      Unicode text and are functions of the runtime.
    - A Python [dict] is insertion ordered and the code relies on that order
      ("first member at this IP"), so dicts are association lists with the
      dict's update discipline ([PyDict]).
    - Sockets are opaque identities ([socket := nat]); whether a [sendall] on
      a socket succeeds is read from an oracle, and every I/O action is logged
      as an [event] in the order the code performs it.
    - [time.time()] is an argument [now] of the operation that reads it,
      counted in milliseconds.
    - A raised exception is a value [Raise e] of the [result] type.
    - A method runs until it returns or blocks. The one lock that is
      modelled is [rooms_lock], which is not reentrant: [_cleanup] asks for
      it again while holding it and blocks there. The user-list broadcasts
      that [add_client] and [remove_client] call are run, with the removals
      they make; the broadcasts that the source starts in a thread of their
      own ([update_client_status], [set_client_room]) and the writes of
      [broadcast_room_user_list] are logged as one event. The user list fits
      a packet.
    - Whether a file can be opened for writing is read from an oracle
      ([Host]).
    - The environment variable SAPORA_DEBUG is unset, so the debug prints
      (and the calls they make) are absent.
    - The [json] module, [hashlib.md5], [int()] and [str()] of arbitrary
      values and the numpy arithmetic of the mixer are parameters
      ([PyRuntime]); every general theorem holds for all of them. *)

From Stdlib Require Import ZArith List Lia Bool String Ascii.
From Stdlib Require Import Strings.Byte DecimalString.
Import ListNotations.
Open Scope Z_scope.

(** ** Exceptions and results *)

Inductive exn : Type :=
| ValueError (msg : string)
| StructError (msg : string)
| IOError (msg : string)
| ConnectionAbortedError (msg : string)
| AttributeError (msg : string)
| TypeError (msg : string)
| OSError (msg : string)
| SocketTimeout (msg : string).

Inductive result (A : Type) : Type :=
| Ok (a : A)
| Raise (e : exn).

Arguments Ok {A} a.
Arguments Raise {A} e.

Definition bind {A B : Type} (r : result A) (k : A -> result B) : result B :=
  match r with
  | Ok a => k a
  | Raise e => Raise e
  end.

Notation "'do' x <- r ; k" := (bind r (fun x => k))
  (at level 10, x name, r at level 100, k at level 200).

(** [str(e)] of an exception: its message. *)
Definition exn_message (e : exn) : string :=
  match e with
  | ValueError m | StructError m | IOError m
  | ConnectionAbortedError m | AttributeError m | TypeError m
  | OSError m | SocketTimeout m => m
  end.

(** ** Bytes and text *)

Definition bytes : Type := list byte.

(** A bytes literal [b"..."] and [s.encode('utf-8')]. *)
Definition encode (s : string) : bytes := list_byte_of_string s.
Definition decode (b : bytes) : string := string_of_list_byte b.

(** The double quote character as a string. *)
Definition DQUOTE : string := String (ascii_of_nat 34) EmptyString.

(** [str(n)] for an integer. *)
Definition str_of_Z (z : Z) : string := NilZero.string_of_int (Z.to_int z).

Definition blen (b : bytes) : Z := Z.of_nat (List.length b).

(** ** shared/constants.py *)

Definition PROTOCOL_VERSION : Z := 1.
Definition HEADER_SIZE : Z := 10.
Definition MAX_MESSAGE_SIZE : Z := 1048576.
Definition FILE_CHUNK_SIZE : Z := 32768.
Definition MAX_FILE_SIZE : Z := 104857600.
Definition AUDIO_RATE : Z := 44100.
Definition AUDIO_CHANNELS : Z := 1.
Definition AUDIO_CHUNK : Z := 1024.
Definition AUDIO_FORMAT_PCM : Z := 2.
Definition STORAGE_DIR : string := "sapora_files".

(** ** shared/protocol.py *)

Definition CMD_REGISTER : Z := 1.
Definition CMD_HEARTBEAT : Z := 2.
Definition CMD_USER_LIST : Z := 3.
Definition CMD_DISCONNECT : Z := 4.
Definition MSG_CHAT : Z := 16.
Definition FILE_METADATA : Z := 32.
Definition FILE_CHUNK : Z := 33.
Definition FILE_REQUEST_UPLOAD : Z := 34.
Definition FILE_REQUEST_DOWNLOAD : Z := 35.
Definition FILE_ACK_SUCCESS : Z := 36.
Definition FILE_ACK_FAILURE : Z := 37.
Definition STREAM_VIDEO : Z := 64.
Definition STREAM_AUDIO : Z := 65.

(** ** shared/helpers.py: the wire codec *)

Module Struct.

(** One unsigned byte of value [z mod 256]. *)
Definition u8 (z : Z) : byte :=
  match Byte.of_N (Z.to_N (z mod 256)) with
  | Some b => b
  | None => x00
  end.

Definition byte_val (b : byte) : Z := Z.of_N (Byte.to_N b).

(** Network order (the [!] of the format string): most significant first. *)
Definition be16 (z : Z) : bytes := [u8 (z / 256); u8 z].
Definition be32 (z : Z) : bytes :=
  [u8 (z / 16777216); u8 (z / 65536); u8 (z / 256); u8 z].

Definition from_be (bs : bytes) : Z :=
  fold_left (fun acc b => acc * 256 + byte_val b) bs 0.

Definition in_range (z bound : Z) : bool := (0 <=? z) && (z <? bound).

(** [struct.pack('!BBIHH', v, t, l, s, r)]: a field out of the range of its
    format character raises [struct.error]. *)
Definition pack_BBIHH (v t l s r : Z) : result bytes :=
  if in_range v 256 && in_range t 256 && in_range l 4294967296
     && in_range s 65536 && in_range r 65536
  then Ok ([u8 v; u8 t] ++ be32 l ++ be16 s ++ be16 r)
  else Raise (StructError "argument out of range").

(** [struct.unpack('!BBIHH', header)]: the buffer must be 10 bytes. *)
Definition unpack_BBIHH (header : bytes) : result (Z * Z * Z * Z * Z) :=
  match header with
  | [v; t; l3; l2; l1; l0; s1; s0; r1; r0] =>
      Ok (byte_val v, byte_val t, from_be [l3; l2; l1; l0],
          from_be [s1; s0], from_be [r1; r0])
  | _ => Raise (StructError "unpack requires a buffer of 10 bytes")
  end.

(** [struct.unpack('!I', b)[0]]. *)
Definition unpack_I (b : bytes) : result Z :=
  match b with
  | [b3; b2; b1; b0] => Ok (from_be b)
  | _ => Raise (StructError "unpack requires a buffer of 4 bytes")
  end.

(** [struct.unpack('!Q', b)[0]]. *)
Definition unpack_Q (b : bytes) : result Z :=
  match b with
  | [b7; b6; b5; b4; b3; b2; b1; b0] => Ok (from_be b)
  | _ => Raise (StructError "unpack requires a buffer of 8 bytes")
  end.

End Struct.

(** [pack_message(msg_type, payload=b"")]. The payload is already [bytes]
    here, so the [isinstance] conversion of the source does not apply. *)
Definition pack_message (msg_type : Z) (payload : bytes) : result bytes :=
  let payload_length := blen payload in
  if payload_length >? MAX_MESSAGE_SIZE then
    Raise (ValueError ("Payload size " ++ str_of_Z payload_length
                       ++ " exceeds maximum " ++ str_of_Z MAX_MESSAGE_SIZE))
  else
    let sequence_number := 0 in
    let reserved := 0 in
    do header <- Struct.pack_BBIHH PROTOCOL_VERSION msg_type payload_length
                   sequence_number reserved;
    Ok (header ++ payload).

(** [unpack_message(data)]: version, type, payload length, sequence, payload. *)
Definition unpack_message (data : bytes) : result (Z * Z * Z * Z * bytes) :=
  if blen data <? HEADER_SIZE then
    Raise (ValueError ("Data too short: " ++ str_of_Z (blen data)
                       ++ " bytes (minimum " ++ str_of_Z HEADER_SIZE ++ ")"))
  else
    let header := firstn (Z.to_nat HEADER_SIZE) data in
    let payload := skipn (Z.to_nat HEADER_SIZE) data in
    match Struct.unpack_BBIHH header with
    | Raise e => Raise (ValueError ("Failed to unpack header: " ++ exn_message e))
    | Ok (version, msg_type, payload_length, sequence_number, reserved) =>
        if negb (blen payload =? payload_length) then
          Raise (ValueError ("Payload length mismatch: expected "
                             ++ str_of_Z payload_length ++ ", got "
                             ++ str_of_Z (blen payload)))
        else if negb (version =? PROTOCOL_VERSION) then
          Raise (ValueError ("Protocol version mismatch: expected "
                             ++ str_of_Z PROTOCOL_VERSION ++ ", got "
                             ++ str_of_Z version))
        else Ok (version, msg_type, payload_length, sequence_number, payload)
    end.

(** ** Python values used as dictionary keys *)

Class EqDec (A : Type) : Type :=
  eq_dec : forall x y : A, {x = y} + {x <> y}.

#[export] Instance nat_EqDec : EqDec nat := Nat.eq_dec.
#[export] Instance Z_EqDec : EqDec Z := Z.eq_dec.
#[export] Instance string_EqDec : EqDec string := string_dec.
#[export] Instance prod_EqDec {A B : Type} `{EqDec A} `{EqDec B} : EqDec (A * B).
Proof.
  intros [a b] [a' b'].
  destruct (eq_dec a a') as [Ha|Ha]; [|right; congruence].
  destruct (eq_dec b b') as [Hb|Hb]; [left|right]; congruence.
Defined.

(** [x == y] on hashable values. *)
Definition eqb_of {A : Type} `{EqDec A} (x y : A) : bool :=
  if eq_dec x y then true else false.

(** ** Insertion-ordered dictionaries

    A Python [dict] keeps its keys in insertion order; assigning to a key that
    is present keeps its position, deleting and re-inserting moves it last. *)
Module PyDict.
Section Dict.
Context {K V : Type} `{EqDec K}.

Definition t : Type := list (K * V).

Definition empty : t := [].

(** [d.get(k)] *)
Fixpoint get (d : t) (k : K) : option V :=
  match d with
  | [] => None
  | (k', v) :: d' => if eq_dec k' k then Some v else get d' k
  end.

(** [k in d] *)
Definition mem (d : t) (k : K) : bool :=
  match get d k with Some _ => true | None => false end.

(** [d[k] = v] *)
Fixpoint set (d : t) (k : K) (v : V) : t :=
  match d with
  | [] => [(k, v)]
  | (k', v') :: d' =>
      if eq_dec k' k then (k', v) :: d' else (k', v') :: set d' k v
  end.

(** [del d[k]] for a key that is present; no change otherwise (the callers
    test membership first). *)
Fixpoint del (d : t) (k : K) : t :=
  match d with
  | [] => []
  | (k', v) :: d' => if eq_dec k' k then d' else (k', v) :: del d' k
  end.

Definition keys (d : t) : list K := map fst d.
Definition values (d : t) : list V := map snd d.
Definition items (d : t) : list (K * V) := d.

(** The well-formedness of a dict: no key occurs twice. *)
Definition wf (d : t) : Prop := NoDup (keys d).
End Dict.
Arguments t : clear implicits.
End PyDict.

(** ** server/connection_manager.py *)

Definition time : Type := Z.
Definition socket : Type := nat.

(** A socket address [(ip, port)]. *)
Definition address : Type := (string * Z)%type.

(** I/O performed by the server core, in program order. The two user-list
    broadcasts of [server/utils.py] are logged as calls: the USER_LIST packets
    they write are theirs and are not unfolded into the log. *)
Inductive event : Type :=
| EvClose (s : socket)
| EvBroadcastUserList
| EvBroadcastRoomUserList (room_id : string)
| EvSendall (s : socket) (data : bytes) (ok : bool)
| EvSendto (a : address) (data : bytes) (ok : bool).

(** The value of [control_clients[sock]]. *)
Record client_info : Type := mk_client_info {
  info_addr : address;
  info_username : string;
  info_last_seen : time;
  info_id : string;
  info_room : string
}.

(** The value of [stream_clients[ip]]. *)
Record stream_info : Type := mk_stream_info {
  video : option address;
  audio : option address;
  stream_last_seen : time
}.

Record ConnectionManager : Type := mk_manager {
  control_clients : PyDict.t socket client_info;
  stream_clients : PyDict.t string stream_info;
  (** whether [server_ref] is set *)
  server_ref : bool
}.

Definition set_control (m : ConnectionManager) cc : ConnectionManager :=
  mk_manager cc (stream_clients m) (server_ref m).
Definition set_stream (m : ConnectionManager) sc : ConnectionManager :=
  mk_manager (control_clients m) sc (server_ref m).

Definition with_username (i : client_info) (u : string) : client_info :=
  mk_client_info (info_addr i) u (info_last_seen i) (info_id i) (info_room i).
Definition with_last_seen (i : client_info) (t : time) : client_info :=
  mk_client_info (info_addr i) (info_username i) t (info_id i) (info_room i).
Definition with_room (i : client_info) (r : string) : client_info :=
  mk_client_info (info_addr i) (info_username i) (info_last_seen i) (info_id i) r.

(** Truthiness of an optional string argument ([None] and [""] are falsy). *)
Definition truthy (s : option string) : bool :=
  match s with
  | Some s => negb (eqb_of s ""%string)
  | None => false
  end.

Definition nonempty (s : string) : bool := negb (eqb_of s ""%string).

(** What the network does with a write during one handler call. *)
Record Network : Type := mk_network {
  (** [sock.sendall(data)] returns normally *)
  send_ok : socket -> bool;
  (** [sock.getpeername()] returns normally *)
  peername_ok : socket -> bool;
  (** [udp_sock.sendto(data, addr)] returns normally *)
  sendto_ok : address -> bool
}.

(** The second loop of [broadcast_user_list(manager)]:
    [manager.remove_client(sock)] for every socket that could not be written
    to; [remove] is [manager.remove_client]. *)
Fixpoint remove_each
    (remove : ConnectionManager -> socket
              -> ConnectionManager * list event * (string * address))
    (m : ConnectionManager) (disconnected : list socket)
  : ConnectionManager * list event :=
  match disconnected with
  | [] => (m, [])
  | sock :: rest =>
      let '(m1, ev1, _) := remove m sock in
      let '(m2, ev2) := remove_each remove m1 rest in
      (m2, ev1 ++ ev2)
  end.

(** [broadcast_user_list(manager)] of [server/utils.py], given
    [manager.remove_client]: the USER_LIST packet is written to every member
    (these writes are the [EvBroadcastUserList] its callers log), and every
    member whose write failed is removed. *)
Definition broadcast_user_list_with
    (remove : ConnectionManager -> socket
              -> ConnectionManager * list event * (string * address))
    (net : Network) (m : ConnectionManager)
  : ConnectionManager * list event :=
  let disconnected :=
    filter (fun client_socket => negb (send_ok net client_socket))
           (PyDict.keys (control_clients m)) in
  remove_each remove m disconnected.

(** [remove_client(client_socket)] with the [broadcast_user_list(self)] it
    runs, which calls [remove_client] again. Every level of that recursion
    has popped a member with a name, so [fuel] at least the number of members
    is never used up ([remove_client_rec_fuel]). Returns
    [(username, address)]. *)
Fixpoint remove_client_rec (fuel : nat) (net : Network) (m : ConnectionManager)
    (client_socket : socket) {struct fuel}
  : ConnectionManager * list event * (string * address) :=
  let '(cc, username, addr, room_id, ev_close) :=
    match PyDict.get (control_clients m) client_socket with
    | Some client_info =>
        (PyDict.del (control_clients m) client_socket,
         info_username client_info, info_addr client_info,
         info_room client_info, [EvClose client_socket])
    | None =>
        (control_clients m, "Unknown"%string, ("0.0.0.0"%string, 0),
         "default"%string, [])
    end in
  let sc :=
    if PyDict.mem (stream_clients m) (fst addr)
    then PyDict.del (stream_clients m) (fst addr)
    else stream_clients m in
  let m := mk_manager cc sc (server_ref m) in
  if negb (eqb_of username "Unknown"%string) then
    let '(m, ev_removed) :=
      match fuel with
      | O => (m, [])
      | S fuel' => broadcast_user_list_with (remove_client_rec fuel' net) net m
      end in
    (m,
     ev_close ++ EvBroadcastUserList :: ev_removed ++
     (if server_ref m && nonempty room_id
      then [EvBroadcastRoomUserList room_id] else []),
     (username, addr))
  else (m, ev_close, (username, addr)).

(** [remove_client(client_socket)] *)
Definition remove_client (net : Network) (m : ConnectionManager)
    (client_socket : socket)
  : ConnectionManager * list event * (string * address) :=
  remove_client_rec (List.length (control_clients m)) net m client_socket.

(** [broadcast_user_list(manager)] *)
Definition broadcast_user_list (net : Network) (m : ConnectionManager)
  : ConnectionManager * list event :=
  broadcast_user_list_with (remove_client net) net m.

(** [add_client(client_socket, address, username="Unknown")] *)
Definition add_client (net : Network) (m : ConnectionManager)
    (client_socket : socket) (addr : address) (username : string) (now : time)
  : ConnectionManager * list event :=
  let client_id := (fst addr ++ ":" ++ str_of_Z (snd addr) ++ "_" ++ str_of_Z now)%string in
  let cc := PyDict.set (control_clients m) client_socket
              (mk_client_info addr username now client_id "default") in
  let current_room := "default"%string in
  let '(m, ev_removed) := broadcast_user_list net (set_control m cc) in
  (m,
   EvBroadcastUserList :: ev_removed ++
   (if server_ref m then [EvBroadcastRoomUserList current_room] else [])).

(** [update_client_status(client_socket, username=None, room=None)] *)
Definition update_client_status (m : ConnectionManager) (client_socket : socket)
    (username room : option string) (now : time)
  : ConnectionManager * list event * bool :=
  match PyDict.get (control_clients m) client_socket with
  | Some info =>
      let info := with_last_seen info now in
      let promote := truthy username && eqb_of (info_username info) "Unknown"%string in
      let info :=
        match username with
        | Some u => if promote then with_username info u else info
        | None => info
        end in
      let should_broadcast_global := promote in
      let info :=
        match room with
        | Some r => if truthy room then with_room info r else info
        | None => info
        end in
      let room_to_broadcast := info_room info in
      (set_control m (PyDict.set (control_clients m) client_socket info),
       (if should_broadcast_global then [EvBroadcastUserList] else []) ++
       (if server_ref m && nonempty room_to_broadcast
        then [EvBroadcastRoomUserList room_to_broadcast] else []),
       true)
  | None => (m, [], false)
  end.

(** The loop of [update_client_status_by_ip] over [control_clients.items()]:
    the first member at [ip_address] is updated in place. *)
Fixpoint update_first_by_ip (items : list (socket * client_info))
    (ip_address : string) (username room : option string) (now : time)
  : option (list (socket * client_info)) :=
  match items with
  | [] => None
  | (sock, info) :: rest =>
      if eqb_of (fst (info_addr info)) ip_address then
        let info := with_last_seen info now in
        let info :=
          match username with
          | Some u =>
              if truthy username && eqb_of (info_username info) "Unknown"%string
              then with_username info u else info
          | None => info
          end in
        let info :=
          match room with
          | Some r =>
              if truthy room then
                let current_room := info_room info in
                if negb (eqb_of r "default"%string)
                   || negb (nonempty current_room)
                   || eqb_of current_room "default"%string
                then with_room info r else info
              else info
          | None => info
          end in
        Some ((sock, info) :: rest)
      else
        match update_first_by_ip rest ip_address username room now with
        | Some rest' => Some ((sock, info) :: rest')
        | None => None
        end
  end.

(** [update_client_status_by_ip(ip_address, username=None, room=None)] *)
Definition update_client_status_by_ip (m : ConnectionManager)
    (ip_address : string) (username room : option string) (now : time)
  : ConnectionManager * bool :=
  match update_first_by_ip (PyDict.items (control_clients m))
          ip_address username room now with
  | Some cc => (set_control m cc, true)
  | None => (m, false)
  end.

(** [get_client_by_socket(client_socket)] *)
Definition get_client_by_socket (m : ConnectionManager) (client_socket : socket)
  : option client_info :=
  PyDict.get (control_clients m) client_socket.

(** The loop of [get_client_username_by_ip] over [control_clients.values()]. *)
Fixpoint first_known_username (infos : list client_info) (ip_address : string)
  : option string :=
  match infos with
  | [] => None
  | info :: rest =>
      if eqb_of (fst (info_addr info)) ip_address
         && negb (eqb_of (info_username info) "Unknown"%string)
      then Some (info_username info)
      else first_known_username rest ip_address
  end.

(** [get_client_username_by_ip(ip_address)] *)
Definition get_client_username_by_ip (m : ConnectionManager) (ip_address : string)
  : string :=
  match first_known_username (PyDict.values (control_clients m)) ip_address with
  | Some u => u
  | None => ip_address
  end.

Inductive stream_type : Type := Video | Audio.

(** [register_stream(stream_type, address)] *)
Definition register_stream (m : ConnectionManager) (st : stream_type)
    (addr : address) (now : time) : ConnectionManager :=
  let ip_addr := fst addr in
  let sc :=
    if PyDict.mem (stream_clients m) ip_addr then stream_clients m
    else PyDict.set (stream_clients m) ip_addr (mk_stream_info None None now) in
  match PyDict.get sc ip_addr with
  | Some info =>
      let info :=
        match st with
        | Video => mk_stream_info (Some addr) (audio info) (stream_last_seen info)
        | Audio => mk_stream_info (video info) (Some addr) (stream_last_seen info)
        end in
      set_stream m (PyDict.set sc ip_addr
                      (mk_stream_info (video info) (audio info) now))
  | None => set_stream m sc
  end.

(** [unregister_stream(stream_type, key)] for a key that is an address. *)
Definition unregister_stream (m : ConnectionManager) (st : stream_type)
    (key : address) (now : time) : ConnectionManager :=
  let ip := fst key in
  if negb (nonempty ip) then m
  else
    match PyDict.get (stream_clients m) ip with
    | Some info =>
        let info :=
          match st with
          | Audio => mk_stream_info (video info) None (stream_last_seen info)
          | Video => mk_stream_info None (audio info) (stream_last_seen info)
          end in
        set_stream m (PyDict.set (stream_clients m) ip
                        (mk_stream_info (video info) (audio info) now))
    | None => m
    end.

(** [_ip_in_room(ip_addr, room)] *)
Definition _ip_in_room (m : ConnectionManager) (ip_addr room : string) : bool :=
  existsb (fun info => eqb_of (fst (info_addr info)) ip_addr
                       && eqb_of (info_room info) room)
          (PyDict.values (control_clients m)).

(** [get_room_by_ip(ip_addr)] *)
Definition get_room_by_ip (m : ConnectionManager) (ip_addr : string) : string :=
  match find (fun info => eqb_of (fst (info_addr info)) ip_addr)
             (PyDict.values (control_clients m)) with
  | Some info => info_room info
  | None => "default"%string
  end.

(** The loop shared by [get_video_listeners] and [get_audio_listeners]. *)
Fixpoint collect_listeners (m : ConnectionManager)
    (sel : stream_info -> option address) (room : option string)
    (items : list (string * stream_info)) : list address :=
  match items with
  | [] => []
  | (ip_addr, info) :: rest =>
      match sel info with
      | Some a =>
          if match room with
             | None => true
             | Some r => _ip_in_room m ip_addr r
             end
          then a :: collect_listeners m sel room rest
          else collect_listeners m sel room rest
      | None => collect_listeners m sel room rest
      end
  end.

(** [get_video_listeners(room=None)] *)
Definition get_video_listeners (m : ConnectionManager) (room : option string)
  : list address :=
  collect_listeners m video room (PyDict.items (stream_clients m)).

(** [get_audio_listeners(room=None)] *)
Definition get_audio_listeners (m : ConnectionManager) (room : option string)
  : list address :=
  collect_listeners m audio room (PyDict.items (stream_clients m)).

(** [set_client_room(client_socket, room)] *)
Definition set_client_room (m : ConnectionManager) (client_socket : socket)
    (room : string) : ConnectionManager * list event :=
  match PyDict.get (control_clients m) client_socket with
  | Some info =>
      (set_control m (PyDict.set (control_clients m) client_socket
                        (with_room info room)),
       [EvBroadcastUserList])
  | None => (m, [])
  end.

(** ** Python values and the library functions the server calls *)

#[local] Set Warnings "-register-all".

(** A value produced by [json.loads]. Numbers are integers here; the only
    float the server itself puts into a message is [time.time()], which is a
    [time]. *)
Inductive json : Type :=
| JNull
| JBool (b : bool)
| JNum (z : Z)
| JStr (s : string)
| JList (l : list json)
| JObj (fields : list (string * json)).

(** Truth value of a Python object. *)
Definition json_truthy (v : json) : bool :=
  match v with
  | JNull => false
  | JBool b => b
  | JNum z => negb (z =? 0)
  | JStr s => nonempty s
  | JList l => match l with [] => false | _ => true end
  | JObj f => match f with [] => false | _ => true end
  end.

(** ** [str.lower] and [str.strip] on ASCII text

    On text that is all ASCII, [str.lower] maps [A-Z] to [a-z] and
    [str.strip] removes the blanks [\t\n\v\f\r], [\x1c-\x1f] and the space
    at both ends; the runtime below agrees with them there. *)

Definition lower_ascii (c : ascii) : ascii :=
  let n := nat_of_ascii c in
  if (65 <=? n)%nat && (n <=? 90)%nat then ascii_of_nat (n + 32) else c.

Fixpoint ascii_lower (s : string) : string :=
  match s with
  | EmptyString => EmptyString
  | String c s' => String (lower_ascii c) (ascii_lower s')
  end.

Definition is_space (c : ascii) : bool :=
  let n := nat_of_ascii c in
  ((9 <=? n)%nat && (n <=? 13)%nat) || ((28 <=? n)%nat && (n <=? 32)%nat).

Fixpoint lstrip (s : string) : string :=
  match s with
  | EmptyString => EmptyString
  | String c s' => if is_space c then lstrip s' else s
  end.

Fixpoint rstrip (s : string) : string :=
  match s with
  | EmptyString => EmptyString
  | String c s' =>
      match rstrip s' with
      | EmptyString => if is_space c then EmptyString else String c EmptyString
      | r => String c r
      end
  end.

Definition ascii_strip (s : string) : string := rstrip (lstrip s).

(** Text whose UTF-8 bytes are all below 128. *)
Fixpoint is_ascii (s : string) : bool :=
  match s with
  | EmptyString => true
  | String c s' => (nat_of_ascii c <? 128)%nat && is_ascii s'
  end.

(** The functions of the Python runtime that are used as black boxes:
    the [json] module, [str()] of an arbitrary value, [int()] of a string,
    [hashlib.md5], the Unicode case folding and blank stripping of [str] and
    the float arithmetic of the numpy mixer. *)
Class PyRuntime : Type := {
  (** [json.loads(text)]; [None] stands for [JSONDecodeError] *)
  json_loads : string -> option json;
  (** [json.dumps(value)] *)
  json_dumps : json -> string;
  (** [str(value)], as an f-string renders it *)
  py_str : json -> string;
  (** [int(text)]; [None] stands for [ValueError] *)
  py_int : string -> option Z;
  (** [hashlib.md5(data).hexdigest()] *)
  md5_hexdigest : bytes -> string;
  (** [text.lower()], on Unicode text *)
  lower : string -> string;
  (** [text.strip()], on Unicode text *)
  strip : string -> string;
  (** the numpy part of [mix_audio_chunks], on chunks of the canonical size *)
  mix_samples : list bytes -> bytes;
  lower_ascii_text : forall s, is_ascii s = true -> lower s = ascii_lower s;
  strip_ascii_text : forall s, is_ascii s = true -> strip s = ascii_strip s
}.

(** ** Text helpers: [str.join], [str.startswith] *)

(** [sep.join(items)] *)
Fixpoint join (sep : string) (items : list string) : string :=
  match items with
  | [] => EmptyString
  | [x] => x
  | x :: rest => (x ++ sep ++ join sep rest)%string
  end.

(** [s.startswith(p)] *)
Definition startswith (s p : string) : bool := String.prefix p s.

(** ** server/server_main.py: the room directory *)

(** The value of [rooms[meeting_id]] (its [metadata] field is never read). *)
Record room : Type := mk_room {
  clients : list socket;
  participants : PyDict.t string socket
}.

Record SaporaServer : Type := mk_server {
  manager : ConnectionManager;
  rooms : PyDict.t string room;
  client_rooms : PyDict.t socket string
}.

Definition set_manager (srv : SaporaServer) (m : ConnectionManager) : SaporaServer :=
  mk_server m (rooms srv) (client_rooms srv).

(** ** server/tcp_handler.py *)

Record TCPHandler : Type := mk_handler {
  (** whether [self.server] is set *)
  h_server : bool;
  h_sock : socket;
  h_address : address;
  h_username : string;
  h_meeting_id : string;
  h_running : bool
}.

(** [TCPHandler.__init__(manager, client_socket, address, server)] *)
Definition TCPHandler_init (net : Network) (srv : SaporaServer)
    (client_socket : socket) (addr : address) (now : time)
  : TCPHandler * SaporaServer * list event :=
  let h := mk_handler (server_ref (manager srv)) client_socket addr
             "Unknown" "default" true in
  let '(m, evs) := add_client net (manager srv) client_socket addr "Unknown" now in
  (h, set_manager srv m, evs).

(** The decoded payload of a REGISTER message, for payloads whose [username]
    and [meeting_id], when present, are JSON strings. *)
Inductive register_payload : Type :=
| RegInvalid
| RegData (username meeting_id : option string).

(** Decoding a REGISTER payload; [None] when a field is present with a value
    that is not a string, which this development does not cover. *)
Definition decode_register `{PyRuntime} (payload : bytes) : option register_payload :=
  match json_loads (decode payload) with
  | None => Some RegInvalid
  | Some (JObj data) =>
      match PyDict.get data "username"%string, PyDict.get data "meeting_id"%string with
      | Some (JStr u), Some (JStr r) => Some (RegData (Some u) (Some r))
      | Some (JStr u), None => Some (RegData (Some u) None)
      | None, Some (JStr r) => Some (RegData None (Some r))
      | None, None => Some (RegData None None)
      | _, _ => None
      end
  | Some _ => Some RegInvalid
  end.

(** [room['clients'].append(sock)] unless present. *)
Definition add_room_client (cl : list socket) (s : socket) : list socket :=
  if existsb (eqb_of s) cl then cl else cl ++ [s].

(** [_handle_register(payload)] *)
Definition _handle_register (h : TCPHandler) (srv : SaporaServer)
    (reg : register_payload) (now : time)
  : TCPHandler * SaporaServer * list event :=
  match reg with
  | RegInvalid => (h, srv, [])
  | RegData username meeting_id =>
      let username :=
        match username with
        | Some u => u
        | None => ("User-" ++ str_of_Z (snd (h_address h)))%string
        end in
      let meeting_id :=
        match meeting_id with Some r => r | None => "default"%string end in
      let h := mk_handler (h_server h) (h_sock h) (h_address h)
                 username meeting_id (h_running h) in
      let '(m, ev1, _) :=
        update_client_status (manager srv) (h_sock h) (Some username) None now in
      let '(m, ev2) := set_client_room m (h_sock h) meeting_id in
      let srv := set_manager srv m in
      if h_server h then
        let r :=
          match PyDict.get (rooms srv) meeting_id with
          | Some r => r
          | None => mk_room [] PyDict.empty
          end in
        let r := mk_room (add_room_client (clients r) (h_sock h))
                   (PyDict.set (participants r) username (h_sock h)) in
        let srv := mk_server (manager srv)
                     (PyDict.set (rooms srv) meeting_id r)
                     (PyDict.set (client_rooms srv) (h_sock h) meeting_id) in
        (h, srv, ev1 ++ ev2 ++ [EvBroadcastRoomUserList meeting_id])
      else (h, srv, ev1 ++ ev2)
  end.

(** A SYSTEM chat object as [_handle_chat] and [_send_to_targets] build it. *)
Definition system_message (target text : string) (now : time)
    (meeting_id type : string) : json :=
  JObj [("sender"%string, JStr "SYSTEM");
        ("target"%string, JStr target);
        ("text"%string, JStr text);
        ("timestamp"%string, JNum now);
        ("meeting_id"%string, JStr meeting_id);
        ("type"%string, JStr type)].

(** [pack_message(MSG_CHAT, json.dumps(msg).encode('utf-8'))] *)
Definition chat_packet_of `{PyRuntime} (msg : json) : result bytes :=
  pack_message MSG_CHAT (encode (json_dumps msg)).

(** The marks that open the confirmation texts, byte for byte as in the
    source file. *)
Definition DELIVERED_MARK : string :=
  string_of_list_byte [xe2; x80; x9a; xc3; xba; xc3; x96].
Definition FAILED_MARK : string :=
  string_of_list_byte [xe2; x80; x9a; xc3; xb9; xc3; xa5].

(** The first loop of [_send_to_targets]: counts, failed sockets, log. *)
Fixpoint send_loop (net : Network) (targets : list socket) (chat_packet : bytes)
  : Z * Z * list socket * list event :=
  match targets with
  | [] => (0, 0, [], [])
  | client_sock :: rest =>
      let '(sent_count, failed_count, failed_sockets, evs) :=
        send_loop net rest chat_packet in
      if send_ok net client_sock then
        (sent_count + 1, failed_count, failed_sockets,
         EvSendall client_sock chat_packet true :: evs)
      else
        (sent_count, failed_count + 1, client_sock :: failed_sockets,
         EvSendall client_sock chat_packet false :: evs)
  end.

(** The second loop: [remove_client] on every failed socket. *)
Fixpoint remove_failed (net : Network) (m : ConnectionManager)
    (failed_sockets : list socket) : ConnectionManager * list event :=
  match failed_sockets with
  | [] => (m, [])
  | sock :: rest =>
      let '(m1, ev1, _) := remove_client net m sock in
      let '(m2, ev2) := remove_failed net m1 rest in
      (m2, ev1 ++ ev2)
  end.

(** The confirmation object built at the end of [_send_to_targets]. *)
Definition confirm_message (h : TCPHandler) (delivery_status : string)
    (sent_count failed_count : Z) (now : time) : json :=
  let counts := (" (sent: " ++ str_of_Z sent_count ++ ", failed: "
                 ++ str_of_Z failed_count ++ ")")%string in
  if (sent_count >? 0) || (failed_count =? 0) then
    system_message (h_username h)
      (DELIVERED_MARK ++ " Message delivered: " ++ delivery_status ++ counts)
      now (h_meeting_id h) "delivery_confirm"
  else
    system_message (h_username h)
      (FAILED_MARK ++ " Message delivery failed: " ++ delivery_status ++ counts)
      now (h_meeting_id h) "error".

(** [_send_to_targets(targets, chat_packet, delivery_status)]. The last
    component is [Raise e] when packing the confirmation raises. *)
Definition _send_to_targets `{PyRuntime} (net : Network) (h : TCPHandler)
    (m : ConnectionManager) (targets : list socket) (chat_packet : bytes)
    (delivery_status : string) (now : time)
  : ConnectionManager * list event * result unit :=
  let '(sent_count, failed_count, failed_sockets, ev_send) :=
    send_loop net targets chat_packet in
  let '(m, ev_remove) := remove_failed net m failed_sockets in
  let confirm_msg := confirm_message h delivery_status sent_count failed_count now in
  match chat_packet_of confirm_msg with
  | Raise e => (m, ev_send ++ ev_remove, Raise e)
  | Ok confirm_packet =>
      (m, ev_send ++ ev_remove
          ++ [EvSendall (h_sock h) confirm_packet (send_ok net (h_sock h))],
       Ok tt)
  end.

(** [if key not in obj or not obj.get(key): obj[key] = value] *)
Definition fill_field (obj : PyDict.t string json) (key value : string)
  : PyDict.t string json :=
  if negb (PyDict.mem obj key)
     || negb (match PyDict.get obj key with
              | Some v => json_truthy v
              | None => false
              end)
  then PyDict.set obj key (JStr value) else obj.

(** The first [try] of [_handle_chat]: the packet to relay and the target.
    A payload that is not JSON is relayed as it is to the whole room. *)
Definition prepare_chat `{PyRuntime} (h : TCPHandler) (payload : bytes) (now : time)
  : result (bytes * json) :=
  match json_loads (decode payload) with
  | Some (JObj obj) =>
      let obj := fill_field obj "sender" (h_username h) in
      let obj := fill_field obj "meeting_id" (h_meeting_id h) in
      let target_username :=
        match PyDict.get obj "target"%string with
        | Some v => v
        | None => JStr "all"
        end in
      let obj := PyDict.set obj "timestamp"%string (JNum now) in
      do chat_packet <- chat_packet_of (JObj obj);
      Ok (chat_packet, target_username)
  | Some _ => Raise (TypeError "chat payload is not a JSON object")
  | None =>
      do chat_packet <- pack_message MSG_CHAT payload;
      Ok (chat_packet, JStr "all")
  end.

(** The dict comprehension [participants_ci]: a later name with the same
    folded key replaces the value of an earlier one. *)
Definition participants_ci `{PyRuntime} (ps : PyDict.t string socket)
  : PyDict.t string (string * socket) :=
  fold_left (fun acc '(name, sock) => PyDict.set acc (lower (strip name)) (name, sock))
            (PyDict.items ps) PyDict.empty.

(** [f"broadcast to {len(targets)} recipients"] *)
Definition broadcast_status (targets : list socket) : string :=
  ("broadcast to " ++ str_of_Z (Z.of_nat (List.length targets))
   ++ " recipients")%string.

(** Outcome of the routing decision taken under [rooms_lock]. *)
Inductive routing : Type :=
| RouteTo (targets : list socket) (delivery_status : string)
| RouteReply (error_packet : bytes)
| RouteRaise (e : exn).

(** The routing part of [_handle_chat] for a room that exists. *)
Definition route_chat `{PyRuntime} (net : Network) (h : TCPHandler) (r : room)
    (target_username : json) (now : time) : routing :=
  let unicast (target_text : string) :=
    let target_lower := lower (strip target_text) in
    let ci := participants_ci (participants r) in
    match PyDict.get ci target_lower with
    | Some (original_name, target_sock) =>
        if peername_ok net target_sock
        then RouteTo [target_sock] ("private to " ++ original_name)
        else RouteRaise (OSError "getpeername failed")
    | None =>
        let available_users := join ", " (PyDict.keys (participants r)) in
        match chat_packet_of
                (system_message (h_username h)
                   ("User " ++ DQUOTE ++ target_text ++ DQUOTE
                    ++ " not found. Available: " ++ available_users)
                   now (h_meeting_id h) "error") with
        | Ok error_packet => RouteReply error_packet
        | Raise e => RouteRaise e
        end
    end in
  let broadcast :=
    let targets := filter (fun s => negb (eqb_of s (h_sock h))) (clients r) in
    RouteTo targets (broadcast_status targets) in
  if json_truthy target_username then
    match target_username with
    | JStr t =>
        if negb (eqb_of (lower t) "all"%string || eqb_of (lower t) "everyone"%string)
        then unicast t else broadcast
    | _ => RouteRaise (AttributeError "object has no attribute 'lower'")
    end
  else broadcast.

(** The body of [_handle_chat]; the outer [except Exception] is applied by
    [_handle_chat] below. *)
Definition chat_body `{PyRuntime} (net : Network) (h : TCPHandler)
    (srv : SaporaServer) (payload : bytes) (now : time)
  : SaporaServer * list event * result unit :=
  match prepare_chat h payload now with
  | Raise e => (srv, [], Raise e)
  | Ok (chat_packet, target_username) =>
      if negb (h_server h) then
        let targets := filter (fun s => negb (eqb_of s (h_sock h)))
                         (PyDict.keys (control_clients (manager srv))) in
        let '(m, evs, r) := _send_to_targets net h (manager srv) targets
                              chat_packet (py_str target_username) now in
        (set_manager srv m, evs, r)
      else
        match PyDict.get (rooms srv) (h_meeting_id h) with
        | None =>
            match chat_packet_of
                    (system_message (h_username h)
                       ("Room " ++ DQUOTE ++ h_meeting_id h ++ DQUOTE
                        ++ " not found")
                       now (h_meeting_id h) "error") with
            | Ok error_packet =>
                (srv, [EvSendall (h_sock h) error_packet (send_ok net (h_sock h))],
                 Ok tt)
            | Raise e => (srv, [], Raise e)
            end
        | Some r =>
            match route_chat net h r target_username now with
            | RouteRaise e => (srv, [], Raise e)
            | RouteReply error_packet =>
                (srv, [EvSendall (h_sock h) error_packet (send_ok net (h_sock h))],
                 Ok tt)
            | RouteTo targets delivery_status =>
                let '(m, evs, res) := _send_to_targets net h (manager srv) targets
                                        chat_packet delivery_status now in
                (set_manager srv m, evs, res)
            end
        end
  end.

(** [_handle_chat(payload)]: an exception of the body is printed and dropped. *)
Definition _handle_chat `{PyRuntime} (net : Network) (h : TCPHandler)
    (srv : SaporaServer) (payload : bytes) (now : time)
  : SaporaServer * list event :=
  let '(srv, evs, _) := chat_body net h srv payload now in (srv, evs).

(** [list.remove(x)]: the first occurrence. *)
Fixpoint list_remove_first (l : list socket) (x : socket) : list socket :=
  match l with
  | [] => []
  | y :: l' => if eqb_of y x then l' else y :: list_remove_first l' x
  end.

(** The loop of [_cleanup] that deletes the first name bound to [sock]. *)
Fixpoint del_first_value (ps : PyDict.t string socket) (sock : socket)
  : PyDict.t string socket :=
  match ps with
  | [] => []
  | (uname, s) :: ps' =>
      if eqb_of s sock then ps' else (uname, s) :: del_first_value ps' sock
  end.

(** [_cleanup()]. The last component tells whether the call returns. It
    does not when the socket is recorded in a room that exists: the method
    then calls [broadcast_room_user_list] while it holds [rooms_lock], that
    function asks for the same lock, and [rooms_lock] is a [threading.Lock],
    which its holder cannot take again. The call stays blocked there, before
    the deletion of an empty room and before the socket is closed; what the
    method did until then is done. *)
Definition _cleanup (net : Network) (h : TCPHandler) (srv : SaporaServer)
  : TCPHandler * SaporaServer * list event * bool :=
  if negb (h_running h) then (h, srv, [], true)
  else
    let h := mk_handler (h_server h) (h_sock h) (h_address h) (h_username h)
               (h_meeting_id h) false in
    let '(m, ev1, _) := remove_client net (manager srv) (h_sock h) in
    let srv := set_manager srv m in
    let returns := (h, srv, ev1 ++ [EvClose (h_sock h)], true) in
    if h_server h then
      match PyDict.get (client_rooms srv) (h_sock h) with
      | Some room_id =>
          let srv := mk_server (manager srv) (rooms srv)
                       (PyDict.del (client_rooms srv) (h_sock h)) in
          if nonempty room_id then
            match PyDict.get (rooms srv) room_id with
            | Some r =>
                let r := mk_room (list_remove_first (clients r) (h_sock h))
                           (del_first_value (participants r) (h_sock h)) in
                (h,
                 mk_server (manager srv) (PyDict.set (rooms srv) room_id r)
                   (client_rooms srv),
                 ev1, false)
            | None => (h, srv, ev1 ++ [EvClose (h_sock h)], true)
            end
          else (h, srv, ev1 ++ [EvClose (h_sock h)], true)
      | None => returns
      end
    else returns.

(** ** server/udp_audio_server.py *)

(** Seconds a source may stay silent; [time] counts milliseconds. *)
Definition CLIENT_TIMEOUT : Z := 5000.

Record UDPAudioServer : Type := mk_audio_server {
  (** [(ip, port)] to its [deque(maxlen=10)] of chunks, oldest first *)
  audio_buffers : PyDict.t address (list bytes);
  last_seen : PyDict.t address time
}.

(** [deque(maxlen=10).append(x)] *)
Definition deque_append (buffer : list bytes) (x : bytes) : list bytes :=
  if (10 <=? List.length buffer)%nat then tl buffer ++ [x] else buffer ++ [x].

(** The fields of a REGISTER datagram, when they are absent or strings. *)
Definition decode_udp_register `{PyRuntime} (payload : bytes)
  : option register_payload :=
  match json_loads (decode payload) with
  | None => Some RegInvalid
  | Some (JObj data) =>
      match PyDict.get data "username"%string, PyDict.get data "room"%string with
      | Some (JStr u), Some (JStr r) => Some (RegData (Some u) (Some r))
      | Some (JStr u), None => Some (RegData (Some u) None)
      | None, Some (JStr r) => Some (RegData None (Some r))
      | None, None => Some (RegData None None)
      | _, _ => None
      end
  | Some _ => Some RegInvalid
  end.

(** [_handle_incoming_chunk(data, sender_addr)]; [None] for a REGISTER
    datagram whose fields are outside [decode_udp_register]. *)
Definition _handle_incoming_chunk `{PyRuntime} (a : UDPAudioServer)
    (m : ConnectionManager) (data : bytes) (sender_addr : address) (now : time)
  : option (UDPAudioServer * ConnectionManager) :=
  match unpack_message data with
  | Raise _ => Some (a, m)
  | Ok (version, msg_type, payload_length, seq_num, payload) =>
      if msg_type =? STREAM_AUDIO then
        let key := sender_addr in
        let buffer :=
          match PyDict.get (audio_buffers a) key with
          | Some b => b
          | None => []
          end in
        Some (mk_audio_server
                (PyDict.set (audio_buffers a) key (deque_append buffer payload))
                (PyDict.set (last_seen a) key now),
              m)
      else if msg_type =? CMD_REGISTER then
        match decode_udp_register payload with
        | None => None
        | Some RegInvalid => Some (a, m)
        | Some (RegData username room_id) =>
            let username :=
              match username with Some u => u | None => "Unknown"%string end in
            let room_id :=
              match room_id with Some r => r | None => "default"%string end in
            Some (a, fst (update_client_status_by_ip m (fst sender_addr)
                            (Some username) (Some room_id) now))
        end
      else Some (a, m)
  end.

(** One datagram of the receive loop of [run]. *)
Definition audio_receive `{PyRuntime} (a : UDPAudioServer) (m : ConnectionManager)
    (data : bytes) (sender_addr : address) (now : time)
  : option (UDPAudioServer * ConnectionManager) :=
  _handle_incoming_chunk a (register_stream m Audio sender_addr now)
    data sender_addr now.

(** [mix_audio_chunks(chunks)] of [server/utils.py]: only chunks of the
    canonical size are mixed; the arithmetic is [mix_samples]. *)
Definition mix_audio_chunks `{PyRuntime} (chunks : list bytes) : option bytes :=
  match chunks with
  | [] => None
  | _ =>
      let bytes_per_chunk := AUDIO_CHUNK * AUDIO_CHANNELS * AUDIO_FORMAT_PCM in
      let arrays := filter (fun chunk => blen chunk =? bytes_per_chunk) chunks in
      match arrays with
      | [] => None
      | _ => Some (mix_samples arrays)
      end
  end.

(** First loop of [_audio_mixer]: pop the oldest chunk of every buffer that
    has one. *)
Fixpoint pop_chunks (buffers : list (address * list bytes))
  : list (address * list bytes) * list (address * bytes) :=
  match buffers with
  | [] => ([], [])
  | (key, buffer) :: rest =>
      let '(rest', chunks_to_mix) := pop_chunks rest in
      match buffer with
      | [] => ((key, buffer) :: rest', chunks_to_mix)
      | chunk :: buffer' => ((key, buffer') :: rest', (key, chunk) :: chunks_to_mix)
      end
  end.

(** The inner loop over [chunks_to_mix] for one target. *)
Fixpoint sources_for_mix (m : ConnectionManager) (target : address)
    (target_room : string) (chunks_to_mix : list (address * bytes)) : list bytes :=
  match chunks_to_mix with
  | [] => []
  | (addr, chunk) :: rest =>
      if eqb_of addr target then sources_for_mix m target target_room rest
      else
        let src_room := get_room_by_ip m (fst addr) in
        if eqb_of src_room target_room
        then chunk :: sources_for_mix m target target_room rest
        else sources_for_mix m target target_room rest
  end.

(** The loop of [_audio_mixer] over [all_targets]. A [pack_message] that
    raises ends the loop (and the mixer thread). *)
Fixpoint mix_fanout `{PyRuntime} (net : Network) (m : ConnectionManager)
    (chunks_to_mix : list (address * bytes)) (all_targets : list address)
    (now : time) : ConnectionManager * list event * result unit :=
  match all_targets with
  | [] => (m, [], Ok tt)
  | target :: rest =>
      let target_room := get_room_by_ip m (fst target) in
      let sources := sources_for_mix m target target_room chunks_to_mix in
      match sources with
      | [] => mix_fanout net m chunks_to_mix rest now
      | _ =>
          match mix_audio_chunks sources with
          | None => mix_fanout net m chunks_to_mix rest now
          | Some [] => mix_fanout net m chunks_to_mix rest now
          | Some mixed_audio =>
              match pack_message STREAM_AUDIO mixed_audio with
              | Raise e => (m, [], Raise e)
              | Ok packet =>
                  let ok := sendto_ok net target in
                  let m := if ok then m else unregister_stream m Audio target now in
                  let '(m, evs, res) := mix_fanout net m chunks_to_mix rest now in
                  (m, EvSendto target packet ok :: evs, res)
              end
          end
      end
  end.

(** The keys of [last_seen] older than the cutoff, and the rest. *)
Fixpoint split_stale (seen : list (address * time)) (cutoff : time)
  : list address * list (address * time) :=
  match seen with
  | [] => ([], [])
  | (key, ts) :: rest =>
      let '(removed, kept) := split_stale rest cutoff in
      if ts <? cutoff then (key :: removed, kept) else (removed, (key, ts) :: kept)
  end.

(** [_cleanup_stale_clients()] *)
Definition _cleanup_stale_clients (a : UDPAudioServer) (m : ConnectionManager)
    (now : time) : UDPAudioServer * ConnectionManager :=
  let cutoff := now - CLIENT_TIMEOUT in
  let '(removed, kept) := split_stale (PyDict.items (last_seen a)) cutoff in
  let buffers :=
    fold_left (fun bs key => if PyDict.mem bs key then PyDict.del bs key else bs)
      removed (audio_buffers a) in
  let m := fold_left (fun m key => unregister_stream m Audio key now) removed m in
  (mk_audio_server buffers kept, m).

(** One iteration of the loop of [_audio_mixer], without its sleep. *)
Definition mixer_tick `{PyRuntime} (net : Network) (a : UDPAudioServer)
    (m : ConnectionManager) (now : time)
  : UDPAudioServer * ConnectionManager * list event * result unit :=
  let '(buffers, chunks_to_mix) := pop_chunks (PyDict.items (audio_buffers a)) in
  let a := mk_audio_server buffers (last_seen a) in
  match chunks_to_mix with
  | [] =>
      let '(a, m) := _cleanup_stale_clients a m now in
      (a, m, [], Ok tt)
  | _ =>
      let all_targets := get_audio_listeners m None in
      match mix_fanout net m chunks_to_mix all_targets now with
      | (m, evs, Raise e) => (a, m, evs, Raise e)
      | (m, evs, Ok _) =>
          let '(a, m) := _cleanup_stale_clients a m now in
          (a, m, evs, Ok tt)
      end
  end.

(** *** Vocabulary of the statements about the mixer *)

(** The packets of a log that went to listener [L]. *)
Definition sent_to (L : address) (evs : list event) : list event :=
  filter (fun e => match e with
                   | EvSendto a _ _ => eqb_of a L
                   | _ => false
                   end) evs.

(** The popped chunks that may be mixed for [L]: those of another source
    address whose IP is in the room of [L]'s IP. *)
Definition mix_inputs (m : ConnectionManager) (L : address)
    (chunks_to_mix : list (address * bytes)) : list (address * bytes) :=
  filter (fun ac => negb (eqb_of (fst ac) L)
                    && eqb_of (get_room_by_ip m (fst (fst ac)))
                              (get_room_by_ip m (fst L)))
         chunks_to_mix.

(** Every stream entry is filed under the IP of the addresses it holds. *)
Definition stream_ok (sc : PyDict.t string stream_info) : Prop :=
  PyDict.wf sc /\
  forall ip info, In (ip, info) sc ->
    (forall a, video info = Some a -> fst a = ip) /\
    (forall a, audio info = Some a -> fst a = ip).

(** ** shared/helpers.py: file metadata *)

(** The dict returned by [unpack_file_metadata]. *)
Record file_metadata : Type := mk_file_metadata {
  md_filename : json;
  md_filesize : json;
  md_checksum : json;
  md_target : json
}.

(** [data[lo:lo+n]] *)
Definition slice (data : bytes) (lo n : Z) : bytes :=
  firstn (Z.to_nat n) (skipn (Z.to_nat lo) data).

(** [pack_file_metadata(filename, filesize, checksum="", target="all")] *)
Definition pack_file_metadata `{PyRuntime} (filename : string) (filesize : Z)
    (checksum target : string) : bytes :=
  encode (json_dumps (JObj [("filename"%string, JStr filename);
                            ("filesize"%string, JNum filesize);
                            ("checksum"%string, JStr checksum);
                            ("target"%string, JStr target)])).

(** [unpack_file_metadata(data)]: JSON first, the length-prefixed binary form
    when the payload is not JSON. *)
Definition unpack_file_metadata `{PyRuntime} (data : bytes) : result file_metadata :=
  match json_loads (decode data) with
  | Some (JObj obj) =>
      let field (key : string) (default : json) :=
        match PyDict.get obj key with Some v => v | None => default end in
      Ok (mk_file_metadata (field "filename"%string (JStr ""))
            (field "filesize"%string (JNum 0))
            (field "checksum"%string (JStr ""))
            (field "target"%string (JStr "all")))
  | Some _ => Raise (AttributeError "object has no attribute 'get'")
  | None =>
      let offset := 0 in
      do filename_length <- Struct.unpack_I (slice data offset 4);
      let offset := offset + 4 in
      let filename := decode (slice data offset filename_length) in
      let offset := offset + filename_length in
      do filesize <- Struct.unpack_Q (slice data offset 8);
      let offset := offset + 8 in
      do checksum_length <- Struct.unpack_I (slice data offset 4);
      let offset := offset + 4 in
      let checksum := decode (slice data offset checksum_length) in
      Ok (mk_file_metadata (JStr filename) (JNum filesize) (JStr checksum)
            (JStr "all"))
  end.

(** ** Paths: [pathlib.Path], on a file system without symbolic links

    An absolute path is the list of its components. [resolve] makes a path
    absolute against the working directory and removes [.], empty components
    and [..] (which stops at the root). *)

Definition path : Type := list string.

(** [text.split("/")] *)
Fixpoint split_slash (text : string) : list string :=
  match text with
  | EmptyString => [EmptyString]
  | String c rest =>
      if Ascii.eqb c "/"%char then EmptyString :: split_slash rest
      else
        match split_slash rest with
        | [] => [String c EmptyString]
        | x :: xs => String c x :: xs
        end
  end.

(** Components in reverse order while normalising. *)
Fixpoint normalize_onto (stack : list string) (parts : list string) : list string :=
  match parts with
  | [] => rev stack
  | part :: rest =>
      if eqb_of part ""%string || eqb_of part "."%string then
        normalize_onto stack rest
      else if eqb_of part ".."%string then
        normalize_onto (tl stack) rest
      else normalize_onto (part :: stack) rest
  end.

Definition normalize (parts : list string) : path := normalize_onto [] parts.

(** [Path(STORAGE_DIR).resolve()] in working directory [cwd]. *)
Definition storage_root (cwd : path) : path :=
  normalize (cwd ++ split_slash STORAGE_DIR).

(** [(storage_dir / filename).resolve()]: an absolute [filename] replaces the
    storage directory. *)
Definition resolve_in_storage (cwd : path) (filename : string) : path :=
  if startswith filename "/" then normalize (split_slash filename)
  else normalize (cwd ++ split_slash STORAGE_DIR ++ split_slash filename).

(** [str(p)] of an absolute path. *)
Definition path_str (p : path) : string :=
  match p with
  | [] => "/"
  | _ => String.concat "" (map (fun part => String "/" part) p)
  end.

(** The test both handlers apply:
    [str(file_path).startswith(str(self.storage_dir.resolve()))]. *)
Definition path_check (cwd : path) (file_path : path) : bool :=
  startswith (path_str file_path) (path_str (storage_root cwd)).

(** [root] is [p] or one of its ancestors. *)
Fixpoint is_under (root p : path) : bool :=
  match root, p with
  | [], _ => true
  | r :: root', x :: p' => eqb_of r x && is_under root' p'
  | _ :: _, [] => false
  end.

(** ** server/file_server.py

    The storage is a map from the paths of regular files to their contents.
    Whether a path can be opened for writing is up to the host: the parent
    directory may be missing, the path may be a directory, the permissions
    may forbid it. An [open] that fails leaves the storage as it is. A write
    to an open file and the [unlink] of a regular file succeed. *)

Definition filesystem : Type := PyDict.t string bytes.

Record Host : Type := mk_host {
  (** the exception of [open(path, 'wb')], if it raises *)
  open_error : string -> option exn;
  (** [path.is_dir()] *)
  is_dir : string -> bool;
  (** a directory cannot be opened for writing *)
  dir_not_opened : forall p, is_dir p = true -> open_error p <> None
}.

(** What one read of [read_tcp_message] on the transfer socket gives. *)
Inductive recv : Type :=
| RecvNone
| RecvTimeout
| RecvRaw (raw : bytes).

(** The log of a file handler: replies on the transfer socket, operations on
    the storage, and writes to control sockets (the availability notice). *)
Inductive file_event : Type :=
| FReply (data : bytes)
  (** [open(p, 'wb')] that succeeded: [p] is created or truncated *)
| FsOpenWrite (p : string)
| FsWrite (p : string) (data : bytes)
| FsOpenRead (p : string)
| FsRead (p : string)
  (** a call of [p.unlink()] *)
| FsUnlink (p : string)
| FsExists (p : string)
| FsStat (p : string)
| FNet (e : event).

(** The path a storage operation is applied to. *)
Definition fs_path (e : file_event) : option string :=
  match e with
  | FsOpenWrite p | FsWrite p _ | FsOpenRead p | FsRead p | FsUnlink p
  | FsExists p | FsStat p => Some p
  | FReply _ | FNet _ => None
  end.

Record FileHandler : Type := mk_file_handler {
  fh_ip : string;
  fh_port : Z;
  (** the working directory against which [storage_dir] is resolved *)
  fh_cwd : path
}.

(** [int(value)] *)
Definition int_of_json `{PyRuntime} (v : json) : result Z :=
  match v with
  | JNum z => Ok z
  | JBool b => Ok (if b then 1 else 0)
  | JStr text =>
      match py_int text with
      | Some z => Ok z
      | None => Raise (ValueError "invalid literal for int()")
      end
  | _ => Raise (TypeError "int() argument must be a string or a number")
  end.

(** [value == text] for a string [text]. *)
Definition json_is_str (v : json) (text : string) : bool :=
  match v with
  | JStr t => eqb_of t text
  | _ => false
  end.

(** [str(value)] where the value is usually a string. *)
Definition text_of `{PyRuntime} (v : json) : string :=
  match v with
  | JStr t => t
  | _ => py_str v
  end.

(** [self._safe_send(pack_message(msg_type, payload))] *)
Definition safe_reply (msg_type : Z) (payload : bytes) : list file_event :=
  match pack_message msg_type payload with
  | Ok packet => [FReply packet]
  | Raise _ => []
  end.

(** [_calculate_md5(file_path)] *)
Definition _calculate_md5 `{PyRuntime} (fs : filesystem) (p : string) : option string :=
  match PyDict.get fs p with
  | Some content => Some (md5_hexdigest content)
  | None => None
  end.

(** The notification object of [_notify_file_availability]. *)
Definition file_notification (m : ConnectionManager) (fh : FileHandler)
    (filename : string) (filesize : Z) (target_users : list json) (now : time)
  : json :=
  let sender_username := get_client_username_by_ip m (fh_ip fh) in
  JObj [("type"%string, JStr "file_announce");
        ("filename"%string, JStr filename);
        ("sender"%string, JStr sender_username);
        ("size"%string, JNum filesize);
        ("target"%string, match target_users with
                          | [t] => t
                          | _ => JStr "all"
                          end);
        ("timestamp"%string, JNum now)].

(** [notification.get(key, default)] *)
Definition obj_get (v : json) (key : string) (default : json) : json :=
  match v with
  | JObj fields =>
      match PyDict.get fields key with Some x => x | None => default end
  | _ => default
  end.

(** [_broadcast_file_notification(notification)] *)
Definition _broadcast_file_notification `{PyRuntime} (net : Network)
    (fh : FileHandler) (srv : SaporaServer) (notification : json) : list event :=
  let target := obj_get notification "target" (JStr "all") in
  let sender_room := get_room_by_ip (manager srv) (fh_ip fh) in
  if negb (nonempty sender_room) then []
  else
    match PyDict.get (rooms srv) sender_room with
    | None => []
    | Some r =>
        let ps := participants r in
        let folded := lower (strip (text_of target)) in
        let targets :=
          if eqb_of folded "all"%string || eqb_of folded "everyone"%string
             || eqb_of folded ""%string
          then PyDict.values ps
          else
            let ci := fold_left (fun acc '(name, sock) =>
                                   PyDict.set acc (lower (strip name)) sock)
                        (PyDict.items ps) PyDict.empty in
            match PyDict.get ci folded with
            | Some target_sock => [target_sock]
            | None => []
            end in
        let targets :=
          match obj_get notification "sender" JNull with
          | JStr sndr =>
              if nonempty sndr then
                match PyDict.get ps sndr with
                | Some sender_sock =>
                    filter (fun s => negb (eqb_of s sender_sock)) targets
                | None => targets
                end
              else targets
          | _ => targets
          end in
        match pack_message MSG_CHAT (encode (json_dumps notification)) with
        | Raise _ => []
        | Ok packet => map (fun sock => EvSendall sock packet (send_ok net sock)) targets
        end
    end.

(** [_notify_file_availability(filename, filesize, target_users)] *)
Definition _notify_file_availability `{PyRuntime} (net : Network)
    (fh : FileHandler) (srv : SaporaServer) (filename : string) (filesize : Z)
    (target_users : list json) (now : time) : list event :=
  let notification :=
    file_notification (manager srv) fh filename filesize target_users now in
  if server_ref (manager srv)
  then _broadcast_file_notification net fh srv notification
  else [].

(** The receive loop of an upload: the bytes written so far, the log, and
    the final [bytes_received] or the exception that ended the loop. *)
Fixpoint receive_chunks (incoming : list recv) (p : string)
    (filesize bytes_received : Z) (content : bytes)
  : bytes * list file_event * result Z :=
  if bytes_received <? filesize then
    match incoming with
    | [] | RecvNone :: _ =>
        (content, [],
         Raise (ConnectionAbortedError "Connection lost during file transfer"))
    | RecvTimeout :: _ => (content, [], Raise (SocketTimeout "timed out"))
    | RecvRaw chunk_raw :: rest =>
        match unpack_message chunk_raw with
        | Raise e => (content, [], Raise e)
        | Ok (_, chunk_type, _, _, chunk_payload) =>
            if negb (chunk_type =? FILE_CHUNK) then
              (content, [],
               Raise (ValueError ("Unexpected message type ("
                                  ++ str_of_Z chunk_type ++ ") during upload")))
            else
              let '(content', evs, res) :=
                receive_chunks rest p filesize
                  (bytes_received + blen chunk_payload)
                  (content ++ chunk_payload) in
              (content', FsWrite p chunk_payload :: evs, res)
        end
    end
  else (content, [], Ok bytes_received).

(** The [except Exception] branch that ends a failed upload; the file was
    opened, so it exists and is unlinked. *)
Definition upload_failed (fs : filesystem) (p : string) (e : exn)
  : filesystem * list file_event :=
  (PyDict.del fs p,
   [FsExists p; FsUnlink p] ++ safe_reply FILE_ACK_FAILURE (encode (exn_message e))).

(** The [except Exception] branch when [open] raised: whatever is at the
    path is there from before; a regular file is unlinked, the [unlink] of a
    directory raises and is swallowed. *)
Definition upload_not_opened (host : Host) (fs : filesystem) (p : string) (e : exn)
  : filesystem * list file_event :=
  let ev_reply := safe_reply FILE_ACK_FAILURE (encode (exn_message e)) in
  if is_dir host p then (fs, [FsExists p; FsUnlink p] ++ ev_reply)
  else if PyDict.mem fs p then (PyDict.del fs p, [FsExists p; FsUnlink p] ++ ev_reply)
  else (fs, FsExists p :: ev_reply).

(** The transfer after [open] succeeded. *)
Definition upload_receive `{PyRuntime} (net : Network) (fh : FileHandler)
    (srv : SaporaServer) (fs : filesystem) (filename : string) (p : string)
    (filesize : Z) (checksum : json) (target_users : list json)
    (incoming : list recv) (now : time) : filesystem * list file_event :=
  let '(content, ev_write, res) := receive_chunks incoming p filesize 0 [] in
  let fs := PyDict.set fs p content in
  match res with
  | Raise e =>
      let '(fs, evs) := upload_failed fs p e in
      (fs, FsOpenWrite p :: ev_write ++ evs)
  | Ok bytes_received =>
      if negb (bytes_received =? filesize) then
        let '(fs, evs) :=
          upload_failed fs p
            (IOError ("Received size mismatch (got " ++ str_of_Z bytes_received
                      ++ ", expected " ++ str_of_Z filesize ++ ")")) in
        (fs, FsOpenWrite p :: ev_write ++ evs)
      else
        let success :=
          (fs, FsOpenWrite p :: ev_write
               ++ safe_reply FILE_ACK_SUCCESS (encode "Upload successful")
               ++ map FNet (_notify_file_availability net fh srv filename
                              filesize target_users now)) in
        if json_truthy checksum then
          let actual_checksum := _calculate_md5 fs p in
          if match actual_checksum with
             | Some actual => negb (json_is_str checksum actual)
             | None => true
             end
          then
            (PyDict.del fs p,
             FsOpenWrite p :: ev_write ++ [FsRead p; FsUnlink p]
             ++ safe_reply FILE_ACK_FAILURE (encode "Checksum mismatch"))
          else
            (fst success,
             FsOpenWrite p :: ev_write ++ [FsRead p]
             ++ safe_reply FILE_ACK_SUCCESS (encode "Upload successful")
             ++ map FNet (_notify_file_availability net fh srv filename
                            filesize target_users now))
        else success
  end.

(** The transfer part of [_handle_upload_request], from [open] on. *)
Definition upload_transfer `{PyRuntime} (net : Network) (host : Host)
    (fh : FileHandler) (srv : SaporaServer) (fs : filesystem) (filename : string)
    (p : string) (filesize : Z) (checksum : json) (target_users : list json)
    (incoming : list recv) (now : time) : filesystem * list file_event :=
  match open_error host p with
  | Some e => upload_not_opened host fs p e
  | None =>
      upload_receive net fh srv fs filename p filesize checksum target_users
        incoming now
  end.

(** [_handle_upload_request(payload)]. The last component is the exception
    that leaves the method, if any (a [filename] that is not a string). *)
Definition _handle_upload_request `{PyRuntime} (net : Network) (host : Host)
    (fh : FileHandler) (srv : SaporaServer) (fs : filesystem) (payload : bytes)
    (incoming : list recv) (now : time)
  : filesystem * list file_event * option exn :=
  match (do metadata <- unpack_file_metadata payload;
         do filesize <- int_of_json (md_filesize metadata);
         Ok (metadata, filesize)) with
  | Raise _ =>
      (fs, safe_reply FILE_ACK_FAILURE (encode "Invalid metadata"), None)
  | Ok (metadata, filesize) =>
      let filename := md_filename metadata in
      let checksum := md_checksum metadata in
      let target_info := md_target metadata in
      let target_users :=
        if json_truthy target_info && negb (json_is_str target_info "all")
        then [target_info] else [JStr "all"] in
      if negb (json_truthy filename) || (filesize <=? 0) then
        (fs, safe_reply FILE_ACK_FAILURE (encode "Invalid filename or filesize"),
         None)
      else if filesize >? MAX_FILE_SIZE then
        (fs, safe_reply FILE_ACK_FAILURE (encode "File too large"), None)
      else
        match filename with
        | JStr name =>
            let file_path := resolve_in_storage (fh_cwd fh) name in
            if negb (path_check (fh_cwd fh) file_path) then
              (fs, safe_reply FILE_ACK_FAILURE (encode "Invalid filename"), None)
            else
              let '(fs, evs) :=
                upload_transfer net host fh srv fs name (path_str file_path)
                  filesize checksum target_users incoming now in
              (fs, evs, None)
        | _ => (fs, [], Some (TypeError "unsupported operand type(s) for /"))
        end
  end.

(** The reads [f.read(FILE_CHUNK_SIZE)] of a download until the empty read. *)
Fixpoint read_chunks (fuel : nat) (content : bytes) : list bytes :=
  match fuel with
  | O => []
  | S fuel' =>
      match content with
      | [] => []
      | _ =>
          firstn (Z.to_nat FILE_CHUNK_SIZE) content
          :: read_chunks fuel' (skipn (Z.to_nat FILE_CHUNK_SIZE) content)
      end
  end.

(** [_handle_download_request(payload)] *)
Definition _handle_download_request `{PyRuntime} (fh : FileHandler)
    (fs : filesystem) (payload : bytes) : list file_event :=
  let filename := decode payload in
  let file_path := resolve_in_storage (fh_cwd fh) filename in
  if negb (path_check (fh_cwd fh) file_path) then
    safe_reply FILE_ACK_FAILURE (encode "Invalid filename")
  else
    let p := path_str file_path in
    match PyDict.get fs p with
    | None => FsExists p :: safe_reply FILE_ACK_FAILURE (encode "File not found")
    | Some content =>
        let filesize := blen content in
        let checksum := md5_hexdigest content in
        let metadata := pack_file_metadata filename filesize checksum "all" in
        [FsExists p; FsStat p; FsRead p]
        ++ match pack_message FILE_METADATA metadata with
           | Raise _ => []
           | Ok packet =>
               FReply packet :: FsOpenRead p
               :: flat_map (fun chunk => safe_reply FILE_CHUNK chunk)
                    (read_chunks (List.length content) content)
           end
    end.

(** *** Vocabulary of the statements about the file server *)

(** The reply packets of a log. *)
Definition replies (evs : list file_event) : list bytes :=
  flat_map (fun e => match e with FReply data => [data] | _ => [] end) evs.

(** The storage operations of a log. *)
Definition storage_ops (evs : list file_event) : list file_event :=
  filter (fun e => match fs_path e with Some _ => true | None => false end) evs.

(** The writes to control sockets of a log. *)
Definition notices (evs : list file_event) : list event :=
  flat_map (fun e => match e with FNet ev => [ev] | _ => [] end) evs.

(** The message type of a reply packet. *)
Definition reply_type (packet : bytes) : option Z :=
  match unpack_message packet with
  | Ok (_, msg_type, _, _, _) => Some msg_type
  | Raise _ => None
  end.

(** The bytes a log wrote to storage, in order. *)
Definition written (evs : list file_event) : bytes :=
  flat_map (fun e => match e with FsWrite _ data => data | _ => [] end) evs.


(** An upload request whose metadata can be read: whatever form the payload
    has (a JSON object with its keys in any order, with further keys, with
    keys left out, or the length-prefixed binary form), [unpack_file_metadata]
    reads from it the name [filename], a size that [int()] turns into
    [filesize], the checksum and the target. *)
Definition upload_request `{PyRuntime} (payload : bytes) (filename : string)
    (filesize : Z) (checksum target : json) : Prop :=
  exists metadata,
    unpack_file_metadata payload = Ok metadata /\
    md_filename metadata = JStr filename /\
    int_of_json (md_filesize metadata) = Ok filesize /\
    md_checksum metadata = checksum /\
    md_target metadata = target.

(** ** The control server as a transition system

    The live handler threads and the shared server state. A step is one call
    of a handler method, made while [rooms_lock] is free and run until it
    returns or blocks. A [_cleanup] that blocks holds [rooms_lock] from then
    on: every later call that needs the lock (a registration, a chat message,
    a cleanup, and every call of [broadcast_room_user_list]) blocks before it
    touches the room directory, so from then on the registry and the handlers
    may still change and the room directory cannot ([step_frozen]). *)

Record system : Type := mk_system {
  sys_srv : SaporaServer;
  sys_handlers : list TCPHandler;
  (** whether a blocked handler holds [rooms_lock] *)
  sys_rooms_locked : bool
}.

Definition initial_system : system :=
  mk_system (mk_server (mk_manager PyDict.empty PyDict.empty true)
               PyDict.empty PyDict.empty) [] false.

(** The handler list with the handler of [h]'s socket replaced by [h]. *)
Definition put_handler (hs : list TCPHandler) (h : TCPHandler) : list TCPHandler :=
  map (fun h0 => if eqb_of (h_sock h0) (h_sock h) then h else h0) hs.

Definition drop_handler (hs : list TCPHandler) (h : TCPHandler) : list TCPHandler :=
  filter (fun h0 => negb (eqb_of (h_sock h0) (h_sock h))) hs.

Definition do_accept (sys : system) (net : Network) (client_socket : socket)
    (addr : address) (now : time) : system :=
  let '(h, srv, _) := TCPHandler_init net (sys_srv sys) client_socket addr now in
  mk_system srv (sys_handlers sys ++ [h]) (sys_rooms_locked sys).

Definition do_register (sys : system) (h : TCPHandler) (reg : register_payload)
    (now : time) : system :=
  let '(h', srv, _) := _handle_register h (sys_srv sys) reg now in
  mk_system srv (put_handler (sys_handlers sys) h') (sys_rooms_locked sys).

Definition do_chat `{PyRuntime} (sys : system) (net : Network) (h : TCPHandler)
    (payload : bytes) (now : time) : system :=
  mk_system (fst (_handle_chat net h (sys_srv sys) payload now))
    (sys_handlers sys) (sys_rooms_locked sys).

Definition do_cleanup (sys : system) (net : Network) (h : TCPHandler) : system :=
  let '(h', srv, _, returned) := _cleanup net h (sys_srv sys) in
  mk_system srv (drop_handler (sys_handlers sys) h') (negb returned).

Inductive step `{PyRuntime} : system -> system -> Prop :=
| step_accept (sys : system) (net : Network) (client_socket : socket)
    (addr : address) (now : time) :
    sys_rooms_locked sys = false ->
    (forall h, In h (sys_handlers sys) -> h_sock h <> client_socket) ->
    step sys (do_accept sys net client_socket addr now)
| step_register (sys : system) (h : TCPHandler) (reg : register_payload) (now : time) :
    sys_rooms_locked sys = false ->
    In h (sys_handlers sys) ->
    step sys (do_register sys h reg now)
| step_chat (sys : system) (net : Network) (h : TCPHandler) (payload : bytes)
    (now : time) :
    sys_rooms_locked sys = false ->
    In h (sys_handlers sys) ->
    step sys (do_chat sys net h payload now)
| step_cleanup (sys : system) (net : Network) (h : TCPHandler) :
    sys_rooms_locked sys = false ->
    In h (sys_handlers sys) ->
    step sys (do_cleanup sys net h)
| step_frozen (sys : system) (m : ConnectionManager) (hs : list TCPHandler) :
    sys_rooms_locked sys = true ->
    step sys (mk_system (set_manager (sys_srv sys) m) hs true).

Inductive reachable `{PyRuntime} : system -> Prop :=
| reachable_initial : reachable initial_system
| reachable_step (sys sys' : system) :
    reachable sys -> step sys sys' -> reachable sys'.

(** ** Well-formedness of the room directory *)

Definition room_ok (r : room) : Prop :=
  PyDict.wf (participants r) /\ NoDup (clients r).

Definition rooms_ok (srv : SaporaServer) : Prop :=
  forall room_id r, In (room_id, r) (rooms srv) -> room_ok r.

(** ** Vocabulary of the statements about the chat router *)

Definition is_sendall (e : event) : bool :=
  match e with
  | EvSendall _ _ _ => true
  | _ => false
  end.

(** A chat object whose [target] is absent, empty, or folds to "all" or
    "everyone" under [str.lower]. *)
Definition broadcast_target `{PyRuntime} (obj : PyDict.t string json) : Prop :=
  match PyDict.get obj "target"%string with
  | None => True
  | Some (JStr t) =>
      t = ""%string \/ lower t = "all"%string \/ lower t = "everyone"%string
  | Some _ => False
  end.

(** A CHAT payload that asks for a broadcast: a JSON object with such a
    target, or a payload that is not JSON (relayed as it is). *)
Definition broadcast_request `{PyRuntime} (payload : bytes) : Prop :=
  match json_loads (decode payload) with
  | None => True
  | Some (JObj obj) => broadcast_target obj
  | Some _ => False
  end.

(** The sockets of a room; a room that does not exist has none. *)
Definition room_clients (srv : SaporaServer) (room_id : string) : list socket :=
  match PyDict.get (rooms srv) room_id with
  | Some r => clients r
  | None => []
  end.

(** The [type] field of a chat object. *)
Definition message_type (msg : json) : option json :=
  match msg with
  | JObj fields => PyDict.get fields "type"%string
  | _ => None
  end.

(** The [text] field of a chat object. *)
Definition message_text (msg : json) : option json :=
  match msg with
  | JObj fields => PyDict.get fields "text"%string
  | _ => None
  end.

(** ** A small runtime for the worked examples

    A serializer without escaping, a parser that knows the payloads of the
    examples, and stand-ins for the digest and the mixer. It is used only
    to run the model on concrete inputs; every general theorem is proved for
    an arbitrary [PyRuntime]. *)

Fixpoint example_dumps (v : json) : string :=
  match v with
  | JNull => "null"
  | JBool true => "true"
  | JBool false => "false"
  | JNum z => str_of_Z z
  | JStr s => String.append DQUOTE (String.append s DQUOTE)
  | JList l => String.append "[" (String.append (join ", " (map example_dumps l)) "]")
  | JObj f =>
      String.append "{"
        (String.append
           (join ", "
              (map (fun kv => String.append DQUOTE
                                (String.append (fst kv)
                                   (String.append DQUOTE
                                      (String.append ": " (example_dumps (snd kv))))))
                   f))
           "}")
  end.

(** The documents the example parser knows, by their text. *)
Definition example_documents : list json :=
  [JObj [("text"%string, JStr "hi")];
   JObj [("target"%string, JStr "ALL"); ("text"%string, JStr "hi")];
   JObj [("target"%string, JStr "bob"); ("text"%string, JStr "hi")];
   JObj [("target"%string, JStr "nobody"); ("text"%string, JStr "x")];
   JObj [("filename"%string, JStr "../sapora_files.bak");
         ("filesize"%string, JNum 3);
         ("checksum"%string, JStr "");
         ("target"%string, JStr "all")];
   JObj [("filename"%string, JStr "report.pdf");
         ("filesize"%string, JNum 6);
         ("checksum"%string, JStr "61926");
         ("target"%string, JStr "all")];
   JObj [("size"%string, JNum 6);
         ("filename"%string, JStr "docs/report.pdf");
         ("filesize"%string, JNum 6)]].

Definition example_loads (text : string) : option json :=
  find (fun doc => eqb_of (example_dumps doc) text) example_documents.

(** A toy digest, enough to tell the example files apart. *)
Definition example_digest (data : bytes) : string :=
  str_of_Z (fold_left (fun acc b => (acc * 31 + Struct.byte_val b) mod 65521)
              data 7).

Definition example_str (v : json) : string :=
  match v with
  | JStr s => s
  | JNull => "None"
  | _ => example_dumps v
  end.

Definition example_runtime : PyRuntime := {|
  json_loads := example_loads;
  json_dumps := example_dumps;
  py_str := example_str;
  py_int := fun _ => None;
  md5_hexdigest := example_digest;
  lower := ascii_lower;
  strip := ascii_strip;
  mix_samples := fun chunks => List.concat chunks;
  lower_ascii_text := fun s _ => eq_refl;
  strip_ascii_text := fun s _ => eq_refl
|}.

(** Every write succeeds. *)
Definition good_network : Network :=
  mk_network (fun _ => true) (fun _ => true) (fun _ => true).

(** ** Concrete registry states used in the examples below *)

Definition empty_manager : ConnectionManager :=
  mk_manager PyDict.empty PyDict.empty true.

(** The registry after one audio datagram from source address 0.0.0.0. *)
Definition placeholder_stream_manager : ConnectionManager :=
  register_stream empty_manager Audio ("0.0.0.0"%string, 6001) 100.

(** One member at 10.0.0.1, accepted and then placed in room "team". *)
Definition team_member_manager : ConnectionManager :=
  let m := fst (add_client good_network empty_manager 1%nat ("10.0.0.1"%string, 50000)
                  "Unknown" 0) in
  fst (set_client_room m 1%nat "team").

(** ** A meeting used in the examples below

    Alice, Bob and Carol in room "team", Dave in room "other". *)

(** Accept a connection and register it. *)
Definition join_member (srv : SaporaServer) (s : socket) (ip name room_id : string)
  : TCPHandler * SaporaServer :=
  let '(h, srv, _) := TCPHandler_init good_network srv s (ip, 50000 + Z.of_nat s) 0 in
  let '(h, srv, _) :=
    _handle_register h srv (RegData (Some name) (Some room_id)) 1 in
  (h, srv).

(** Three chat payloads, as the example serializer writes them. *)
Definition chat_to_all : bytes :=
  encode (example_dumps (JObj [("text"%string, JStr "hi")])).

Definition chat_to_bob : bytes :=
  encode (example_dumps (JObj [("target"%string, JStr "bob");
                               ("text"%string, JStr "hi")])).

Definition chat_to_nobody : bytes :=
  encode (example_dumps (JObj [("target"%string, JStr "nobody");
                               ("text"%string, JStr "x")])).

Definition alice_handler : TCPHandler :=
  fst (join_member (sys_srv initial_system) 1%nat "10.0.0.1" "Alice" "team").

Definition meeting_server : SaporaServer :=
  let srv := snd (join_member (sys_srv initial_system) 1%nat "10.0.0.1" "Alice" "team") in
  let srv := snd (join_member srv 2%nat "10.0.0.2" "Bob" "team") in
  let srv := snd (join_member srv 3%nat "10.0.0.3" "Carol" "team") in
  snd (join_member srv 4%nat "10.0.0.4" "Dave" "other").

Definition team_room : room :=
  mk_room [1%nat; 2%nat; 3%nat]
    [("Alice"%string, 1%nat); ("Bob"%string, 2%nat); ("Carol"%string, 3%nat)].

(** ** Bob moves from room "team" to room "other" *)

Definition bob_handler : TCPHandler :=
  fst (join_member (sys_srv initial_system) 2%nat "10.0.0.2" "Bob" "team").

Definition bob_moved : SaporaServer :=
  snd (fst (_handle_register bob_handler meeting_server
              (RegData (Some "Bob"%string) (Some "other"%string)) 20)).

(** ** An upload from a connection that has not registered

    Alice registers without a meeting id and so joins room "default"; a
    second connection, from 10.0.0.9, is accepted and does not register; the
    file handler serves an upload from that address. *)

Definition lobby_server : SaporaServer :=
  let '(h, srv, _) :=
    TCPHandler_init good_network (sys_srv initial_system) 1%nat
      ("10.0.0.1"%string, 50001) 0 in
  let '(_, srv, _) := _handle_register h srv (RegData (Some "Alice"%string) None) 1 in
  let '(_, srv, _) :=
    TCPHandler_init good_network srv 9%nat ("10.0.0.9"%string, 50009) 2 in
  srv.

Definition guest_file_handler : FileHandler :=
  mk_file_handler "10.0.0.9" 40009 ["srv"%string].

(** ** Two connections that register as "Alice" and as "alice" *)

Definition two_accepted : system :=
  do_accept
    (do_accept initial_system good_network 1%nat ("10.0.0.1"%string, 50001) 0)
    good_network 2%nat ("10.0.0.2"%string, 50002) 0.

Definition first_handler : TCPHandler :=
  mk_handler true 1%nat ("10.0.0.1"%string, 50001) "Unknown" "default" true.

Definition second_handler : TCPHandler :=
  mk_handler true 2%nat ("10.0.0.2"%string, 50002) "Unknown" "default" true.

Definition alice_registered : system :=
  do_register two_accepted first_handler
    (RegData (Some "Alice"%string) (Some "team"%string)) 1.

Definition alice_alice_registered : system :=
  do_register alice_registered second_handler
    (RegData (Some "alice"%string) (Some "team"%string)) 2.

(** The second connection registers as "Alice" too. *)
Definition alice_twice_registered : system :=
  do_register alice_registered second_handler
    (RegData (Some "Alice"%string) (Some "team"%string)) 2.

(** ** Two audio sources on one host

    Two datagrams of canonical size arrive within one tick from the host of
    Alice, the first from port 6001 and the second from port 6002. *)

Definition chunk_a : bytes := repeat x01 2048.
Definition chunk_b : bytes := repeat x02 2048.

Definition audio_datagram (chunk : bytes) : bytes :=
  match pack_message STREAM_AUDIO chunk with
  | Ok data => data
  | Raise _ => []
  end.

Definition same_host_audio : UDPAudioServer * ConnectionManager :=
  let a0 := mk_audio_server PyDict.empty PyDict.empty in
  let m0 := manager meeting_server in
  match @audio_receive example_runtime a0 m0 (audio_datagram chunk_a)
          ("10.0.0.1"%string, 6001) 10 with
  | Some (a1, m1) =>
      match @audio_receive example_runtime a1 m1 (audio_datagram chunk_b)
              ("10.0.0.1"%string, 6002) 11 with
      | Some am => am
      | None => (a1, m1)
      end
  | None => (a0, m0)
  end.

(** ** File transfers used in the examples below

    The server runs in directory /srv, so the storage root is
    /srv/sapora_files. *)

Definition storage_handler : FileHandler :=
  mk_file_handler "10.0.0.1" 40000 ["srv"%string].

(** A host on which every file can be opened for writing. *)
Definition plain_host : Host :=
  mk_host (fun _ => None) (fun _ => false)
    (fun p (E : false = true) => False_ind _ (diff_false_true E)).


Definition file_chunk_message (chunk : bytes) : bytes :=
  match pack_message FILE_CHUNK chunk with
  | Ok data => data
  | Raise _ => []
  end.

Definition sibling_upload : bytes :=
  encode (example_dumps
            (JObj [("filename"%string, JStr "../sapora_files.bak");
                   ("filesize"%string, JNum 3);
                   ("checksum"%string, JStr "");
                   ("target"%string, JStr "all")])).



(** * Further parts of the server *)

(** ** server/utils.py: reading framed messages from a TCP socket *)

Definition BUFFER_SIZE : Z := 65536.

(** What the kernel hands to one [sock.recv]: the next run of bytes of the
    stream (an empty run is the closed connection), a timeout, or an error.
    The end of the list is the closed connection too. *)
Inductive segment : Type :=
| SegData (data : bytes)
| SegTimeout
| SegError.

Definition tcp_stream : Type := list segment.

(** [sock.recv(bufsize)]: at most [bufsize] bytes of the first run; what is
    left of the run stays at the front of the stream. *)
Definition sock_recv (s : tcp_stream) (bufsize : Z) : tcp_stream * result bytes :=
  match s with
  | [] => ([], Ok [])
  | SegData data :: rest =>
      if blen data <=? bufsize then (rest, Ok data)
      else (SegData (skipn (Z.to_nat bufsize) data) :: rest,
            Ok (firstn (Z.to_nat bufsize) data))
  | SegTimeout :: rest => (rest, Raise (SocketTimeout "timed out"))
  | SegError :: rest => (rest, Raise (OSError "recv failed"))
  end.

(** The loop of [_recv_exact]: [remaining] is [num_bytes - len(data)]. Every
    turn adds at least one byte, so [fuel] turns suffice when [fuel] is at
    least [remaining]. *)
Fixpoint recv_loop (fuel : nat) (s : tcp_stream) (remaining : Z) (data : bytes)
  : tcp_stream * result (option bytes) :=
  if remaining <=? 0 then (s, Ok (Some data))
  else
    match fuel with
    | O => (s, Ok None)
    | S fuel' =>
        match sock_recv s (Z.min remaining BUFFER_SIZE) with
        | (s', Raise (SocketTimeout msg)) => (s', Raise (SocketTimeout msg))
        | (s', Raise _) => (s', Ok None)
        | (s', Ok []) => (s', Ok None)
        | (s', Ok chunk) =>
            recv_loop fuel' s' (remaining - blen chunk) (data ++ chunk)
        end
    end.

(** [_recv_exact(sock, num_bytes)]: the bytes, [None] on a closed connection
    or an error; a timeout is raised to the caller. *)
Definition _recv_exact (s : tcp_stream) (num_bytes : Z)
  : tcp_stream * result (option bytes) :=
  recv_loop (Z.to_nat num_bytes) s num_bytes [].

(** [read_tcp_message(sock)] *)
Definition read_tcp_message (s : tcp_stream) : tcp_stream * result (option bytes) :=
  match _recv_exact s HEADER_SIZE with
  | (s, Raise e) => (s, Raise e)
  | (s, Ok None) => (s, Ok None)
  | (s, Ok (Some header)) =>
      match Struct.unpack_I (slice header 2 4) with
      | Raise _ => (s, Ok None)
      | Ok payload_length =>
          if payload_length >? 0 then
            match _recv_exact s payload_length with
            | (s, Raise e) => (s, Raise e)
            | (s, Ok None) => (s, Ok None)
            | (s, Ok (Some payload)) => (s, Ok (Some (header ++ payload)))
            end
          else (s, Ok (Some (header ++ [])))
      end
  end.

(** *** Vocabulary of the statements about framing *)

(** The bytes still to come on a stream that only carries data. *)
Fixpoint stream_bytes (s : tcp_stream) : bytes :=
  match s with
  | [] => []
  | SegData data :: rest => data ++ stream_bytes rest
  | _ :: rest => stream_bytes rest
  end.

(** A stream of non-empty runs of data: no timeout, no error, not closed
    before its last byte. *)
Fixpoint data_stream (s : tcp_stream) : Prop :=
  match s with
  | [] => True
  | SegData (_ :: _) :: rest => data_stream rest
  | _ => False
  end.

(** A message cut into two runs, followed by the first bytes of the next. *)
Definition split_stream_example : tcp_stream :=
  match pack_message MSG_CHAT (encode "hello") with
  | Ok message =>
      [SegData (firstn 3 message);
       SegData (skipn 3 message ++ encode "next")]
  | Raise _ => []
  end.

(** ** The length-prefixed metadata form, as [unpack_file_metadata] reads it *)



(** ** server/connection_manager.py: maintenance *)

Definition HEARTBEAT_INTERVAL : Z := 3000.
Definition CLIENT_IDLE_TIMEOUT : Z := 15000.

(** [_cleanup_stale_streams()] *)
Definition _cleanup_stale_streams (m : ConnectionManager) (now : time)
  : ConnectionManager :=
  let current_time := now in
  let stale_threshold := CLIENT_IDLE_TIMEOUT in
  let to_remove :=
    map fst (filter (fun entry =>
                       current_time - stream_last_seen (snd entry) >? stale_threshold)
               (PyDict.items (stream_clients m))) in
  set_stream m (fold_left (fun sc ip_addr => PyDict.del sc ip_addr)
                  to_remove (stream_clients m)).

(** The send loop of [_run_heartbeat]: a member whose write succeeds has its
    [last_seen] refreshed, the others are marked for removal. *)
Fixpoint heartbeat_sends (net : Network) (items : list (socket * client_info))
    (heartbeat_packet : bytes) (now : time)
  : list (socket * client_info) * list socket * list event :=
  match items with
  | [] => ([], [], [])
  | (sock, info) :: rest =>
      let '(items', to_remove, evs) :=
        heartbeat_sends net rest heartbeat_packet now in
      if send_ok net sock then
        ((sock, with_last_seen info now) :: items', to_remove,
         EvSendall sock heartbeat_packet true :: evs)
      else
        ((sock, info) :: items', sock :: to_remove,
         EvSendall sock heartbeat_packet false :: evs)
  end.

(** One turn of the loop of [_run_heartbeat], after its sleep. *)
Definition heartbeat_tick (net : Network) (m : ConnectionManager) (now : time)
  : ConnectionManager * list event :=
  match pack_message CMD_HEARTBEAT [] with
  | Raise _ => (m, [])
  | Ok heartbeat_packet =>
      let '(items', to_remove, ev_send) :=
        heartbeat_sends net (PyDict.items (control_clients m)) heartbeat_packet now in
      let '(m, ev_remove) := remove_failed net (set_control m items') to_remove in
      (_cleanup_stale_streams m now, ev_send ++ ev_remove)
  end.

(** *** Vocabulary of the statements about the registry *)

(** The listeners of one kind. *)
Definition listeners (st : stream_type) (m : ConnectionManager)
    (room_id : option string) : list address :=
  match st with
  | Video => get_video_listeners m room_id
  | Audio => get_audio_listeners m room_id
  end.

Definition other_stream (st : stream_type) : stream_type :=
  match st with Video => Audio | Audio => Video end.

(** The return address of one kind in a stream entry. *)
Definition stream_addr (st : stream_type) (info : stream_info) : option address :=
  match st with Video => video info | Audio => audio info end.

(** The room filter of [get_video_listeners] and [get_audio_listeners]. *)
Definition passes_room (m : ConnectionManager) (room_id : option string)
    (ip_addr : string) : bool :=
  match room_id with
  | None => true
  | Some r => _ip_in_room m ip_addr r
  end.

(** ** server/udp_video_server.py *)

(** The loop of [_broadcast_frame] over the listeners. *)
Fixpoint frame_fanout (net : Network) (m : ConnectionManager) (frame_data : bytes)
    (sender_addr : address) (video_listeners : list address) (now : time)
  : ConnectionManager * list event :=
  match video_listeners with
  | [] => (m, [])
  | listener_addr :: rest =>
      if eqb_of listener_addr sender_addr then
        frame_fanout net m frame_data sender_addr rest now
      else
        let ok := sendto_ok net listener_addr in
        let m := if ok then m else unregister_stream m Video listener_addr now in
        let '(m, evs) := frame_fanout net m frame_data sender_addr rest now in
        (m, EvSendto listener_addr frame_data ok :: evs)
  end.

(** [_broadcast_frame(frame_data, sender_addr)] *)
Definition _broadcast_frame (net : Network) (m : ConnectionManager)
    (frame_data : bytes) (sender_addr : address) (now : time)
  : ConnectionManager * list event :=
  let sender_ip := fst sender_addr in
  let room_id := get_room_by_ip m sender_ip in
  let video_listeners := get_video_listeners m (Some room_id) in
  frame_fanout net m frame_data sender_addr video_listeners now.

(** One datagram of the receive loop of [UDPVideoServer.run]; [None] for a
    REGISTER datagram whose fields are outside [decode_udp_register]. A
    datagram that does not unpack is ignored after its source has been
    registered. *)
Definition video_receive `{PyRuntime} (net : Network) (m : ConnectionManager)
    (data : bytes) (sender_addr : address) (now : time)
  : option (ConnectionManager * list event) :=
  let m := register_stream m Video sender_addr now in
  match unpack_message data with
  | Raise _ => Some (m, [])
  | Ok (version, msg_type, payload_length, seq_num, payload) =>
      if msg_type =? STREAM_VIDEO then
        Some (_broadcast_frame net m data sender_addr now)
      else if msg_type =? CMD_REGISTER then
        match decode_udp_register payload with
        | None => None
        | Some RegInvalid => Some (m, [])
        | Some (RegData username room_id) =>
            let username :=
              match username with Some u => u | None => "Unknown"%string end in
            let room_id :=
              match room_id with Some r => r | None => "default"%string end in
            Some (fst (update_client_status_by_ip m (fst sender_addr)
                         (Some username) (Some room_id) now), [])
        end
      else Some (m, [])
  end.

(** ** Example: the meeting with three video listeners

    Alice, Bob and Dave have sent video; Bob's address cannot be written to. *)
Definition video_meeting : ConnectionManager :=
  let m := register_stream (manager meeting_server) Video
             ("10.0.0.1"%string, 7001) 10 in
  let m := register_stream m Video ("10.0.0.2"%string, 7002) 11 in
  register_stream m Video ("10.0.0.4"%string, 7004) 12.

Definition bob_unreachable : Network :=
  mk_network (fun s => negb (eqb_of s 2%nat)) (fun _ => true)
    (fun a => negb (eqb_of (fst a) "10.0.0.2"%string)).

(** The address of one kind registered under an IP, if any. *)
Definition stream_at (st : stream_type) (m : ConnectionManager)
    (ip_addr : string) : option address :=
  match PyDict.get (stream_clients m) ip_addr with
  | Some info => stream_addr st info
  | None => None
  end.

(** Whether a stream entry is older than the idle timeout at [now]. *)
Definition stale (now : time) (info : stream_info) : bool :=
  now - stream_last_seen info >? CLIENT_IDLE_TIMEOUT.

(** *** Vocabulary of the statements about the audio buffers *)

(** Every jitter buffer holds at most the ten chunks of its [maxlen]. *)
Definition buffers_bounded (a : UDPAudioServer) : Prop :=
  forall key buffer, In (key, buffer) (audio_buffers a) ->
    (List.length buffer <= 10)%nat.

(** Whether [_cleanup_stale_clients] at [now] finds the source stale. *)
Definition stale_source (a : UDPAudioServer) (now : time) (key : address) : bool :=
  match PyDict.get (last_seen a) key with
  | Some ts => ts <? now - CLIENT_TIMEOUT
  | None => false
  end.

(** A server that has heard two sources, one of them long ago. *)
Definition two_sources : UDPAudioServer :=
  mk_audio_server
    [(("10.0.0.1"%string, 6001), [[x01]]); (("10.0.0.2"%string, 6002), [[x02]])]
    [(("10.0.0.1"%string, 6001), 1000); (("10.0.0.2"%string, 6002), 9000)].

Definition two_sources_manager : ConnectionManager :=
  register_stream
    (register_stream (manager meeting_server) Audio ("10.0.0.1"%string, 6001) 1000)
    Audio ("10.0.0.2"%string, 6002) 9000.

(** An upload that was refused: the storage is as before, no storage
    operation and no notice happened, and whatever was replied is a
    FILE_ACK_FAILURE. *)
Definition upload_refused (fs : filesystem)
    (out : filesystem * list file_event * option exn) : Prop :=
  fst (fst out) = fs /\
  storage_ops (snd (fst out)) = [] /\
  notices (snd (fst out)) = [] /\
  (forall packet, In packet (replies (snd (fst out))) ->
     reply_type packet = Some FILE_ACK_FAILURE) /\
  snd out = None.

(** A storage that holds one file. *)
Definition stored_report : filesystem :=
  [("/srv/sapora_files/report.pdf"%string, encode "abcdef")].

(** ** server/tcp_handler.py: the receive loop

    What [read_tcp_message] gives in each turn of the loop of [run] is a
    [recv], paired with the time of the turn. The end of the list is the
    closed connection. *)

(** One message of the loop of [run]; the boolean tells whether the loop goes
    on. [None] for a REGISTER payload outside [decode_register]. A message
    that does not unpack raises, which leaves the loop. *)
Definition handle_message `{PyRuntime} (net : Network) (h : TCPHandler)
    (srv : SaporaServer) (raw : bytes) (now : time)
  : option (TCPHandler * SaporaServer * list event * bool) :=
  match unpack_message raw with
  | Raise _ => Some (h, srv, [], false)
  | Ok (version, msg_type, _, _, payload) =>
      let '(m, ev_touch, _) :=
        update_client_status (manager srv) (h_sock h) None None now in
      let srv := set_manager srv m in
      if msg_type =? CMD_REGISTER then
        match decode_register payload with
        | None => None
        | Some reg =>
            let '(h, srv, evs) := _handle_register h srv reg now in
            Some (h, srv, ev_touch ++ evs, true)
        end
      else if msg_type =? MSG_CHAT then
        let '(srv, evs) := _handle_chat net h srv payload now in
        Some (h, srv, ev_touch ++ evs, true)
      else if msg_type =? CMD_HEARTBEAT then Some (h, srv, ev_touch, true)
      else if msg_type =? CMD_DISCONNECT then Some (h, srv, ev_touch, false)
      else Some (h, srv, ev_touch, true)
  end.

(** The [while] loop of [run]. *)
Fixpoint run_loop `{PyRuntime} (net : Network) (h : TCPHandler)
    (srv : SaporaServer) (incoming : list (recv * time))
  : option (TCPHandler * SaporaServer * list event) :=
  if negb (h_running h) then Some (h, srv, [])
  else
    match incoming with
    | [] => Some (h, srv, [])
    | (RecvTimeout, _) :: rest => run_loop net h srv rest
    | (RecvNone, _) :: _ => Some (h, srv, [])
    | (RecvRaw [], _) :: _ => Some (h, srv, [])
    | (RecvRaw raw, now) :: rest =>
        match handle_message net h srv raw now with
        | None => None
        | Some (h, srv, evs, false) => Some (h, srv, evs)
        | Some (h, srv, evs, true) =>
            match run_loop net h srv rest with
            | Some (h, srv, evs') => Some (h, srv, evs ++ evs')
            | None => None
            end
        end
    end.

(** [TCPHandler.run()]: the loop, then [_cleanup] in the [finally]. The last
    component tells whether [run] returns; it does not when [_cleanup]
    blocks. *)
Definition TCPHandler_run `{PyRuntime} (net : Network) (h : TCPHandler)
    (srv : SaporaServer) (incoming : list (recv * time))
  : option (TCPHandler * SaporaServer * list event * bool) :=
  match run_loop net h srv incoming with
  | None => None
  | Some (h, srv, evs) =>
      let '(h, srv, ev_cleanup, returned) := _cleanup net h srv in
      Some (h, srv, evs ++ ev_cleanup, returned)
  end.

(** Whether [_cleanup] reaches its call of [broadcast_room_user_list], which
    asks for [rooms_lock] while [_cleanup] holds it. *)
Definition cleanup_blocks (h : TCPHandler) (srv : SaporaServer) : bool :=
  h_server h &&
  match PyDict.get (client_rooms srv) (h_sock h) with
  | Some room_id => nonempty room_id && PyDict.mem (rooms srv) room_id
  | None => false
  end.

(** *** Vocabulary of the statements about the room directory *)

(** The room recorded for a socket exists and lists the socket. *)
Definition directory_ok (srv : SaporaServer) : Prop :=
  PyDict.wf (client_rooms srv) /\
  forall s room_id, PyDict.get (client_rooms srv) s = Some room_id ->
    exists r, PyDict.get (rooms srv) room_id = Some r /\ In s (clients r).

(** ** Example: a session of Alice

    A silent interval, a heartbeat, a chat message to the room, a
    disconnect request, and a heartbeat that is no longer read. *)
Definition message_of (msg_type : Z) (payload : bytes) : bytes :=
  match pack_message msg_type payload with
  | Ok data => data
  | Raise _ => []
  end.

Definition alice_session : list (recv * time) :=
  [(RecvTimeout, 10); (RecvRaw (message_of CMD_HEARTBEAT []), 11);
   (RecvRaw (message_of MSG_CHAT chat_to_all), 12);
   (RecvRaw (message_of CMD_DISCONNECT []), 13);
   (RecvRaw (message_of CMD_HEARTBEAT []), 14)].

(** * Properties *)

(** ** Wire codec *)

Lemma u8_byte_val (z : Z) :
  0 <= z < 256 -> Struct.byte_val (Struct.u8 z) = z.
Proof.
  intros Hz. unfold Struct.byte_val, Struct.u8.
  rewrite Z.mod_small by lia.
  destruct (Byte.of_N (Z.to_N z)) as [b|] eqn:E.
  - apply Byte.to_of_N in E. rewrite E. lia.
  - apply Byte.of_N_None_iff in E. lia.
Qed.

Lemma u8_mod_byte_val (z : Z) :
  Struct.byte_val (Struct.u8 z) = z mod 256.
Proof.
  assert (H : 0 <= z mod 256 < 256) by (apply Z.mod_pos_bound; lia).
  assert (E : Struct.u8 z = Struct.u8 (z mod 256)).
  { unfold Struct.u8. rewrite Z.mod_mod by lia. reflexivity. }
  rewrite E. apply u8_byte_val, H.
Qed.

Lemma from_be_be32 (z : Z) :
  0 <= z < 4294967296 -> Struct.from_be (Struct.be32 z) = z.
Proof.
  intros Hz. unfold Struct.from_be, Struct.be32. simpl.
  rewrite !u8_mod_byte_val.
  pose proof (Z.div_mod z 256 ltac:(lia)).
  pose proof (Z.div_mod (z / 256) 256 ltac:(lia)).
  pose proof (Z.div_mod (z / 65536) 256 ltac:(lia)).
  replace (z / 65536) with (z / 256 / 256) in * by (rewrite Z.div_div by lia; reflexivity).
  replace (z / 16777216) with (z / 256 / 256 / 256)
    by (rewrite !Z.div_div by lia; reflexivity).
  assert (z / 256 / 256 / 256 < 256).
  { rewrite !Z.div_div by lia. apply Z.div_lt_upper_bound; lia. }
  assert (0 <= z / 256 / 256 / 256) by (rewrite !Z.div_div by lia; apply Z.div_pos; lia).
  rewrite (Z.mod_small (z / 256 / 256 / 256)) by lia.
  lia.
Qed.

Lemma from_be_be16 (z : Z) :
  0 <= z < 65536 -> Struct.from_be (Struct.be16 z) = z.
Proof.
  intros Hz. unfold Struct.from_be, Struct.be16. simpl.
  rewrite !u8_mod_byte_val.
  pose proof (Z.div_mod z 256 ltac:(lia)).
  assert (0 <= z / 256 < 256).
  { split; [apply Z.div_pos; lia | apply Z.div_lt_upper_bound; lia]. }
  rewrite (Z.mod_small (z / 256)) by lia. lia.
Qed.

Lemma pack_BBIHH_unpack (v t l s r : Z) :
  0 <= v < 256 -> 0 <= t < 256 -> 0 <= l < 4294967296 ->
  0 <= s < 65536 -> 0 <= r < 65536 ->
  exists header,
    Struct.pack_BBIHH v t l s r = Ok header /\
    List.length header = 10%nat /\
    Struct.unpack_BBIHH header = Ok (v, t, l, s, r).
Proof.
  intros Hv Ht Hl Hs Hr. unfold Struct.pack_BBIHH, Struct.in_range.
  repeat match goal with
  | |- context [ ?a <=? ?b ] => replace (a <=? b) with true by (symmetry; apply Z.leb_le; lia)
  | |- context [ ?a <? ?b ] => replace (a <? b) with true by (symmetry; apply Z.ltb_lt; lia)
  end.
  cbn [andb]. eexists. split; [reflexivity|]. split; [reflexivity|].
  cbn [Struct.be32 Struct.be16 app Struct.unpack_BBIHH].
  fold (Struct.be32 l). fold (Struct.be16 s). fold (Struct.be16 r).
  rewrite !u8_byte_val by lia.
  rewrite from_be_be32, !from_be_be16 by lia. reflexivity.
Qed.

Lemma pack_message_too_large (msg_type : Z) (payload : bytes) :
  MAX_MESSAGE_SIZE < blen payload ->
  pack_message msg_type payload =
  Raise (ValueError ("Payload size " ++ str_of_Z (blen payload)
                     ++ " exceeds maximum " ++ str_of_Z MAX_MESSAGE_SIZE)).
Proof.
  intros H. unfold pack_message.
  replace (blen payload >? MAX_MESSAGE_SIZE) with true; [reflexivity|].
  symmetry. apply Z.gtb_lt. exact H.
Qed.

Lemma unpack_message_header_payload (header payload : bytes) (v t l s r : Z) :
  List.length header = 10%nat ->
  Struct.unpack_BBIHH header = Ok (v, t, l, s, r) ->
  l = blen payload -> v = PROTOCOL_VERSION ->
  unpack_message (header ++ payload) = Ok (v, t, l, s, payload).
Proof.
  intros Hlen Hun Hl Hv. unfold unpack_message, blen.
  rewrite length_app, Hlen.
  replace (Z.of_nat (10 + List.length payload) <? HEADER_SIZE) with false
    by (symmetry; apply Z.ltb_ge; unfold HEADER_SIZE; lia).
  change (Z.to_nat HEADER_SIZE) with 10%nat. rewrite <- Hlen.
  rewrite firstn_app, Nat.sub_diag, firstn_all, firstn_O, app_nil_r.
  rewrite skipn_app, Nat.sub_diag, skipn_all, skipn_O, app_nil_l.
  rewrite Hun. subst l v. unfold blen.
  rewrite Z.eqb_refl. reflexivity.
Qed.

(** C8. For every message type byte and every payload of at most 1 MiB,
    unpacking the packed message gives back the protocol version, the type,
    the payload length, sequence number 0 and the payload; packing a payload
    of more than 1 MiB raises ValueError. *)
Theorem pack_unpack_roundtrip (msg_type : Z) (payload : bytes) :
  0 <= msg_type < 256 ->
  (blen payload <= MAX_MESSAGE_SIZE ->
   exists packet,
     pack_message msg_type payload = Ok packet /\
     unpack_message packet =
     Ok (PROTOCOL_VERSION, msg_type, blen payload, 0, payload)) /\
  (MAX_MESSAGE_SIZE < blen payload ->
   exists msg, pack_message msg_type payload = Raise (ValueError msg)).
Proof.
  intros Ht. split.
  - intros Hsz. unfold pack_message.
    replace (blen payload >? MAX_MESSAGE_SIZE) with false
      by (symmetry; rewrite Z.gtb_ltb; apply Z.ltb_ge; exact Hsz).
    assert (Hl : 0 <= blen payload < 4294967296)
      by (unfold blen, MAX_MESSAGE_SIZE in *; lia).
    destruct (@pack_BBIHH_unpack PROTOCOL_VERSION msg_type (blen payload) 0 0)
      as (header & Hpack & Hlen & Hun); try (unfold PROTOCOL_VERSION; lia); try assumption.
    rewrite Hpack. cbn [bind]. eexists. split; [reflexivity|].
    apply unpack_message_header_payload with (r := 0); auto.
  - intros Hsz. eexists. apply pack_message_too_large, Hsz.
Qed.

Lemma pack_unpack_roundtrip_witness :
  0 <= MSG_CHAT < 256 /\
  blen (encode "hello") <= MAX_MESSAGE_SIZE /\
  MAX_MESSAGE_SIZE < blen (repeat x00 (Z.to_nat 1048577)) /\
  (exists packet,
     pack_message MSG_CHAT (encode "hello") = Ok packet /\
     unpack_message packet =
     Ok (PROTOCOL_VERSION, MSG_CHAT, blen (encode "hello"), 0, encode "hello")) /\
  (exists msg,
     pack_message MSG_CHAT (repeat x00 (Z.to_nat 1048577)) = Raise (ValueError msg)).
Proof.
  assert (Ht : 0 <= MSG_CHAT < 256) by (unfold MSG_CHAT; lia).
  assert (Hs : blen (encode "hello") <= MAX_MESSAGE_SIZE) by (vm_compute; discriminate).
  assert (Hb : MAX_MESSAGE_SIZE < blen (repeat x00 (Z.to_nat 1048577)))
    by (unfold blen; rewrite repeat_length; vm_compute; reflexivity).
  split; [exact Ht|]. split; [exact Hs|]. split; [exact Hb|]. split.
  - exact (proj1 (@pack_unpack_roundtrip MSG_CHAT (encode "hello") Ht) Hs).
  - exact (proj2 (@pack_unpack_roundtrip MSG_CHAT _ Ht) Hb).
Defined.

(** ** Insertion-ordered dictionaries *)

Section PyDictFacts.
Context {K V : Type} `{EqDec K}.
Implicit Types (d : PyDict.t K V) (k : K) (v : V).

Lemma get_set_same d k v : PyDict.get (PyDict.set d k v) k = Some v.
Proof.
    induction d as [|[k' v'] d IH]; simpl.
    - destruct (eq_dec k k); congruence.
    - destruct (eq_dec k' k) as [E|E]; simpl.
      + destruct (eq_dec k' k); congruence.
      + destruct (eq_dec k' k); [congruence|exact IH].
Qed.

Lemma get_set_other d k k' v :
    k <> k' -> PyDict.get (PyDict.set d k v) k' = PyDict.get d k'.
Proof.
    intros Hne. induction d as [|[k0 v0] d IH]; simpl.
    - destruct (eq_dec k k'); congruence.
    - destruct (eq_dec k0 k) as [E|E]; simpl.
      + subst k0. destruct (eq_dec k k'); congruence.
      + destruct (eq_dec k0 k'); [reflexivity|exact IH].
Qed.

Lemma get_In d k v : PyDict.get d k = Some v -> In (k, v) d.
Proof.
    induction d as [|[k' v'] d IH]; simpl; [discriminate|].
    destruct (eq_dec k' k) as [E|E].
    - intros [= ->]. subst. now left.
    - intros Hg. right. auto.
Qed.

Lemma get_None_keys d k : PyDict.get d k = None <-> ~ In k (PyDict.keys d).
Proof.
    induction d as [|[k' v'] d IH]; simpl; [tauto|].
    destruct (eq_dec k' k) as [E|E].
    - split; [discriminate|]. intros Hn. exfalso. apply Hn. now left.
    - rewrite IH. tauto.
Qed.

Lemma keys_set_present d k v :
    PyDict.mem d k = true -> PyDict.keys (PyDict.set d k v) = PyDict.keys d.
Proof.
    unfold PyDict.mem. induction d as [|[k' v'] d IH]; simpl; [discriminate|].
    destruct (eq_dec k' k) as [E|E]; simpl; [reflexivity|].
    intros Hm. f_equal. apply IH, Hm.
Qed.

Lemma keys_set_absent d k v :
    PyDict.get d k = None -> PyDict.keys (PyDict.set d k v) = PyDict.keys d ++ [k].
Proof.
    induction d as [|[k' v'] d IH]; simpl; [reflexivity|].
    destruct (eq_dec k' k) as [E|E]; simpl; [discriminate|].
    intros Hm. f_equal. apply IH, Hm.
Qed.

Lemma wf_set d k v : PyDict.wf d -> PyDict.wf (PyDict.set d k v).
Proof.
    unfold PyDict.wf. intros Hwf.
    destruct (PyDict.get d k) as [v0|] eqn:E.
    - rewrite keys_set_present; [exact Hwf|]. unfold PyDict.mem. now rewrite E.
    - rewrite keys_set_absent by exact E.
      apply NoDup_app; [exact Hwf|repeat constructor; simpl; tauto|].
      intros x Hx [<-|[]]. apply get_None_keys in E. contradiction.
Qed.

Lemma keys_del_incl d k x :
    In x (PyDict.keys (PyDict.del d k)) -> In x (PyDict.keys d).
Proof.
    induction d as [|[k' v'] d IH]; simpl; [tauto|].
    destruct (eq_dec k' k); simpl; [tauto|]. intros [->|Hx]; auto.
Qed.

Lemma wf_del d k : PyDict.wf d -> PyDict.wf (PyDict.del d k).
Proof.
    unfold PyDict.wf. induction d as [|[k' v'] d IH]; simpl; [auto|].
    intros Hwf. inversion Hwf as [|? ? Hnin Hnd]; subst.
    destruct (eq_dec k' k); simpl; [exact Hnd|].
    constructor; [|auto]. intros Hx. apply Hnin. eapply keys_del_incl, Hx.
Qed.

Lemma get_del_same d k : PyDict.wf d -> PyDict.get (PyDict.del d k) k = None.
Proof.
    unfold PyDict.wf. induction d as [|[k' v'] d IH]; simpl; [reflexivity|].
    intros Hwf. inversion Hwf as [|? ? Hnin Hnd]; subst.
    destruct (eq_dec k' k) as [E|E]; simpl.
    - subst. apply get_None_keys, Hnin.
    - destruct (eq_dec k' k); [contradiction|auto].
Qed.

Lemma del_absent d k : PyDict.get d k = None -> PyDict.del d k = d.
Proof.
    induction d as [|[k' v'] d IH]; simpl; [reflexivity|].
    destruct (eq_dec k' k); [discriminate|]. intros Hg. f_equal. auto.
Qed.
End PyDictFacts.

Lemma eqb_of_true {A : Type} `{EqDec A} (x y : A) : eqb_of x y = true <-> x = y.
Proof. unfold eqb_of. destruct (eq_dec x y); split; congruence. Qed.

Lemma eqb_of_false {A : Type} `{EqDec A} (x y : A) : eqb_of x y = false <-> x <> y.
Proof. unfold eqb_of. destruct (eq_dec x y); split; congruence. Qed.

Lemma eqb_of_refl {A : Type} `{EqDec A} (x : A) : eqb_of x x = true.
Proof. now apply eqb_of_true. Qed.

(** ** More on dictionaries *)

Section PyDictMore.
Context {K V : Type} `{EqDec K}.
Implicit Types (d : PyDict.t K V) (k : K) (v : V).

Lemma In_get d k v : PyDict.wf d -> In (k, v) d -> PyDict.get d k = Some v.
Proof.
  unfold PyDict.wf. induction d as [|[k0 v0] d IH]; cbn; [tauto|].
  intros Hwf Hin. inversion Hwf as [|? ? Hnin Hnd]; subst.
  destruct (eq_dec k0 k) as [E|E].
  - subst k0. destruct Hin as [[= <-]|Hin]; [reflexivity|].
    exfalso. apply Hnin. unfold PyDict.keys. apply in_map_iff.
    exists (k, v). auto.
  - destruct Hin as [[= -> _]|Hin]; [contradiction|auto].
Qed.

Lemma get_del_other d k k' :
  k <> k' -> PyDict.get (PyDict.del d k) k' = PyDict.get d k'.
Proof.
  intros Hne. induction d as [|[k0 v0] d IH]; cbn; [reflexivity|].
  destruct (eq_dec k0 k) as [E|E]; cbn.
  - subst k0. destruct (eq_dec k k'); [contradiction|reflexivity].
  - destruct (eq_dec k0 k'); [reflexivity|exact IH].
Qed.

Lemma get_del_None d k k' :
  PyDict.get d k' = None -> PyDict.get (PyDict.del d k) k' = None.
Proof.
  intros Hg. destruct (eq_dec k k') as [->|Hne].
  - rewrite del_absent; assumption.
  - rewrite get_del_other; assumption.
Qed.

(** Lookup after a run of deletions. *)
Lemma get_fold_del (ks : list K) d k :
  PyDict.wf d ->
  PyDict.get (fold_left (fun acc x => PyDict.del acc x) ks d) k
  = if existsb (eqb_of k) ks then None else PyDict.get d k.
Proof.
  revert d. induction ks as [|x ks IH]; intros d Hwf; cbn; [reflexivity|].
  rewrite IH by (apply wf_del, Hwf).
  destruct (existsb (eqb_of k) ks) eqn:Hks.
  - now rewrite orb_true_r.
  - rewrite orb_false_r. destruct (eqb_of k x) eqn:Hx.
    + apply eqb_of_true in Hx. subst x. apply get_del_same, Hwf.
    + apply eqb_of_false in Hx. apply get_del_other. congruence.
Qed.

Lemma wf_fold_del (ks : list K) d :
  PyDict.wf d -> PyDict.wf (fold_left (fun acc x => PyDict.del acc x) ks d).
Proof.
  revert d. induction ks as [|x ks IH]; intros d Hwf; cbn; [exact Hwf|].
  apply IH, wf_del, Hwf.
Qed.
End PyDictMore.

(** ** Connection registry *)

(** One step of [remove_client_rec], by cases on the socket. *)
Lemma remove_client_rec_eq (fuel : nat) (net : Network) (m : ConnectionManager)
    (s : socket) :
  remove_client_rec fuel net m s
  = match PyDict.get (control_clients m) s with
    | Some info =>
        let m1 :=
          mk_manager (PyDict.del (control_clients m) s)
            (if PyDict.mem (stream_clients m) (fst (info_addr info))
             then PyDict.del (stream_clients m) (fst (info_addr info))
             else stream_clients m)
            (server_ref m) in
        if negb (eqb_of (info_username info) "Unknown"%string) then
          let out :=
            match fuel with
            | O => (m1, [])
            | S fuel' =>
                broadcast_user_list_with (remove_client_rec fuel' net) net m1
            end in
          (fst out,
           [EvClose s] ++ EvBroadcastUserList :: snd out ++
           (if server_ref (fst out) && nonempty (info_room info)
            then [EvBroadcastRoomUserList (info_room info)] else []),
           (info_username info, info_addr info))
        else (m1, [EvClose s], (info_username info, info_addr info))
    | None =>
        (mk_manager (control_clients m)
           (if PyDict.mem (stream_clients m) "0.0.0.0"%string
            then PyDict.del (stream_clients m) "0.0.0.0"%string
            else stream_clients m)
           (server_ref m),
         [], ("Unknown"%string, ("0.0.0.0"%string, 0)))
    end.
Proof.
  destruct fuel as [|fuel]; cbn [remove_client_rec];
    destruct (PyDict.get (control_clients m) s) as [info|]; cbn [fst snd]; cbv zeta;
    try reflexivity;
    destruct (negb (eqb_of (info_username info) "Unknown"%string));
    cbn [server_ref fst snd]; try reflexivity.
  destruct (broadcast_user_list_with _ net _) as [m2 evs]. reflexivity.
Qed.

Lemma length_del_le {K V : Type} `{EqDec K} (d : PyDict.t K V) (k : K) :
  (List.length (PyDict.del d k) <= List.length d)%nat.
Proof.
  induction d as [|[k0 v0] d IH]; cbn; [lia|].
  destruct (eq_dec k0 k); cbn; lia.
Qed.

Lemma length_del_present {K V : Type} `{EqDec K} (d : PyDict.t K V) (k : K) (v : V) :
  PyDict.get d k = Some v ->
  S (List.length (PyDict.del d k)) = List.length d.
Proof.
  induction d as [|[k0 v0] d IH]; cbn; [discriminate|].
  destruct (eq_dec k0 k); cbn; [reflexivity|]. intros Hg. now rewrite IH.
Qed.

Lemma get_del_Some {K V : Type} `{EqDec K} (d : PyDict.t K V) (k k' : K) (v : V) :
  PyDict.wf d -> PyDict.get (PyDict.del d k) k' = Some v ->
  PyDict.get d k' = Some v /\ k' <> k.
Proof.
  intros Hwf Hg. destruct (eq_dec k' k) as [->|Hne].
  - rewrite get_del_same in Hg by exact Hwf. discriminate.
  - rewrite get_del_other in Hg by congruence. auto.
Qed.

(** *** The loop that removes a list of sockets *)

Section RemoveEach.
Variable net : Network.
Variable remove : ConnectionManager -> socket
                  -> ConnectionManager * list event * (string * address).

(** What one removal does to the registry: the socket is gone, nothing is
    added or altered, and a member that can be written to stays. *)
Hypothesis remove_registry : forall m s,
  PyDict.wf (control_clients m) ->
  let m' := fst (fst (remove m s)) in
  PyDict.wf (control_clients m') /\
  server_ref m' = server_ref m /\
  PyDict.get (control_clients m') s = None /\
  (forall k v, PyDict.get (control_clients m') k = Some v ->
     PyDict.get (control_clients m) k = Some v) /\
  (forall k, k <> s -> send_ok net k = true ->
     PyDict.get (control_clients m') k = PyDict.get (control_clients m) k) /\
  (List.length (control_clients m') <= List.length (control_clients m))%nat.

Lemma remove_each_registry (L : list socket) (m : ConnectionManager) :
  PyDict.wf (control_clients m) ->
  let m' := fst (remove_each remove m L) in
  PyDict.wf (control_clients m') /\
  server_ref m' = server_ref m /\
  (forall k, In k L -> PyDict.get (control_clients m') k = None) /\
  (forall k v, PyDict.get (control_clients m') k = Some v ->
     PyDict.get (control_clients m) k = Some v) /\
  (forall k, ~ In k L -> send_ok net k = true ->
     PyDict.get (control_clients m') k = PyDict.get (control_clients m) k) /\
  (List.length (control_clients m') <= List.length (control_clients m))%nat.
Proof.
  revert m. induction L as [|s rest IH]; intros m Hwf; cbn [remove_each].
  - cbn [fst]. repeat split; auto. intros k [].
  - destruct (remove_registry m s Hwf) as (Hwf1 & Hs1 & Hgone1 & Honly1 & Hkeep1 & Hlen1).
    destruct (remove m s) as [[m1 ev1] ret]. cbn [fst] in *.
    destruct (IH m1 Hwf1) as (Hwf2 & Hs2 & Hgone2 & Honly2 & Hkeep2 & Hlen2).
    destruct (remove_each remove m1 rest) as [m2 ev2]. cbn [fst] in *.
    split; [exact Hwf2|]. split; [congruence|]. split; [|split; [|split]].
    + intros k [<-|Hin]; [|auto].
      destruct (PyDict.get (control_clients m2) s) as [v|] eqn:E; [|reflexivity].
      apply Honly2 in E. congruence.
    + intros k v Hg. auto.
    + intros k Hnin Hok. rewrite Hkeep2 by (try assumption; intros Hin; apply Hnin; now right).
      apply Hkeep1; [|exact Hok]. intros ->. apply Hnin. now left.
    + lia.
Qed.

(** What one removal logs: no direct write, and a close for whoever goes. *)
Hypothesis remove_events : forall m s,
  PyDict.wf (control_clients m) ->
  (forall e, In e (snd (fst (remove m s))) -> is_sendall e = false) /\
  (forall k, PyDict.get (control_clients m) k <> None ->
     PyDict.get (control_clients (fst (fst (remove m s)))) k = None ->
     In (EvClose k) (snd (fst (remove m s)))).

Lemma remove_each_events (L : list socket) (m : ConnectionManager) :
  PyDict.wf (control_clients m) ->
  (forall e, In e (snd (remove_each remove m L)) -> is_sendall e = false) /\
  (forall k, PyDict.get (control_clients m) k <> None ->
     PyDict.get (control_clients (fst (remove_each remove m L))) k = None ->
     In (EvClose k) (snd (remove_each remove m L))).
Proof.
  revert m. induction L as [|s rest IH]; intros m Hwf; cbn [remove_each].
  - cbn [fst snd]. split; [intros e []|]. intros k Hk Hk'. contradiction.
  - destruct (remove_registry m s Hwf) as (Hwf1 & _).
    destruct (remove_events m s Hwf) as (Hns1 & Hcl1).
    destruct (remove m s) as [[m1 ev1] ret]. cbn [fst snd] in *.
    destruct (IH m1 Hwf1) as (Hns2 & Hcl2).
    destruct (remove_each remove m1 rest) as [m2 ev2]. cbn [fst snd] in *.
    split.
    + intros e Hin. apply in_app_or in Hin as [Hin|Hin]; auto.
    + intros k Hk Hk'. apply in_or_app.
      destruct (PyDict.get (control_clients m1) k) as [v|] eqn:E.
      * right. apply Hcl2; [congruence|exact Hk'].
      * left. auto.
Qed.

End RemoveEach.

(** *** [remove_client] and its cascade *)

Lemma remove_client_rec_registry (net : Network) (fuel : nat)
    (m : ConnectionManager) (s : socket) :
  PyDict.wf (control_clients m) ->
  let m' := fst (fst (remove_client_rec fuel net m s)) in
  PyDict.wf (control_clients m') /\
  server_ref m' = server_ref m /\
  PyDict.get (control_clients m') s = None /\
  (forall k v, PyDict.get (control_clients m') k = Some v ->
     PyDict.get (control_clients m) k = Some v) /\
  (forall k, k <> s -> send_ok net k = true ->
     PyDict.get (control_clients m') k = PyDict.get (control_clients m) k) /\
  (List.length (control_clients m') <= List.length (control_clients m))%nat.
Proof.
  revert m s. induction fuel as [|fuel IH]; intros m s Hwf;
    rewrite remove_client_rec_eq;
    destruct (PyDict.get (control_clients m) s) as [info|] eqn:Hg;
    try (cbn [fst control_clients server_ref]; repeat split; auto; fail).
  - cbv zeta.
    destruct (negb (eqb_of (info_username info) "Unknown"%string));
      cbn [fst snd control_clients server_ref];
      (split; [apply wf_del, Hwf|]); (split; [reflexivity|]);
      (split; [apply get_del_same, Hwf|]);
      (split; [intros k v Hk; apply (get_del_Some _ _ _ _ Hwf Hk)|]);
      (split; [intros k Hk _; apply get_del_other; congruence|apply length_del_le]).
  - cbv zeta.
    set (m1 := mk_manager (PyDict.del (control_clients m) s) _ (server_ref m)).
    assert (Hwf1 : PyDict.wf (control_clients m1)) by (apply wf_del, Hwf).
    destruct (negb (eqb_of (info_username info) "Unknown"%string)).
    + unfold broadcast_user_list_with.
      destruct (remove_each_registry net (remove_client_rec fuel net) IH
                  (filter (fun c => negb (send_ok net c))
                     (PyDict.keys (control_clients m1))) m1 Hwf1)
        as (Hwf2 & Hs2 & Hgone2 & Honly2 & Hkeep2 & Hlen2).
      cbn [fst snd]. cbn [control_clients server_ref m1] in *.
      split; [exact Hwf2|]. split; [exact Hs2|]. split; [|split; [|split]].
      * match goal with |- ?x = None => destruct x as [v|] eqn:E end;
          [|reflexivity].
        apply Honly2 in E. rewrite get_del_same in E by exact Hwf. discriminate.
      * intros k v Hk. apply Honly2 in Hk.
        apply (get_del_Some _ _ _ _ Hwf Hk).
      * intros k Hk Hok. rewrite Hkeep2.
        -- apply get_del_other. congruence.
        -- intros Hin. apply filter_In in Hin as [_ Hf]. rewrite Hok in Hf.
           discriminate.
        -- exact Hok.
      * pose proof (length_del_le (control_clients m) s). lia.
    + cbn [fst snd control_clients server_ref m1].
      split; [exact Hwf1|]. split; [reflexivity|].
      split; [apply get_del_same, Hwf|].
      split; [intros k v Hk; apply (get_del_Some _ _ _ _ Hwf Hk)|].
      split; [intros k Hk _; apply get_del_other; congruence|apply length_del_le].
Qed.

Lemma remove_client_rec_events (net : Network) (fuel : nat)
    (m : ConnectionManager) (s : socket) :
  PyDict.wf (control_clients m) ->
  (forall e, In e (snd (fst (remove_client_rec fuel net m s))) ->
     is_sendall e = false) /\
  (forall k, PyDict.get (control_clients m) k <> None ->
     PyDict.get (control_clients (fst (fst (remove_client_rec fuel net m s)))) k
     = None ->
     In (EvClose k) (snd (fst (remove_client_rec fuel net m s)))).
Proof.
  revert m s. induction fuel as [|fuel IH]; intros m s Hwf;
    rewrite remove_client_rec_eq;
    destruct (PyDict.get (control_clients m) s) as [info|] eqn:Hg;
    try (cbn [fst snd control_clients]; split; [intros e []|];
         intros k Hk Hk'; contradiction).
  - cbv zeta.
    assert (Hclose : forall k,
              PyDict.get (control_clients m) k <> None ->
              PyDict.get (PyDict.del (control_clients m) s) k = None -> k = s).
    { intros k Hk Hk'. destruct (eq_dec k s) as [E|E]; [exact E|].
      rewrite get_del_other in Hk' by congruence. contradiction. }
    destruct (negb (eqb_of (info_username info) "Unknown"%string));
      cbn [fst snd control_clients app].
    + split.
      * intros e [<-|[<-|Hin]]; [reflexivity|reflexivity|].
        match type of Hin with In _ (if ?b then _ else _) => destruct b end;
          [|destruct Hin].
        destruct Hin as [<-|[]]. reflexivity.
      * intros k Hk Hk'. left. f_equal. symmetry. auto.
    + split; [intros e [<-|[]]; reflexivity|].
      intros k Hk Hk'. left. f_equal. symmetry. auto.
  - cbv zeta.
    set (m1 := mk_manager (PyDict.del (control_clients m) s) _ (server_ref m)).
    assert (Hwf1 : PyDict.wf (control_clients m1)) by (apply wf_del, Hwf).
    destruct (negb (eqb_of (info_username info) "Unknown"%string)).
    + unfold broadcast_user_list_with.
      destruct (remove_each_events net (remove_client_rec fuel net)
                  (remove_client_rec_registry net fuel) IH
                  (filter (fun c => negb (send_ok net c))
                     (PyDict.keys (control_clients m1))) m1 Hwf1)
        as (Hns & Hcl).
      cbn [fst snd app]. split.
      * intros e [<-|[<-|Hin]]; [reflexivity|reflexivity|].
        apply in_app_or in Hin as [Hin|Hin]; [auto|].
        match type of Hin with In _ (if ?b then _ else _) => destruct b end;
          [|destruct Hin].
        destruct Hin as [<-|[]]. reflexivity.
      * intros k Hk Hk'.
        destruct (PyDict.get (control_clients m1) k) as [v|] eqn:E.
        -- right. right. apply in_or_app. left. apply Hcl; [congruence|exact Hk'].
        -- left. f_equal. cbn [control_clients m1] in E.
           destruct (eq_dec k s) as [E'|E']; [now symmetry|].
           rewrite get_del_other in E by congruence. contradiction.
    + cbn [fst snd control_clients m1]. split; [intros e [<-|[]]; reflexivity|].
      intros k Hk Hk'. left. f_equal.
      destruct (eq_dec k s) as [E'|E']; [now symmetry|].
      rewrite get_del_other in Hk' by congruence. contradiction.
Qed.

(** Fuel beyond the number of members is never used. *)
Lemma remove_each_ext (net : Network) (bound : nat)
    (r1 r2 : ConnectionManager -> socket
             -> ConnectionManager * list event * (string * address))
    (L : list socket) (m : ConnectionManager) :
  (forall m s, PyDict.wf (control_clients m) ->
     (List.length (control_clients m) <= bound)%nat -> r1 m s = r2 m s) ->
  (forall m s, PyDict.wf (control_clients m) ->
     PyDict.wf (control_clients (fst (fst (r1 m s)))) /\
     (List.length (control_clients (fst (fst (r1 m s))))
      <= List.length (control_clients m))%nat) ->
  PyDict.wf (control_clients m) ->
  (List.length (control_clients m) <= bound)%nat ->
  remove_each r1 m L = remove_each r2 m L.
Proof.
  intros Hext Hstep. revert m. induction L as [|s rest IH]; intros m Hwf Hlen;
    cbn [remove_each]; [reflexivity|].
  rewrite <- (Hext m s Hwf Hlen).
  destruct (Hstep m s Hwf) as [Hwf1 Hlen1].
  destruct (r1 m s) as [[m1 ev1] ret]. cbn [fst] in *.
  rewrite (IH m1 Hwf1) by lia. reflexivity.
Qed.

Lemma remove_client_rec_step (net : Network) (fuel : nat)
    (m : ConnectionManager) (s : socket) :
  PyDict.wf (control_clients m) ->
  (List.length (control_clients m) <= fuel)%nat ->
  remove_client_rec fuel net m s = remove_client_rec (S fuel) net m s.
Proof.
  revert m s. induction fuel as [|fuel IH]; intros m s Hwf Hlen;
    rewrite !remove_client_rec_eq.
  - destruct (control_clients m) as [|e cc] eqn:Hcc; [|cbn in Hlen; lia].
    reflexivity.
  - destruct (PyDict.get (control_clients m) s) as [info|] eqn:Hg; [|reflexivity].
    cbv zeta.
    destruct (negb (eqb_of (info_username info) "Unknown"%string)); [|reflexivity].
    unfold broadcast_user_list_with.
    set (m1 := mk_manager (PyDict.del (control_clients m) s) _ (server_ref m)).
    assert (Hwf1 : PyDict.wf (control_clients m1)) by (apply wf_del, Hwf).
    assert (Hlen1 : (List.length (control_clients m1) <= fuel)%nat).
    { cbn [control_clients m1].
      pose proof (length_del_present (control_clients m) s info Hg). lia. }
    rewrite (remove_each_ext net fuel (remove_client_rec fuel net)
               (remove_client_rec (S fuel) net)); try assumption; [reflexivity|].
    intros m0 s0 Hw.
    destruct (remove_client_rec_registry net fuel m0 s0 Hw)
      as (H1 & _ & _ & _ & _ & H2). auto.
Qed.

Lemma remove_client_rec_fuel (net : Network) (fuel : nat)
    (m : ConnectionManager) (s : socket) :
  PyDict.wf (control_clients m) ->
  (List.length (control_clients m) <= fuel)%nat ->
  remove_client_rec fuel net m s = remove_client net m s.
Proof.
  intros Hwf Hlen. unfold remove_client.
  induction Hlen as [|fuel Hle IH]; [reflexivity|].
  rewrite <- IH. symmetry. apply remove_client_rec_step; assumption.
Qed.

Lemma remove_client_registry (net : Network) (m : ConnectionManager) (s : socket) :
  PyDict.wf (control_clients m) ->
  let m' := fst (fst (remove_client net m s)) in
  PyDict.wf (control_clients m') /\
  server_ref m' = server_ref m /\
  PyDict.get (control_clients m') s = None /\
  (forall k v, PyDict.get (control_clients m') k = Some v ->
     PyDict.get (control_clients m) k = Some v) /\
  (forall k, k <> s -> send_ok net k = true ->
     PyDict.get (control_clients m') k = PyDict.get (control_clients m) k) /\
  (List.length (control_clients m') <= List.length (control_clients m))%nat.
Proof. apply remove_client_rec_registry. Qed.

Lemma remove_client_events (net : Network) (m : ConnectionManager) (s : socket) :
  PyDict.wf (control_clients m) ->
  (forall e, In e (snd (fst (remove_client net m s))) -> is_sendall e = false) /\
  (forall k, PyDict.get (control_clients m) k <> None ->
     PyDict.get (control_clients (fst (fst (remove_client net m s)))) k = None ->
     In (EvClose k) (snd (fst (remove_client net m s)))).
Proof. apply remove_client_rec_events. Qed.

(** The socket that is removed and, when it had a name, every member that
    cannot be written to are gone; the other members are as they were. *)
Lemma remove_client_lookup (net : Network) (m : ConnectionManager) (s k : socket) :
  PyDict.wf (control_clients m) ->
  PyDict.get (control_clients (fst (fst (remove_client net m s)))) k
  = if eqb_of k s then None
    else if match PyDict.get (control_clients m) s with
            | Some info => negb (eqb_of (info_username info) "Unknown"%string)
            | None => false
            end && negb (send_ok net k)
         then None
         else PyDict.get (control_clients m) k.
Proof.
  intros Hwf.
  destruct (remove_client_registry net m s Hwf) as (_ & _ & Hgone & Honly & Hkeep & _).
  destruct (eqb_of k s) eqn:Eks.
  { apply eqb_of_true in Eks. subst k. exact Hgone. }
  apply eqb_of_false in Eks.
  destruct (send_ok net k) eqn:Hok.
  { rewrite andb_false_r. apply Hkeep; assumption. }
  rewrite andb_true_r. clear Hgone Honly Hkeep.
  unfold remove_client. rewrite remove_client_rec_eq.
  destruct (PyDict.get (control_clients m) s) as [info|] eqn:Hg;
    [|reflexivity].
  cbv zeta.
  destruct (negb (eqb_of (info_username info) "Unknown"%string));
    [|cbn [fst control_clients]; apply get_del_other; congruence].
  destruct (List.length (control_clients m)) as [|fuel] eqn:Hlen.
  { destruct (control_clients m); [discriminate Hg|discriminate Hlen]. }
  unfold broadcast_user_list_with.
  set (m1 := mk_manager (PyDict.del (control_clients m) s) _ (server_ref m)).
  assert (Hwf1 : PyDict.wf (control_clients m1)) by (apply wf_del, Hwf).
  destruct (remove_each_registry net (remove_client_rec fuel net)
              (remove_client_rec_registry net fuel)
              (filter (fun c => negb (send_ok net c))
                 (PyDict.keys (control_clients m1))) m1 Hwf1)
    as (_ & _ & Hgone & Honly & _ & _).
  cbn [fst].
  destruct (PyDict.get (control_clients m1) k) as [v|] eqn:E.
  - apply Hgone. apply filter_In. split; [|now rewrite Hok].
    apply get_In in E. unfold PyDict.keys. apply in_map_iff.
    exists (k, v). auto.
  - match goal with |- ?x = None => destruct x as [v|] eqn:E' end;
      [|reflexivity].
    apply Honly in E'. congruence.
Qed.

(** No removal writes a chat packet: the log of [remove_client] holds closes
    and user-list broadcasts only. *)
Lemma remove_each_no_sendall
    (remove : ConnectionManager -> socket
              -> ConnectionManager * list event * (string * address))
    (L : list socket) (m : ConnectionManager) (e : event) :
  (forall m s e, In e (snd (fst (remove m s))) -> is_sendall e = false) ->
  In e (snd (remove_each remove m L)) -> is_sendall e = false.
Proof.
  intros Hrem. revert m. induction L as [|s rest IH]; intros m; cbn [remove_each].
  - intros [].
  - pose proof (Hrem m s e) as Hrc.
    destruct (remove m s) as [[m1 ev1] ret]. cbn [fst snd] in Hrc.
    specialize (IH m1). destruct (remove_each remove m1 rest) as [m2 ev2].
    cbn [snd] in *. intros Hin. apply in_app_or in Hin. tauto.
Qed.

Lemma remove_client_rec_no_sendall (net : Network) (fuel : nat)
    (m : ConnectionManager) (s : socket) (e : event) :
  In e (snd (fst (remove_client_rec fuel net m s))) -> is_sendall e = false.
Proof.
  revert m s e. induction fuel as [|fuel IH]; intros m s e;
    rewrite remove_client_rec_eq;
    destruct (PyDict.get (control_clients m) s) as [info|];
    try (cbn [fst snd]; intros []); cbv zeta;
    destruct (negb (eqb_of (info_username info) "Unknown"%string));
    cbn [fst snd app]; try (intros [<-|[]]; reflexivity).
  - intros [<-|[<-|Hin]]; [reflexivity|reflexivity|].
    match type of Hin with In _ (if ?b then _ else _) => destruct b end;
      [|destruct Hin].
    destruct Hin as [<-|[]]. reflexivity.
  - intros [<-|[<-|Hin]]; [reflexivity|reflexivity|].
    apply in_app_or in Hin as [Hin|Hin].
    + unfold broadcast_user_list_with in Hin.
      apply remove_each_no_sendall in Hin; [exact Hin|]. intros m0 s0 e0. apply IH.
    + match type of Hin with In _ (if ?b then _ else _) => destruct b end;
        [|destruct Hin].
      destruct Hin as [<-|[]]. reflexivity.
Qed.

Lemma remove_failed_eq (net : Network) (m : ConnectionManager) (L : list socket) :
  remove_failed net m L = remove_each (remove_client net) m L.
Proof.
  revert m. induction L as [|s rest IH]; intros m; cbn [remove_failed remove_each];
    [reflexivity|].
  destruct (remove_client net m s) as [[m1 ev1] ret]. rewrite IH. reflexivity.
Qed.

(** Removing a socket that is not registered leaves the control map alone,
    triggers no broadcast and returns the placeholder identity; the stream
    map is left alone when it has no entry for the placeholder IP. *)
Lemma remove_client_absent (net : Network) (m : ConnectionManager) (s : socket) :
  PyDict.get (control_clients m) s = None ->
  let '(m', evs, ret) := remove_client net m s in
  control_clients m' = control_clients m /\
  server_ref m' = server_ref m /\
  evs = [] /\
  ret = ("Unknown"%string, ("0.0.0.0"%string, 0)) /\
  (PyDict.get (stream_clients m) "0.0.0.0"%string = None ->
   stream_clients m' = stream_clients m).
Proof.
  intros Habs. unfold remove_client. rewrite remove_client_rec_eq, Habs.
  repeat split. unfold PyDict.mem. intros ->. reflexivity.
Qed.

(** Removal of an unregistered socket is idempotent. *)
Lemma remove_client_absent_idempotent (net : Network) (m : ConnectionManager)
    (s : socket) :
  PyDict.wf (stream_clients m) ->
  PyDict.get (control_clients m) s = None ->
  let m1 := fst (fst (remove_client net m s)) in
  fst (fst (remove_client net m1 s)) = m1.
Proof.
  intros Hwf Habs. unfold remove_client. rewrite !remove_client_rec_eq, Habs.
  cbn [fst control_clients stream_clients server_ref]. rewrite Habs.
  cbn [fst]. f_equal.
  destruct (PyDict.mem (stream_clients m) "0.0.0.0"%string) eqn:E.
  - unfold PyDict.mem at 1. rewrite get_del_same by exact Hwf. reflexivity.
  - rewrite E. reflexivity.
Qed.

(** C9 (the code departs from the claim). A datagram whose source address is
    0.0.0.0 is registered under the same IP string that [remove_client] uses
    as its placeholder; removing a socket that was never registered then
    deletes that stream entry, so the stream-client map does change. The
    control map, the absence of a broadcast and the returned pair are as the
    claim says. *)
Theorem remove_client_unknown_drops_placeholder_stream :
  let m := placeholder_stream_manager in
  PyDict.get (control_clients m) 7%nat = None /\
  get_audio_listeners m None = [("0.0.0.0"%string, 6001)] /\
  forall net,
    let '(m', evs, ret) := remove_client net m 7%nat in
    control_clients m' = control_clients m /\
    evs = [] /\
    ret = ("Unknown"%string, ("0.0.0.0"%string, 0)) /\
    stream_clients m' = PyDict.empty /\
    stream_clients m' <> stream_clients m /\
    get_audio_listeners m' None = [].
Proof.
  cbn. repeat split. discriminate.
Qed.


Lemma update_first_by_ip_default_keeps_room
    (items : list (socket * client_info)) (ip : string)
    (username : option string) (now : time) items' (s : socket) info :
  update_first_by_ip items ip username (Some "default"%string) now = Some items' ->
  PyDict.get items s = Some info ->
  info_room info <> "default"%string -> info_room info <> ""%string ->
  exists info', PyDict.get items' s = Some info' /\ info_room info' = info_room info.
Proof.
  revert items'. induction items as [|[sock i] rest IH]; intros items' Hup Hget Hnd Hne;
    [discriminate|].
  cbn [update_first_by_ip] in Hup.
  destruct (eqb_of (fst (info_addr i)) ip) eqn:Eip.
  - injection Hup as <-. cbn [PyDict.get] in *.
    destruct (eq_dec sock s) as [E|E]; [|eauto].
    injection Hget as ->. eexists. split; [reflexivity|].
    assert (Hroom : forall j : client_info, info_room j = info_room info ->
              info_room (if truthy (Some "default"%string)
                         then if negb (eqb_of "default"%string "default"%string)
                                 || negb (nonempty (info_room j))
                                 || eqb_of (info_room j) "default"%string
                              then with_room j "default" else j
                         else j) = info_room info).
    { intros j Hj. cbn [truthy]. rewrite Hj.
      replace (eqb_of (info_room info) "default"%string) with false
        by (symmetry; now apply eqb_of_false).
      unfold nonempty.
      replace (eqb_of (info_room info) ""%string) with false
        by (symmetry; now apply eqb_of_false).
      cbn. exact Hj. }
    apply Hroom. destruct username as [u|]; [|reflexivity].
    destruct (truthy (Some u) && _); reflexivity.
  - destruct (update_first_by_ip rest ip username (Some "default"%string) now)
      as [rest'|] eqn:Erest; [|discriminate].
    injection Hup as <-. cbn [PyDict.get] in *.
    destruct (eq_dec sock s) as [E|E]; [eauto|].
    eapply IH; eauto.
Qed.

(** C7 (as amended). Touch-by-ip ignores a downgrade to "default": a member
    whose stored room is neither "default" nor empty keeps it when
    [update_client_status_by_ip] is called with room "default". Touch by
    socket has no such guard: [update_client_status] stores every non-empty
    room it is given. *)
Theorem touch_room_downgrade (m : ConnectionManager) (ip : string)
    (username : option string) (now : time) (s : socket) (info : client_info) :
  PyDict.get (control_clients m) s = Some info ->
  (info_room info <> "default"%string -> info_room info <> ""%string ->
   exists info',
     PyDict.get (control_clients
                   (fst (update_client_status_by_ip m ip username
                           (Some "default"%string) now))) s = Some info' /\
     info_room info' = info_room info) /\
  (forall r : string, r <> ""%string ->
   exists info',
     PyDict.get (control_clients
                   (fst (fst (update_client_status m s username (Some r) now))))
                s = Some info' /\
     info_room info' = r).
Proof.
  intros Hget. split.
  - intros Hnd Hne. unfold update_client_status_by_ip.
    destruct (update_first_by_ip (PyDict.items (control_clients m)) ip username
                (Some "default"%string) now) as [cc|] eqn:E; cbn.
    + eapply update_first_by_ip_default_keeps_room; eauto.
    + eauto.
  - intros r Hr. unfold update_client_status. rewrite Hget. cbn.
    rewrite get_set_same. eexists. split; [reflexivity|].
    replace (eqb_of r ""%string) with false by (symmetry; now apply eqb_of_false).
    reflexivity.
Qed.

Lemma touch_room_downgrade_witness :
  exists info,
    PyDict.get (control_clients team_member_manager) 1%nat = Some info /\
    info_room info = "team"%string /\
    (exists info',
       PyDict.get (control_clients
                     (fst (update_client_status_by_ip team_member_manager
                             "10.0.0.1" (Some "Alice"%string)
                             (Some "default"%string) 9))) 1%nat = Some info' /\
       info_room info' = "team"%string) /\
    (exists info',
       PyDict.get (control_clients
                     (fst (fst (update_client_status team_member_manager 1%nat
                                  (Some "Alice"%string)
                                  (Some "default"%string) 9)))) 1%nat = Some info' /\
       info_room info' = "default"%string).
Proof.
  eexists. split; [reflexivity|]. split; [reflexivity|].
  pose proof (@touch_room_downgrade team_member_manager "10.0.0.1"
                (Some "Alice"%string) 9 1%nat _ eq_refl) as [Hip Hsock].
  split.
  - apply Hip; cbn; discriminate.
  - apply Hsock. discriminate.
Defined.

(** C7 as stated fails for touch by socket: a member in room "team" that is
    touched with room "default" ends in room "default". *)
Lemma touch_by_socket_downgrades_room :
  option_map info_room
    (PyDict.get (control_clients team_member_manager) 1%nat)
  = Some "team"%string /\
  option_map info_room
    (PyDict.get (control_clients
                   (fst (fst (update_client_status team_member_manager 1%nat None
                                (Some "default"%string) 9)))) 1%nat)
  = Some "default"%string.
Proof. split; reflexivity. Qed.


(** ** Chat router *)

Section ChatRouter.
Context {rt : PyRuntime}.
Variable net : Network.

Lemma send_loop_events (targets : list socket) (pkt : bytes) :
  snd (send_loop net targets pkt)
  = map (fun s => EvSendall s pkt (send_ok net s)) targets.
Proof.
  induction targets as [|s rest IH]; [reflexivity|].
  cbn [send_loop map].
  destruct (send_loop net rest pkt) as [[[sent failed] fs] evs].
  cbn [snd] in IH. subst evs.
  destruct (send_ok net s); reflexivity.
Qed.

(** The counters of the send loop count the targets by outcome. *)
Lemma send_loop_counts (targets : list socket) (pkt : bytes) :
  let '(sent, failed, failed_sockets, _) := send_loop net targets pkt in
  sent = Z.of_nat (List.length (filter (send_ok net) targets)) /\
  failed = Z.of_nat (List.length (filter (fun s => negb (send_ok net s)) targets)) /\
  failed_sockets = filter (fun s => negb (send_ok net s)) targets.
Proof.
  induction targets as [|s rest IH]; [cbn; auto|].
  cbn [send_loop filter].
  destruct (send_loop net rest pkt) as [[[sent failed] fs] evs].
  destruct IH as (-> & -> & ->).
  destruct (send_ok net s); cbn [negb]; repeat split;
    first [reflexivity | (simpl List.length; lia)].
Qed.

Lemma remove_client_no_sendall (m : ConnectionManager) (s : socket) (e : event) :
  In e (snd (fst (remove_client net m s))) -> is_sendall e = false.
Proof. apply remove_client_rec_no_sendall. Qed.

Lemma remove_failed_no_sendall (failed : list socket) (m : ConnectionManager)
    (e : event) :
  In e (snd (remove_failed net m failed)) -> is_sendall e = false.
Proof.
  rewrite remove_failed_eq. apply remove_each_no_sendall.
  intros m0 s0 e0. apply remove_client_no_sendall.
Qed.

(** Shape of the log of [_send_to_targets]: one write of the chat packet per
    target in order, then the removals, then at most the confirmation. *)
Lemma send_to_targets_log (h : TCPHandler) (m : ConnectionManager)
    (targets : list socket) (pkt : bytes) (status : string) (now : time) :
  exists ev_remove ev_confirm,
    snd (fst (_send_to_targets net h m targets pkt status now))
    = map (fun s => EvSendall s pkt (send_ok net s)) targets
      ++ ev_remove ++ ev_confirm /\
    (forall e, In e ev_remove -> is_sendall e = false) /\
    (ev_confirm = [] \/
     exists confirm_packet,
       ev_confirm = [EvSendall (h_sock h) confirm_packet (send_ok net (h_sock h))]).
Proof.
  unfold _send_to_targets.
  pose proof (send_loop_events targets pkt) as Hev.
  destruct (send_loop net targets pkt) as [[[sent failed] fs] evs].
  cbn [snd] in Hev. subst evs.
  pose proof (@remove_failed_no_sendall fs m) as Hrm.
  destruct (remove_failed net m fs) as [m' ev_remove]. cbn [snd] in Hrm.
  destruct (chat_packet_of (confirm_message h status sent failed now))
    as [confirm_packet|e]; cbn [fst snd].
  - exists ev_remove, [EvSendall (h_sock h) confirm_packet (send_ok net (h_sock h))].
    split; [reflexivity|]. split; [exact Hrm|]. right. eauto.
  - exists ev_remove, []. rewrite app_nil_r. auto.
Qed.

Lemma fill_field_other (obj : PyDict.t string json) (key value k : string) :
  key <> k -> PyDict.get (fill_field obj key value) k = PyDict.get obj k.
Proof.
  intros Hne. unfold fill_field.
  destruct (negb (PyDict.mem obj key) || _); [|reflexivity].
  apply get_set_other, Hne.
Qed.

(** Normalising the sender and the meeting id leaves the target alone. *)
Lemma prepare_chat_target (h : TCPHandler) (payload : bytes) (now : time)
    (obj : PyDict.t string json) (pkt : bytes) (tv : json) :
  json_loads (decode payload) = Some (JObj obj) ->
  prepare_chat h payload now = Ok (pkt, tv) ->
  tv = match PyDict.get obj "target"%string with
       | Some v => v
       | None => JStr "all"
       end.
Proof.
  intros Hload. unfold prepare_chat. rewrite Hload.
  rewrite !fill_field_other by discriminate.
  destruct (chat_packet_of _); cbn [bind]; [|discriminate].
  intros [= _ <-]. reflexivity.
Qed.

Lemma lower_all : lower "all" = "all"%string.
Proof. now rewrite lower_ascii_text. Qed.

Lemma route_chat_all (h : TCPHandler) (r : room) (now : time) (t : string) :
  json_truthy (JStr t) = false \/ lower t = "all"%string
  \/ lower t = "everyone"%string ->
  route_chat net h r (JStr t) now
  = RouteTo (filter (fun s => negb (eqb_of s (h_sock h))) (clients r))
      (broadcast_status (filter (fun s => negb (eqb_of s (h_sock h))) (clients r))).
Proof.
  intros Ht. unfold route_chat. cbv zeta.
  destruct (json_truthy (JStr t)); [|reflexivity].
  destruct Ht as [Ht|[Ht|Ht]]; [discriminate| |]; rewrite Ht; reflexivity.
Qed.

(** A broadcast request is routed to the room's clients other than the
    sender. *)
Lemma route_chat_broadcast (h : TCPHandler) (payload : bytes) (now : time)
    (pkt : bytes) (tv : json) (r : room) :
  broadcast_request payload ->
  prepare_chat h payload now = Ok (pkt, tv) ->
  route_chat net h r tv now
  = RouteTo (filter (fun s => negb (eqb_of s (h_sock h))) (clients r))
      (broadcast_status (filter (fun s => negb (eqb_of s (h_sock h))) (clients r))).
Proof.
  unfold broadcast_request. intros Hreq Hprep.
  destruct (json_loads (decode payload)) as [v|] eqn:Hload.
  - destruct v as [| | | | |obj]; try contradiction.
    rewrite (prepare_chat_target h payload now obj pkt tv Hload Hprep).
    unfold broadcast_target in Hreq.
    destruct (PyDict.get obj "target"%string) as [v|].
    + destruct v as [| | |t| |]; try contradiction.
      apply route_chat_all. destruct Hreq as [->|Hreq]; [left; reflexivity|tauto].
    + apply route_chat_all. right. left. exact lower_all.
  - unfold prepare_chat in Hprep. rewrite Hload in Hprep.
    destruct (pack_message MSG_CHAT payload); cbn [bind] in Hprep; [|discriminate].
    injection Hprep as _ <-. apply route_chat_all. right. left. exact lower_all.
Qed.

(** What a broadcast writes once its chat packet is packed: one write of the
    packet per socket in the client list of the room named by the sender's
    meeting id, other than the sender's own, in list order; the rest of the
    log holds no write except one reply to the sender. *)
Lemma chat_broadcast_writes (h : TCPHandler) (srv : SaporaServer)
    (payload : bytes) (now : time) (chat_packet : bytes) (tv : json) :
  h_server h = true ->
  broadcast_request payload ->
  prepare_chat h payload now = Ok (chat_packet, tv) ->
  let members := room_clients srv (h_meeting_id h) in
  let targets := filter (fun s => negb (eqb_of s (h_sock h))) members in
  (forall s, In s targets <-> In s members /\ s <> h_sock h) /\
  (NoDup members -> NoDup targets) /\
  rooms (fst (_handle_chat net h srv payload now)) = rooms srv /\
  exists ev_remove ev_confirm,
    snd (_handle_chat net h srv payload now)
    = map (fun s => EvSendall s chat_packet (send_ok net s)) targets
      ++ ev_remove ++ ev_confirm /\
    (forall e, In e ev_remove -> is_sendall e = false) /\
    (ev_confirm = [] \/
     exists confirm_packet,
       ev_confirm = [EvSendall (h_sock h) confirm_packet (send_ok net (h_sock h))]).
Proof.
  intros Hsrv Hreq Hprep members targets. split; [|split].
  - intros s. subst targets. rewrite filter_In.
    rewrite negb_true_iff, eqb_of_false. tauto.
  - apply NoDup_filter.
  - subst targets members. unfold room_clients, _handle_chat, chat_body.
    rewrite Hprep, Hsrv. cbn [negb].
    destruct (PyDict.get (rooms srv) (h_meeting_id h)) as [r|].
    + rewrite (route_chat_broadcast h payload now chat_packet tv r Hreq Hprep).
      set (targets := filter _ (clients r)).
      set (status := broadcast_status targets).
      pose proof (send_to_targets_log h (manager srv) targets chat_packet status now)
        as (ev_remove & ev_confirm & Hlog & Hrm & Hconf).
      destruct (_send_to_targets net h (manager srv) targets chat_packet status now)
        as [[m evs] res]. cbn [fst snd] in *.
      split; [reflexivity|]. exists ev_remove, ev_confirm. auto.
    + destruct (chat_packet_of _) as [error_packet|e]; cbn [fst snd filter map app].
      * split; [reflexivity|].
        exists [], [EvSendall (h_sock h) error_packet (send_ok net (h_sock h))].
        split; [reflexivity|]. split; [intros e []|]. right. eauto.
      * split; [reflexivity|]. exists [], []. split; [reflexivity|].
        split; [intros e0 []|]. now left.
Qed.

End ChatRouter.

(** C4 (the code departs from the claim). Bob registers in room "team" and
    then in room "other": the directory and the registry now record "other"
    as his room, but [_handle_register] never takes a socket out of the room
    it was in, so his socket is still in the client list of "team". When
    Alice broadcasts in "team", the chat packet is written to Bob's socket,
    which is a member of another room, besides Carol's. *)
Theorem broadcast_reaches_former_member :
  h_meeting_id alice_handler = "team"%string /\
  PyDict.get (client_rooms bob_moved) 2%nat = Some "other"%string /\
  option_map info_room (PyDict.get (control_clients (manager bob_moved)) 2%nat)
  = Some "other"%string /\
  room_clients bob_moved "other" = [4%nat; 2%nat] /\
  room_clients bob_moved "team" = [1%nat; 2%nat; 3%nat] /\
  @broadcast_request example_runtime chat_to_all /\
  exists chat_packet confirm_packet,
    @prepare_chat example_runtime alice_handler chat_to_all 21
    = Ok (chat_packet, JStr "all") /\
    snd (@_handle_chat example_runtime good_network alice_handler bob_moved
           chat_to_all 21)
    = [EvSendall 2%nat chat_packet true; EvSendall 3%nat chat_packet true;
       EvSendall 1%nat confirm_packet true].
Proof.
  split; [reflexivity|]. split; [vm_compute; reflexivity|].
  split; [vm_compute; reflexivity|]. split; [vm_compute; reflexivity|].
  split; [vm_compute; reflexivity|]. split; [exact I|].
  destruct (@prepare_chat example_runtime alice_handler chat_to_all 21)
    as [[chat_packet tv]|e] eqn:Hp; [|vm_compute in Hp; discriminate].
  destruct (@chat_packet_of example_runtime
              (confirm_message alice_handler "broadcast to 2 recipients" 2 0 21))
    as [confirm_packet|e] eqn:Hc; [|vm_compute in Hc; discriminate].
  exists chat_packet, confirm_packet.
  vm_compute in Hp. injection Hp as <- <-.
  vm_compute in Hc. injection Hc as <-.
  split; vm_compute; reflexivity.
Qed.

Section ChatConfirmation.
Context {rt : PyRuntime}.
Variable net : Network.

Lemma string_append_assoc (a b c : string) :
  ((a ++ b) ++ c = a ++ (b ++ c))%string.
Proof. induction a as [|x a IH]; cbn; [reflexivity|now rewrite IH]. Qed.

Lemma confirm_message_type (h : TCPHandler) (status : string)
    (sent failed : Z) (now : time) :
  message_type (confirm_message h status sent failed now)
  = Some (JStr (if (sent >? 0) || (failed =? 0)
                then "delivery_confirm" else "error")).
Proof.
  unfold confirm_message. destruct ((sent >? 0) || (failed =? 0)); reflexivity.
Qed.

Lemma confirm_message_text (h : TCPHandler) (status : string)
    (sent failed : Z) (now : time) :
  exists opening : string,
    message_text (confirm_message h status sent failed now)
    = Some (JStr (opening ++ status ++ " (sent: " ++ str_of_Z sent
                  ++ ", failed: " ++ str_of_Z failed ++ ")")).
Proof.
  unfold confirm_message. destruct ((sent >? 0) || (failed =? 0)).
  - exists (DELIVERED_MARK ++ " Message delivered: ")%string.
    cbn [message_text system_message]. cbn [PyDict.get].
    repeat (destruct (eq_dec _ _) as [E|E]; [discriminate E|clear E]).
    destruct (eq_dec _ _) as [E|E]; [|contradiction].
    rewrite !string_append_assoc. reflexivity.
  - exists (FAILED_MARK ++ " Message delivery failed: ")%string.
    cbn [message_text system_message]. cbn [PyDict.get].
    repeat (destruct (eq_dec _ _) as [E|E]; [discriminate E|clear E]).
    destruct (eq_dec _ _) as [E|E]; [|contradiction].
    rewrite !string_append_assoc. reflexivity.
Qed.

(** The replies of the router other than a fan-out are error objects. *)
Lemma route_chat_reply_is_error (h : TCPHandler) (r : room) (tv : json)
    (now : time) (error_packet : bytes) :
  route_chat net h r tv now = RouteReply error_packet ->
  exists t text,
    tv = JStr t /\
    PyDict.get (participants_ci (participants r)) (lower (strip t)) = None /\
    text = ("User " ++ DQUOTE ++ t ++ DQUOTE ++ " not found. Available: "
            ++ join ", " (PyDict.keys (participants r)))%string /\
    chat_packet_of (system_message (h_username h) text now (h_meeting_id h) "error")
    = Ok error_packet.
Proof.
  unfold route_chat. cbv zeta.
  destruct (json_truthy tv); [|discriminate].
  destruct tv as [| | |t| |]; try discriminate.
  destruct (negb _); [|discriminate].
  destruct (PyDict.get (participants_ci (participants r)) (lower (strip t)))
    as [[name sock]|] eqn:Hci.
  - destruct (peername_ok net sock); discriminate.
  - destruct (chat_packet_of _) as [pkt|e] eqn:Hpk; [|discriminate].
    intros [= <-]. exists t. eexists. repeat split; eauto.
Qed.

(** C5 (as amended). After a broadcast or a unicast hit the sender is sent
    one SYSTEM chat packet that states the number of successful and failed
    writes; its type is delivery_confirm when a write succeeded or none
    failed, and error when every write failed. After an unknown-target miss
    the only packet is the error reply that names the available users: no
    delivery_confirm is sent. *)
Theorem chat_confirmation (h : TCPHandler) (srv : SaporaServer)
    (payload : bytes) (now : time) (r : room) (chat_packet : bytes) (tv : json) :
  h_server h = true ->
  prepare_chat h payload now = Ok (chat_packet, tv) ->
  PyDict.get (rooms srv) (h_meeting_id h) = Some r ->
  match route_chat net h r tv now with
  | RouteTo targets delivery_status =>
      let sent := Z.of_nat (List.length (filter (send_ok net) targets)) in
      let failed :=
        Z.of_nat (List.length (filter (fun s => negb (send_ok net s)) targets)) in
      let confirm_msg := confirm_message h delivery_status sent failed now in
      message_type confirm_msg
      = Some (JStr (if (sent >? 0) || (failed =? 0)
                    then "delivery_confirm" else "error")) /\
      (exists opening : string,
         message_text confirm_msg
         = Some (JStr (opening ++ delivery_status ++ " (sent: " ++ str_of_Z sent
                       ++ ", failed: " ++ str_of_Z failed ++ ")"))) /\
      (forall confirm_packet,
         chat_packet_of confirm_msg = Ok confirm_packet ->
         exists ev_remove,
           snd (_handle_chat net h srv payload now)
           = map (fun s => EvSendall s chat_packet (send_ok net s)) targets
             ++ ev_remove
             ++ [EvSendall (h_sock h) confirm_packet (send_ok net (h_sock h))] /\
           (forall e, In e ev_remove -> is_sendall e = false))
  | RouteReply error_packet =>
      snd (_handle_chat net h srv payload now)
      = [EvSendall (h_sock h) error_packet (send_ok net (h_sock h))] /\
      exists error_msg,
        chat_packet_of error_msg = Ok error_packet /\
        message_type error_msg = Some (JStr "error")
  | RouteRaise _ => snd (_handle_chat net h srv payload now) = []
  end.
Proof.
  intros Hsrv Hprep Hroom.
  destruct (route_chat net h r tv now) as [targets status|error_packet|e] eqn:Hroute.
  - cbv zeta. split; [apply confirm_message_type|].
    split; [apply confirm_message_text|].
    intros confirm_packet Hpack.
    unfold _handle_chat, chat_body. rewrite Hprep, Hsrv, Hroom, Hroute. cbn [negb].
    unfold _send_to_targets.
    pose proof (send_loop_events net targets chat_packet) as Hev.
    pose proof (send_loop_counts net targets chat_packet) as Hcnt.
    destruct (send_loop net targets chat_packet) as [[[sent failed] fs] evs].
    cbn [snd] in Hev. subst evs. destruct Hcnt as (-> & -> & ->).
    pose proof (remove_failed_no_sendall net
                  (filter (fun s => negb (send_ok net s)) targets) (manager srv))
      as Hrm.
    destruct (remove_failed net (manager srv) _) as [m' ev_remove]. cbn [snd] in Hrm.
    rewrite Hpack. cbn [fst snd]. exists ev_remove. split; [reflexivity|exact Hrm].
  - split.
    + unfold _handle_chat, chat_body. rewrite Hprep, Hsrv, Hroom, Hroute. reflexivity.
    + destruct (route_chat_reply_is_error h r tv now error_packet Hroute)
        as (t & text & _ & _ & _ & Hpk).
      eexists. split; [exact Hpk|reflexivity].
  - unfold _handle_chat, chat_body. rewrite Hprep, Hsrv, Hroom, Hroute. reflexivity.
Qed.

End ChatConfirmation.

Lemma chat_confirmation_witness :
  let payload := chat_to_bob in
  h_server alice_handler = true /\
  PyDict.get (rooms meeting_server) (h_meeting_id alice_handler) = Some team_room /\
  exists chat_packet confirm_packet,
    @prepare_chat example_runtime alice_handler payload 5
    = Ok (chat_packet, JStr "bob") /\
    @route_chat example_runtime good_network alice_handler team_room (JStr "bob") 5
    = RouteTo [2%nat] "private to Bob" /\
    message_type (confirm_message alice_handler "private to Bob" 1 0 5)
    = Some (JStr "delivery_confirm") /\
    @chat_packet_of example_runtime
      (confirm_message alice_handler "private to Bob" 1 0 5) = Ok confirm_packet /\
    exists ev_remove,
      snd (@_handle_chat example_runtime good_network alice_handler
             meeting_server payload 5)
      = [EvSendall 2%nat chat_packet true] ++ ev_remove
        ++ [EvSendall 1%nat confirm_packet true].
Proof.
  intros payload.
  assert (H1 : h_server alice_handler = true) by reflexivity.
  assert (H3 : PyDict.get (rooms meeting_server) (h_meeting_id alice_handler)
               = Some team_room) by reflexivity.
  split; [exact H1|]. split; [exact H3|].
  destruct (@prepare_chat example_runtime alice_handler payload 5)
    as [[chat_packet tv]|e] eqn:H2; [|vm_compute in H2; discriminate].
  assert (Htv : tv = JStr "bob").
  { vm_compute in H2. injection H2 as _ <-. reflexivity. }
  subst tv.
  destruct (@chat_packet_of example_runtime
              (confirm_message alice_handler "private to Bob" 1 0 5))
    as [confirm_packet|e] eqn:Hc; [|vm_compute in Hc; discriminate].
  exists chat_packet, confirm_packet.
  pose proof (@chat_confirmation example_runtime good_network alice_handler
                meeting_server payload 5 team_room chat_packet (JStr "bob")
                H1 H2 H3) as Hthm.
  assert (Hroute : @route_chat example_runtime good_network alice_handler
                     team_room (JStr "bob") 5 = RouteTo [2%nat] "private to Bob")
    by (vm_compute; reflexivity).
  rewrite Hroute in Hthm. destruct Hthm as (Hty & _ & Hlog).
  split; [reflexivity|]. split; [exact Hroute|]. split; [exact Hty|].
  split; [reflexivity|].
  destruct (Hlog confirm_packet Hc) as (ev_remove & Hevs & _).
  exists ev_remove. exact Hevs.
Defined.

(** C5 as stated fails on an unknown target: Alice writes to "nobody" and the
    only packet she is sent is the error reply, whose type is error. *)
Lemma unknown_target_gets_no_delivery_confirm :
  let payload := chat_to_nobody in
  let error_msg :=
    system_message "Alice"
      ("User " ++ DQUOTE ++ "nobody" ++ DQUOTE
       ++ " not found. Available: Alice, Bob, Carol") 5 "team" "error" in
  exists error_packet,
    @chat_packet_of example_runtime error_msg = Ok error_packet /\
    message_type error_msg = Some (JStr "error") /\
    JStr "error" <> JStr "delivery_confirm" /\
    snd (@_handle_chat example_runtime good_network alice_handler meeting_server
           payload 5)
    = [EvSendall 1%nat error_packet true].
Proof.
  intros payload error_msg.
  destruct (@chat_packet_of example_runtime error_msg) as [error_packet|e] eqn:Hc;
    [|vm_compute in Hc; discriminate].
  exists error_packet. split; [reflexivity|]. split; [reflexivity|].
  split; [discriminate|].
  vm_compute in Hc. injection Hc as <-. vm_compute. reflexivity.
Qed.

(** ** Room directory *)

Lemma In_set {K V : Type} `{EqDec K} (d : PyDict.t K V) (k k' : K) (v v' : V) :
  In (k, v) (PyDict.set d k' v') -> (k, v) = (k', v') \/ In (k, v) d.
Proof.
  induction d as [|[k0 v0] d IH]; cbn.
  - intros [E|[]]. left. congruence.
  - destruct (eq_dec k0 k') as [E|E]; cbn.
    + subst k0. intros [E'|Hin]; [left; congruence|right; right; exact Hin].
    + intros [E'|Hin]; [right; left; exact E'|]. destruct (IH Hin); auto.
Qed.

Lemma In_del {K V : Type} `{EqDec K} (d : PyDict.t K V) (k : K) (x : K * V) :
  In x (PyDict.del d k) -> In x d.
Proof.
  induction d as [|[k0 v0] d IH]; cbn; [tauto|].
  destruct (eq_dec k0 k); cbn; [tauto|]. intros [E|Hin]; auto.
Qed.

Lemma add_room_client_NoDup (cl : list socket) (s : socket) :
  NoDup cl -> NoDup (add_room_client cl s).
Proof.
  intros Hnd. unfold add_room_client.
  destruct (existsb (eqb_of s) cl) eqn:E; [exact Hnd|].
  apply NoDup_app; [exact Hnd|repeat constructor; cbn; tauto|].
  intros x Hx [<-|[]].
  assert (existsb (eqb_of s) cl = true); [|congruence].
  apply existsb_exists. exists s. split; [exact Hx|apply eqb_of_refl].
Qed.

Lemma add_room_client_In (cl : list socket) (s : socket) :
  In s (add_room_client cl s).
Proof.
  unfold add_room_client. destruct (existsb (eqb_of s) cl) eqn:E.
  - apply existsb_exists in E as (x & Hx & Heq). apply eqb_of_true in Heq.
    now subst x.
  - apply in_or_app. right. now left.
Qed.

Lemma list_remove_first_incl (l : list socket) (x y : socket) :
  In y (list_remove_first l x) -> In y l.
Proof.
  induction l as [|z l IH]; cbn; [tauto|].
  destruct (eqb_of z x); cbn; [tauto|]. intros [E|Hin]; auto.
Qed.

Lemma list_remove_first_NoDup (l : list socket) (x : socket) :
  NoDup l -> NoDup (list_remove_first l x).
Proof.
  induction l as [|z l IH]; cbn; [auto|]. intros Hnd.
  inversion Hnd as [|? ? Hnin Hnd']; subst.
  destruct (eqb_of z x); [exact Hnd'|].
  constructor; [|auto]. intros Hin. apply Hnin, (list_remove_first_incl l x), Hin.
Qed.

Lemma del_first_value_keys_incl (ps : PyDict.t string socket) (s : socket)
    (k : string) :
  In k (PyDict.keys (del_first_value ps s)) -> In k (PyDict.keys ps).
Proof.
  induction ps as [|[u s0] ps IH]; cbn; [tauto|].
  destruct (eqb_of s0 s); cbn; [tauto|]. intros [E|Hin]; auto.
Qed.

Lemma del_first_value_wf (ps : PyDict.t string socket) (s : socket) :
  PyDict.wf ps -> PyDict.wf (del_first_value ps s).
Proof.
  unfold PyDict.wf. induction ps as [|[u s0] ps IH]; cbn; [auto|]. intros Hnd.
  inversion Hnd as [|? ? Hnin Hnd']; subst.
  destruct (eqb_of s0 s); cbn; [exact Hnd'|].
  constructor; [|auto]. intros Hin. apply Hnin, (del_first_value_keys_incl ps s), Hin.
Qed.

Lemma room_ok_empty : room_ok (mk_room [] PyDict.empty).
Proof. split; constructor. Qed.

Lemma rooms_ok_lookup (srv : SaporaServer) (room_id : string) (r : room) :
  rooms_ok srv -> PyDict.get (rooms srv) room_id = Some r -> room_ok r.
Proof. intros Hok Hget. eapply Hok, get_In, Hget. Qed.

Lemma handle_register_rooms_ok (h : TCPHandler) (srv : SaporaServer)
    (reg : register_payload) (now : time) :
  rooms_ok srv -> rooms_ok (snd (fst (_handle_register h srv reg now))).
Proof.
  intros Hok. unfold _handle_register.
  destruct reg as [|username meeting_id]; [exact Hok|].
  set (u := match username with Some u => u | None => _ end).
  set (mid := match meeting_id with Some r => r | None => _ end).
  cbn [h_sock h_server].
  destruct (update_client_status (manager srv) (h_sock h) (Some u) None now)
    as [[m1 ev1] b].
  destruct (set_client_room m1 (h_sock h) mid) as [m2 ev2].
  destruct (h_server h); cbn [fst snd]; [|exact Hok].
  intros room_id r Hin. cbn [rooms set_manager] in Hin.
  apply In_set in Hin as [E|Hin]; [|eapply Hok, Hin].
  injection E as _ ->.
  assert (Hold : room_ok match PyDict.get (rooms srv) mid with
                         | Some r => r
                         | None => mk_room [] PyDict.empty
                         end).
  { destruct (PyDict.get (rooms srv) mid) eqn:Hg;
      [eapply rooms_ok_lookup; eauto|apply room_ok_empty]. }
  destruct Hold as [Hwf Hnd]. split; cbn [participants clients].
  - apply wf_set, Hwf.
  - apply add_room_client_NoDup, Hnd.
Qed.

Lemma cleanup_rooms_ok (net : Network) (h : TCPHandler) (srv : SaporaServer) :
  rooms_ok srv -> rooms_ok (snd (fst (fst (_cleanup net h srv)))).
Proof.
  intros Hok. unfold _cleanup.
  destruct (negb (h_running h)); [exact Hok|]. cbn [h_sock h_server].
  destruct (remove_client net (manager srv) (h_sock h)) as [[m ev1] ret].
  destruct (h_server h); [|exact Hok].
  cbn [client_rooms rooms set_manager manager].
  destruct (PyDict.get (client_rooms srv) (h_sock h)) as [room_id|]; [|exact Hok].
  destruct (nonempty room_id); [|exact Hok].
  destruct (PyDict.get (rooms srv) room_id) as [r|] eqn:Hr; [|exact Hok].
  destruct (rooms_ok_lookup srv room_id r Hok Hr) as [Hwf Hnd].
  cbn [clients fst snd rooms].
  intros id r' Hin. apply In_set in Hin as [E|Hin]; [|eapply Hok, Hin].
  injection E as _ ->. split; cbn [participants clients].
  - apply del_first_value_wf, Hwf.
  - apply list_remove_first_NoDup, Hnd.
Qed.

Section Reachability.
Context {rt : PyRuntime}.

Lemma handle_chat_rooms (net : Network) (h : TCPHandler) (srv : SaporaServer)
    (payload : bytes) (now : time) :
  rooms (fst (_handle_chat net h srv payload now)) = rooms srv.
Proof.
  unfold _handle_chat, chat_body.
  destruct (prepare_chat h payload now) as [[pkt tv]|e]; [|reflexivity].
  destruct (negb (h_server h)).
  - destruct (_send_to_targets _ _ _ _ _ _ _) as [[m evs] res]. reflexivity.
  - destruct (PyDict.get (rooms srv) (h_meeting_id h)) as [r|].
    + destruct (route_chat net h r tv now) as [targets status|pkt'|e];
        try reflexivity.
      destruct (_send_to_targets _ _ _ _ _ _ _) as [[m evs] res]. reflexivity.
    + destruct (chat_packet_of _); reflexivity.
Qed.

Lemma step_rooms_ok (sys sys' : system) :
  step sys sys' -> rooms_ok (sys_srv sys) -> rooms_ok (sys_srv sys').
Proof.
  intros Hstep Hok. destruct Hstep as [sys net s addr now _ _|sys h reg now _ _
                                       |sys net h payload now _ _|sys net h _ _
                                       |sys m hs _].
  - unfold do_accept, TCPHandler_init.
    destruct (add_client _ _ _ _ _ _) as [m evs]. exact Hok.
  - unfold do_register.
    pose proof (handle_register_rooms_ok h (sys_srv sys) reg now Hok) as H.
    destruct (_handle_register h (sys_srv sys) reg now) as [[h' srv] evs]. exact H.
  - unfold do_chat, rooms_ok. cbn [sys_srv]. rewrite handle_chat_rooms. exact Hok.
  - unfold do_cleanup.
    pose proof (cleanup_rooms_ok net h (sys_srv sys) Hok) as H.
    destruct (_cleanup net h (sys_srv sys)) as [[[h' srv] evs] returned]. exact H.
  - exact Hok.
Qed.

Lemma reachable_rooms_ok (sys : system) :
  reachable sys -> rooms_ok (sys_srv sys).
Proof.
  induction 1 as [|sys sys' _ IH Hstep].
  - intros room_id r [].
  - eapply step_rooms_ok; eauto.
Qed.

(** C6 (as amended). Registration never rejects or alters the asserted name:
    it becomes the handler's name and the key under which the joined room
    binds the registering socket, the socket becomes a client of that room,
    the clients the room had stay, and so does the binding of every other
    exact name. Nothing makes names unique within a room: a name that
    differs only in case is another key, and a second registration under the
    same exact name rebinds the name while the socket that held it stays a
    client. What every reachable state does have is that no socket is listed
    twice among a room's clients. *)
Theorem registration_keeps_asserted_names :
  (forall sys room_id r,
     reachable sys ->
     PyDict.get (rooms (sys_srv sys)) room_id = Some r ->
     NoDup (clients r)) /\
  (forall h srv u meeting_id now,
     h_server h = true ->
     let joined :=
       match meeting_id with Some r => r | None => "default"%string end in
     let before :=
       match PyDict.get (rooms srv) joined with
       | Some r => r
       | None => mk_room [] PyDict.empty
       end in
     let '(h', srv', _) :=
       _handle_register h srv (RegData (Some u) meeting_id) now in
     h_username h' = u /\ h_meeting_id h' = joined /\
     exists r,
       PyDict.get (rooms srv') joined = Some r /\
       PyDict.get (participants r) u = Some (h_sock h) /\
       In (h_sock h) (clients r) /\
       (forall s, In s (clients before) -> In s (clients r)) /\
       (forall n s, n <> u ->
          PyDict.get (participants before) n = Some s ->
          PyDict.get (participants r) n = Some s)).
Proof.
  split.
  - intros sys room_id r Hreach Hget.
    exact (proj2 (rooms_ok_lookup _ _ _ (reachable_rooms_ok sys Hreach) Hget)).
  - intros h srv u meeting_id now Hsrv joined before. unfold _handle_register.
    cbv zeta. cbn [h_sock h_server]. fold joined.
    destruct (update_client_status (manager srv) (h_sock h) (Some u) None now)
      as [[m1 ev1] b].
    destruct (set_client_room m1 (h_sock h) joined) as [m2 ev2].
    rewrite Hsrv. cbn [h_username h_meeting_id rooms set_manager].
    split; [reflexivity|]. split; [reflexivity|].
    eexists. split; [apply get_set_same|]. fold before.
    cbn [participants clients]. split; [apply get_set_same|].
    split; [apply add_room_client_In|]. split.
    + intros s Hin. unfold add_room_client.
      destruct (existsb (eqb_of (h_sock h)) (clients before)); [exact Hin|].
      apply in_or_app. now left.
    + intros n s Hne Hn. rewrite get_set_other by congruence. exact Hn.
Qed.

End Reachability.

(** C6 as stated fails: two connections register as "Alice" and as "alice"
    into room "team"; the state is reachable and the room holds both names,
    bound to different sockets, although the names are equal once folded. *)
Lemma alice_and_alice_are_two_participants :
  @reachable example_runtime alice_alice_registered /\
  (exists r,
     PyDict.get (rooms (sys_srv alice_alice_registered)) "team"%string = Some r /\
     participants r = [("Alice"%string, 1%nat); ("alice"%string, 2%nat)] /\
     clients r = [1%nat; 2%nat]) /\
  (forall rt : PyRuntime, @lower rt "Alice" = @lower rt "alice") /\
  1%nat <> 2%nat.
Proof.
  split; [|split; [|split]].
  - unfold alice_alice_registered, alice_registered, two_accepted.
    apply reachable_step with (sys := alice_registered).
    + apply reachable_step with (sys := two_accepted).
      * apply reachable_step
          with (sys := do_accept initial_system good_network 1%nat
                          ("10.0.0.1"%string, 50001) 0).
        -- apply reachable_step with (sys := initial_system).
           ++ apply reachable_initial.
           ++ apply step_accept; [reflexivity|]. intros h [].
        -- apply step_accept; [reflexivity|]. intros h [<-|[]]. discriminate.
      * apply step_register; [reflexivity|]. left. reflexivity.
    + apply step_register; [reflexivity|]. right. left. reflexivity.
  - eexists. split; [reflexivity|]. split; reflexivity.
  - intros rt. now rewrite !lower_ascii_text.
  - discriminate.
Qed.

(** ** Stream registrations *)

Lemma stream_ok_empty : stream_ok PyDict.empty.
Proof. split; [constructor|intros ip info []]. Qed.

Lemma stream_ok_set (sc : PyDict.t string stream_info) (ip : string)
    (info : stream_info) :
  stream_ok sc ->
  (forall a, video info = Some a -> fst a = ip) ->
  (forall a, audio info = Some a -> fst a = ip) ->
  stream_ok (PyDict.set sc ip info).
Proof.
  intros [Hwf Hok] Hv Ha. split; [apply wf_set, Hwf|].
  intros ip' info' Hin. apply In_set in Hin as [E|Hin]; [|apply Hok, Hin].
  injection E as -> ->. split; assumption.
Qed.

Lemma stream_ok_del (sc : PyDict.t string stream_info) (ip : string) :
  stream_ok sc -> stream_ok (PyDict.del sc ip).
Proof.
  intros [Hwf Hok]. split; [apply wf_del, Hwf|].
  intros ip' info' Hin. eapply Hok, In_del, Hin.
Qed.

Lemma register_stream_ok (m : ConnectionManager) (st : stream_type)
    (addr : address) (now : time) :
  stream_ok (stream_clients m) ->
  stream_ok (stream_clients (register_stream m st addr now)).
Proof.
  intros Hok. unfold register_stream.
  set (sc := if PyDict.mem (stream_clients m) (fst addr) then stream_clients m
             else PyDict.set (stream_clients m) (fst addr)
                    (mk_stream_info None None now)).
  assert (Hsc : stream_ok sc).
  { subst sc. destruct (PyDict.mem (stream_clients m) (fst addr)); [exact Hok|].
    apply stream_ok_set; [exact Hok| |]; cbn; discriminate. }
  destruct (PyDict.get sc (fst addr)) as [info|] eqn:Hget; [|exact Hsc].
  cbn [stream_clients set_stream].
  destruct Hsc as [Hwf Hfields].
  destruct (Hfields _ _ (get_In _ _ _ Hget)) as [Hv Ha].
  apply stream_ok_set; [split; assumption| |];
    destruct st; cbn; intros a; try (intros [= <-]; reflexivity); auto.
Qed.

Lemma unregister_stream_ok (m : ConnectionManager) (st : stream_type)
    (key : address) (now : time) :
  stream_ok (stream_clients m) ->
  stream_ok (stream_clients (unregister_stream m st key now)).
Proof.
  intros Hok. unfold unregister_stream.
  destruct (negb (nonempty (fst key))); [exact Hok|].
  destruct (PyDict.get (stream_clients m) (fst key)) as [info|] eqn:Hget;
    [|exact Hok].
  cbn [stream_clients set_stream].
  destruct (proj2 Hok _ _ (get_In _ _ _ Hget)) as [Hv Ha].
  apply stream_ok_set; [exact Hok| |];
    destruct st; cbn; intros a; try discriminate; auto.
Qed.

(** Removals only delete stream entries. *)
Lemma remove_each_streams
    (remove : ConnectionManager -> socket
              -> ConnectionManager * list event * (string * address))
    (L : list socket) (m : ConnectionManager) :
  (forall m s,
     stream_ok (stream_clients m) ->
     stream_ok (stream_clients (fst (fst (remove m s)))) /\
    forall x, In x (stream_clients (fst (fst (remove m s)))) ->
               In x (stream_clients m)) ->
  stream_ok (stream_clients m) ->
  stream_ok (stream_clients (fst (remove_each remove m L))) /\
    forall x, In x (stream_clients (fst (remove_each remove m L))) ->
            In x (stream_clients m).
Proof.
  intros Hrem. revert m. induction L as [|s rest IH]; intros m Hok;
    cbn [remove_each]; [cbn [fst]; auto|].
  destruct (Hrem m s Hok) as [Hok1 Hin1].
  destruct (remove m s) as [[m1 ev1] ret]. cbn [fst] in *.
  destruct (IH m1 Hok1) as [Hok2 Hin2].
  destruct (remove_each remove m1 rest) as [m2 ev2]. cbn [fst] in *. auto.
Qed.

Lemma remove_client_rec_streams (net : Network) (fuel : nat)
    (m : ConnectionManager) (s : socket) :
  stream_ok (stream_clients m) ->
  stream_ok (stream_clients (fst (fst (remove_client_rec fuel net m s)))) /\
  forall x, In x (stream_clients (fst (fst (remove_client_rec fuel net m s)))) ->
            In x (stream_clients m).
Proof.
  assert (Hdel : forall (sc : PyDict.t string stream_info) ip,
            stream_ok sc ->
            stream_ok (if PyDict.mem sc ip then PyDict.del sc ip else sc) /\
            forall x, In x (if PyDict.mem sc ip then PyDict.del sc ip else sc) ->
                      In x sc).
  { intros sc ip Hok. destruct (PyDict.mem sc ip); split; auto using stream_ok_del.
    intros x Hx. eapply In_del, Hx. }
  revert m s. induction fuel as [|fuel IH]; intros m s Hok;
    rewrite remove_client_rec_eq.
  - destruct (PyDict.get (control_clients m) s) as [info|]; cbv zeta;
      [destruct (negb (eqb_of (info_username info) "Unknown"%string))|];
      cbn [fst stream_clients]; apply Hdel, Hok.
  - destruct (PyDict.get (control_clients m) s) as [info|]; cbv zeta;
      [destruct (negb (eqb_of (info_username info) "Unknown"%string))|];
      cbn [fst stream_clients]; try (apply Hdel, Hok).
    unfold broadcast_user_list_with.
    set (m1 := mk_manager _ _ (server_ref m)).
    destruct (Hdel (stream_clients m) (fst (info_addr info)) Hok) as [Hok1 Hin1].
    destruct (remove_each_streams (remove_client_rec fuel net)
                (filter (fun c => negb (send_ok net c))
                   (PyDict.keys (control_clients m1))) m1 IH Hok1) as [Hok2 Hin2].
    auto.
Qed.

Lemma remove_client_stream_ok (net : Network) (m : ConnectionManager) (s : socket) :
  stream_ok (stream_clients m) ->
  stream_ok (stream_clients (fst (fst (remove_client net m s)))).
Proof. intros Hok. apply remove_client_rec_streams, Hok. Qed.

Lemma unregister_stream_control (m : ConnectionManager) (st : stream_type)
    (key : address) (now : time) :
  control_clients (unregister_stream m st key now) = control_clients m.
Proof.
  unfold unregister_stream. destruct (negb (nonempty (fst key))); [reflexivity|].
  destruct (PyDict.get (stream_clients m) (fst key)); reflexivity.
Qed.

Lemma collect_listeners_In (m : ConnectionManager)
    (sel : stream_info -> option address) (room_id : option string)
    (items : list (string * stream_info)) (a : address) :
  In a (collect_listeners m sel room_id items) ->
  exists ip info, In (ip, info) items /\ sel info = Some a.
Proof.
  induction items as [|[ip info] rest IH]; cbn; [tauto|].
  destruct (sel info) as [a0|] eqn:Hsel.
  - destruct (match room_id with None => true | Some r => _ip_in_room m ip r end).
    + intros [<-|Hin]; [exists ip, info; auto|].
      destruct (IH Hin) as (ip' & info' & Hin' & Hs). exists ip', info'. auto.
    + intros Hin. destruct (IH Hin) as (ip' & info' & Hin' & Hs).
      exists ip', info'. auto.
  - intros Hin. destruct (IH Hin) as (ip' & info' & Hin' & Hs).
    exists ip', info'. auto.
Qed.

(** The audio listeners of a well-formed registry are pairwise different. *)
Lemma audio_listeners_NoDup (m : ConnectionManager) (room_id : option string) :
  stream_ok (stream_clients m) -> NoDup (get_audio_listeners m room_id).
Proof.
  unfold get_audio_listeners, PyDict.items, stream_ok, PyDict.wf.
  generalize (stream_clients m). intros sc.
  induction sc as [|[ip info] rest IH]; intros [Hwf Hok]; cbn; [constructor|].
  cbn in Hwf. inversion Hwf as [|? ? Hnin Hnd]; subst.
  assert (Hrest : NoDup (collect_listeners m audio room_id rest)).
  { apply IH. split; [exact Hnd|]. intros ip' info' Hin. apply Hok. now right. }
  destruct (audio info) as [a|] eqn:Ha; [|exact Hrest].
  destruct (match room_id with None => true | Some r => _ip_in_room m ip r end);
    [|exact Hrest].
  constructor; [|exact Hrest]. intros Hin.
  apply collect_listeners_In in Hin as (ip' & info' & Hin' & Ha').
  assert (fst a = ip) by (apply (Hok ip info); [now left|exact Ha]).
  assert (fst a = ip') by (apply (Hok ip' info'); [now right|exact Ha']).
  apply Hnin. unfold PyDict.keys. apply in_map_iff. exists (ip', info').
  split; [cbn; congruence|exact Hin'].
Qed.

(** ** Audio mixer *)

Lemma get_room_by_ip_control (m m' : ConnectionManager) (ip : string) :
  control_clients m = control_clients m' ->
  get_room_by_ip m ip = get_room_by_ip m' ip.
Proof. unfold get_room_by_ip. now intros ->. Qed.

Lemma sources_for_mix_control (m m' : ConnectionManager) (target : address)
    (target_room : string) (chunks : list (address * bytes)) :
  control_clients m = control_clients m' ->
  sources_for_mix m target target_room chunks
  = sources_for_mix m' target target_room chunks.
Proof.
  intros Hc. induction chunks as [|[addr chunk] rest IH]; cbn; [reflexivity|].
  rewrite (get_room_by_ip_control m m' _ Hc), IH. reflexivity.
Qed.

(** The loop that selects the sources computes [mix_inputs]. *)
Lemma sources_for_mix_inputs (m : ConnectionManager) (L : address)
    (chunks : list (address * bytes)) :
  sources_for_mix m L (get_room_by_ip m (fst L)) chunks
  = map snd (mix_inputs m L chunks).
Proof.
  unfold mix_inputs. induction chunks as [|[addr chunk] rest IH]; cbn;
    [reflexivity|].
  destruct (eqb_of addr L); cbn; [exact IH|].
  destruct (eqb_of (get_room_by_ip m (fst addr)) (get_room_by_ip m (fst L))); cbn;
    [f_equal|]; exact IH.
Qed.

Section AudioMixer.
Context {rt : PyRuntime}.
Variable net : Network.

Lemma sent_to_le_count (L : address) (evs : list event) (targets : list address) :
  (forall a, (List.length (sent_to a evs) <= count_occ eq_dec targets a)%nat) ->
  NoDup targets -> (List.length (sent_to L evs) <= 1)%nat.
Proof.
  intros Hle Hnd. specialize (Hle L).
  pose proof (proj1 (NoDup_count_occ eq_dec targets) Hnd L). lia.
Qed.

Lemma mix_fanout_log (m0 : ConnectionManager) (chunks : list (address * bytes))
    (now : time) (targets : list address) (m : ConnectionManager) :
  control_clients m = control_clients m0 ->
  let '(m', evs, res) := mix_fanout net m chunks targets now in
  control_clients m' = control_clients m0 /\
  (forall a, (List.length (sent_to a evs) <= count_occ eq_dec targets a)%nat) /\
  (forall L packet ok, In (EvSendto L packet ok) evs ->
     In L targets /\ ok = sendto_ok net L /\
     exists mixed,
       mix_audio_chunks (map snd (mix_inputs m0 L chunks)) = Some mixed /\
       pack_message STREAM_AUDIO mixed = Ok packet) /\
  (forall e, In e evs -> exists L packet ok, e = EvSendto L packet ok).
Proof.
  revert m. induction targets as [|target rest IH]; intros m Hc.
  - cbn. repeat split; auto; try (intros; contradiction); intros; cbn; lia.
  - cbn [mix_fanout].
    assert (Hskip :
      let '(m', evs, res) := mix_fanout net m chunks rest now in
      control_clients m' = control_clients m0 /\
      (forall a, (List.length (sent_to a evs)
                  <= count_occ eq_dec (target :: rest) a)%nat) /\
      (forall L packet ok, In (EvSendto L packet ok) evs ->
         In L (target :: rest) /\ ok = sendto_ok net L /\
         exists mixed,
           mix_audio_chunks (map snd (mix_inputs m0 L chunks)) = Some mixed /\
           pack_message STREAM_AUDIO mixed = Ok packet) /\
      (forall e, In e evs -> exists L packet ok, e = EvSendto L packet ok)).
    { specialize (IH m Hc).
      destruct (mix_fanout net m chunks rest now) as [[m' evs] res].
      destruct IH as (H1 & H2 & H3 & H4).
      split; [exact H1|]. split; [|split; [|exact H4]].
      - intros a. specialize (H2 a). cbn [count_occ].
        destruct (eq_dec target a); lia.
      - intros L pk ok' Hin. destruct (H3 _ _ _ Hin) as (Ha & Hb & Hm).
        split; [now right|]. auto. }
    rewrite (get_room_by_ip_control m m0 _ Hc).
    rewrite (sources_for_mix_control m m0 _ _ _ Hc).
    rewrite sources_for_mix_inputs.
    destruct (map snd (mix_inputs m0 target chunks)) as [|c cs] eqn:Hsrc;
      [exact Hskip|].
    destruct (mix_audio_chunks (c :: cs)) as [mixed|] eqn:Hmix; [|exact Hskip].
    destruct mixed as [|b mixed]; [exact Hskip|].
    destruct (pack_message STREAM_AUDIO (b :: mixed)) as [packet|e] eqn:Hpack.
    + set (m1 := if sendto_ok net target then m
                 else unregister_stream m Audio target now).
      assert (Hc1 : control_clients m1 = control_clients m0).
      { subst m1. destruct (sendto_ok net target); [exact Hc|].
        rewrite unregister_stream_control. exact Hc. }
      specialize (IH m1 Hc1).
      destruct (mix_fanout net m1 chunks rest now) as [[m' evs] res].
      destruct IH as (H1 & H2 & H3 & H4).
      split; [exact H1|]. split; [|split].
      * intros a. specialize (H2 a). unfold sent_to in *.
        cbn [filter count_occ].
        destruct (eq_dec target a) as [E|E];
          [rewrite (proj2 (eqb_of_true _ _) E)
          |rewrite (proj2 (eqb_of_false _ _) E)]; cbn [List.length]; lia.
      * intros L pk ok' [E|Hin].
        -- injection E as <- <- <-. split; [now left|]. split; [reflexivity|].
           rewrite Hsrc. eauto.
        -- destruct (H3 _ _ _ Hin) as (Ha & Hb & Hm). split; [now right|]. auto.
      * intros e [<-|Hin]; eauto.
    + repeat split; auto; try (intros; contradiction); intros; cbn; lia.
Qed.

(** C1 (as amended). In one mixer tick every audio listener is sent at most
    one packet. A packet sent to listener L is the mix of the popped chunks
    whose source address differs from L's address and whose source IP is in
    the room of L's IP: L's own chunk is left out by comparing the full
    (ip, port) address. *)
Theorem mixer_tick_per_listener (a : UDPAudioServer) (m : ConnectionManager)
    (now : time) :
  stream_ok (stream_clients m) ->
  let chunks_to_mix := snd (pop_chunks (PyDict.items (audio_buffers a))) in
  let evs := snd (fst (mixer_tick net a m now)) in
  (forall L, (List.length (sent_to L evs) <= 1)%nat) /\
  (forall L packet ok, In (EvSendto L packet ok) evs ->
     In L (get_audio_listeners m None) /\
     exists mixed,
       mix_audio_chunks (map snd (mix_inputs m L chunks_to_mix)) = Some mixed /\
       pack_message STREAM_AUDIO mixed = Ok packet) /\
  (forall L addr chunk, In (addr, chunk) (mix_inputs m L chunks_to_mix) ->
     In (addr, chunk) chunks_to_mix /\ addr <> L /\
     get_room_by_ip m (fst addr) = get_room_by_ip m (fst L)).
Proof.
  intros Hok chunks_to_mix evs.
  assert (Hevs :
    (forall a0, (List.length (sent_to a0 evs)
                 <= count_occ eq_dec (get_audio_listeners m None) a0)%nat) /\
    (forall L packet ok, In (EvSendto L packet ok) evs ->
       In L (get_audio_listeners m None) /\ ok = sendto_ok net L /\
       exists mixed,
         mix_audio_chunks (map snd (mix_inputs m L chunks_to_mix)) = Some mixed /\
         pack_message STREAM_AUDIO mixed = Ok packet)).
  { subst evs chunks_to_mix. unfold mixer_tick.
    destruct (pop_chunks (PyDict.items (audio_buffers a))) as [buffers chunks].
    cbn [snd]. destruct chunks as [|c chunks].
    - destruct (_cleanup_stale_clients _ m now) as [a' m']. cbn.
      split; [intros; lia|intros; contradiction].
    - pose proof (mix_fanout_log m (c :: chunks) now (get_audio_listeners m None)
                    m eq_refl) as Hlog.
      destruct (mix_fanout net m (c :: chunks) (get_audio_listeners m None) now)
        as [[m' evs'] res].
      destruct Hlog as (_ & H2 & H3 & _).
      destruct res as [u|e].
      + destruct (_cleanup_stale_clients _ m' now) as [a' m'']. cbn [fst snd].
        split; [exact H2|exact H3].
      + cbn [fst snd]. split; [exact H2|exact H3]. }
  destruct Hevs as [Hcount Hsend]. split; [|split].
  - intros L. eapply sent_to_le_count; [exact Hcount|].
    apply audio_listeners_NoDup, Hok.
  - intros L packet ok Hin. destruct (Hsend L packet ok Hin) as (H1 & _ & H3). auto.
  - intros L addr chunk Hin. unfold mix_inputs in Hin.
    apply filter_In in Hin as [Hin Hcond]. cbn [fst] in Hcond.
    apply andb_true_iff in Hcond as [Hne Hroom].
    apply negb_true_iff, eqb_of_false in Hne. apply eqb_of_true in Hroom. auto.
Qed.

End AudioMixer.

Lemma same_host_audio_stream_ok :
  stream_ok (stream_clients (snd same_host_audio)).
Proof.
  change (stream_clients (snd same_host_audio))
    with (stream_clients
            (register_stream
               (register_stream (manager meeting_server) Audio
                  ("10.0.0.1"%string, 6001) 10)
               Audio ("10.0.0.1"%string, 6002) 11)).
  apply register_stream_ok, register_stream_ok, stream_ok_empty.
Qed.

Lemma mixer_tick_per_listener_witness :
  stream_ok (stream_clients (snd same_host_audio)) /\
  forall L,
    (List.length
       (sent_to L (snd (fst (@mixer_tick example_runtime good_network
                               (fst same_host_audio) (snd same_host_audio)
                               12%Z))))
     <= 1)%nat.
Proof.
  split; [exact same_host_audio_stream_ok|].
  exact (proj1 (@mixer_tick_per_listener example_runtime good_network
                  (fst same_host_audio) (snd same_host_audio) 12
                  same_host_audio_stream_ok)).
Defined.

(** C1 as stated fails: the chunk popped for source 10.0.0.1:6001 has the IP of
    listener 10.0.0.1:6002, is among the inputs of that listener's mix, and
    the packet sent to the listener is made of it. *)
Lemma same_ip_chunk_is_mixed_in :
  let a := fst same_host_audio in
  let m := snd same_host_audio in
  let L := ("10.0.0.1"%string, 6002) in
  let src := ("10.0.0.1"%string, 6001) in
  let popped := snd (pop_chunks (PyDict.items (audio_buffers a))) in
  get_audio_listeners m None = [L] /\
  popped = [(src, chunk_a); (L, chunk_b)] /\
  fst src = fst L /\
  mix_inputs m L popped = [(src, chunk_a)] /\
  snd (fst (@mixer_tick example_runtime good_network a m 12))
  = [EvSendto L (audio_datagram chunk_a) true].
Proof.
  cbv zeta. split; [vm_compute; reflexivity|].
  split; [vm_compute; reflexivity|]. split; [reflexivity|].
  split; vm_compute; reflexivity.
Qed.

(** ** File server *)

Section FileServer.
Context {rt : PyRuntime}.

(** A request whose resolved path fails the prefix test is refused before
    any storage operation. *)
Lemma rejected_path_untouched (net : Network) (host : Host) (fh : FileHandler)
    (srv : SaporaServer) (fs : filesystem) (payload : bytes)
    (incoming : list recv) (now : time) (filename : string) (filesize : Z)
    (checksum target : json) :
  upload_request payload filename filesize checksum target ->
  path_check (fh_cwd fh) (resolve_in_storage (fh_cwd fh) filename) = false ->
  let '(fs', evs, _) :=
    _handle_upload_request net host fh srv fs payload incoming now in
  fs' = fs /\ storage_ops evs = [] /\ notices evs = [] /\
  exists reason, evs = safe_reply FILE_ACK_FAILURE (encode reason).
Proof.
  intros (metadata & Hun & Hf & Hs & Hc & Ht) Hcheck.
  unfold _handle_upload_request. rewrite Hun. cbn [bind]. rewrite Hs. cbn [bind].
  rewrite Hf.
  assert (Hquiet : forall reason,
            storage_ops (safe_reply FILE_ACK_FAILURE (encode reason)) = [] /\
            notices (safe_reply FILE_ACK_FAILURE (encode reason)) = []).
  { intros reason. unfold safe_reply.
    destruct (pack_message _ _); split; reflexivity. }
  destruct (negb (json_truthy (JStr filename)) || (filesize <=? 0)).
  { split; [reflexivity|]. split; [apply Hquiet|]. split; [apply Hquiet|]. eauto. }
  destruct (filesize >? MAX_FILE_SIZE).
  { split; [reflexivity|]. split; [apply Hquiet|]. split; [apply Hquiet|]. eauto. }
  rewrite Hcheck. cbn [negb].
  split; [reflexivity|]. split; [apply Hquiet|]. split; [apply Hquiet|]. eauto.
Qed.

Lemma rejected_download_untouched (fh : FileHandler) (fs : filesystem)
    (payload : bytes) :
  path_check (fh_cwd fh) (resolve_in_storage (fh_cwd fh) (decode payload)) = false ->
  _handle_download_request fh fs payload
  = safe_reply FILE_ACK_FAILURE (encode "Invalid filename").
Proof. intros Hcheck. unfold _handle_download_request. now rewrite Hcheck. Qed.










End FileServer.



(** C2 (the code departs from the claim). The server runs in /srv, so its
    storage root is /srv/sapora_files. The filename "../sapora_files.bak"
    resolves to /srv/sapora_files.bak, which is outside the storage root, but
    its text starts with the text of the root, so the prefix test of both
    handlers lets it through: on a host that lets the file be opened, the
    upload creates and writes that file and is answered with
    FILE_ACK_SUCCESS, and the download reads it and sends it. *)
Theorem traversal_reaches_sibling_path :
  let cwd := fh_cwd storage_handler in
  let file_path := resolve_in_storage cwd "../sapora_files.bak" in
  let p := "/srv/sapora_files.bak"%string in
  storage_root cwd = ["srv"%string; "sapora_files"%string] /\
  file_path = ["srv"%string; "sapora_files.bak"%string] /\
  path_str file_path = p /\
  is_under (storage_root cwd) file_path = false /\
  path_check cwd file_path = true /\
  (let '(fs', evs, _) :=
     @_handle_upload_request example_runtime good_network plain_host
       storage_handler meeting_server PyDict.empty sibling_upload
       [RecvRaw (file_chunk_message (encode "abc"))] 5 in
   PyDict.get fs' p = Some (encode "abc") /\
   storage_ops evs = [FsOpenWrite p; FsWrite p (encode "abc")] /\
   map reply_type (replies evs) = [Some FILE_ACK_SUCCESS]) /\
  (let evs :=
     @_handle_download_request example_runtime storage_handler
       [(p, encode "secret")] (encode "../sapora_files.bak") in
   storage_ops evs = [FsExists p; FsStat p; FsRead p; FsOpenRead p] /\
   map reply_type (replies evs) = [Some FILE_METADATA; Some FILE_CHUNK] /\
   In (FReply (file_chunk_message (encode "secret"))) evs).
Proof.
  cbv zeta. repeat split; try (vm_compute; reflexivity).
  vm_compute. do 5 right. left. reflexivity.
Qed.

(** ** Sender of the availability notice *)

Lemma first_known_username_spec (infos : list client_info) (ip : string) :
  match first_known_username infos ip with
  | Some u =>
      exists info, In info infos /\ fst (info_addr info) = ip /\
                   info_username info = u /\ u <> "Unknown"%string
  | None =>
      forall info, In info infos -> fst (info_addr info) = ip ->
                   info_username info = "Unknown"%string
  end.
Proof.
  induction infos as [|info rest IH]; cbn; [intros info []|].
  destruct (eqb_of (fst (info_addr info)) ip) eqn:Eip; cbn [andb].
  - destruct (eqb_of (info_username info) "Unknown"%string) eqn:Eu; cbn [negb].
    + destruct (first_known_username rest ip) as [u|].
      * destruct IH as (i & Hin & H1 & H2 & H3). exists i. auto.
      * intros i [<-|Hin] Hip; [now apply eqb_of_true in Eu|auto].
    + exists info. apply eqb_of_true in Eip. apply eqb_of_false in Eu. auto.
  - destruct (first_known_username rest ip) as [u|].
    + destruct IH as (i & Hin & H1 & H2 & H3). exists i. auto.
    + intros i [<-|Hin] Hip; [apply eqb_of_false in Eip; contradiction|auto].
Qed.

(** C10. [get_client_username_by_ip] returns a stored username only when it
    belongs to a member at that IP and is not "Unknown"; when every member at
    that IP is still "Unknown" (or there is none) it returns the IP string.
    Every packet [_notify_file_availability] writes is a chat packet that
    carries the notification whose sender field is that result, so the
    sender can be a raw IP address: for an upload from a connection that has
    not registered, the notice that Alice is sent names "10.0.0.9" as its
    sender. *)
Theorem file_announce_sender :
  (forall (m : ConnectionManager) (ip : string),
     let u := get_client_username_by_ip m ip in
     (exists info,
        In info (PyDict.values (control_clients m)) /\
        fst (info_addr info) = ip /\ info_username info = u /\
        u <> "Unknown"%string) \/
     ((forall info,
         In info (PyDict.values (control_clients m)) ->
         fst (info_addr info) = ip -> info_username info = "Unknown"%string) /\
      u = ip)) /\
  (forall (rt : PyRuntime) net fh srv filename filesize target_users now e,
     In e (@_notify_file_availability rt net fh srv filename filesize
             target_users now) ->
     let notification :=
       file_notification (manager srv) fh filename filesize target_users now in
     exists sock packet,
       e = EvSendall sock packet (send_ok net sock) /\
       pack_message MSG_CHAT (encode (@json_dumps rt notification)) = Ok packet /\
       obj_get notification "type" JNull = JStr "file_announce" /\
       obj_get notification "sender" JNull
       = JStr (get_client_username_by_ip (manager srv) (fh_ip fh))) /\
  (let notification :=
     file_notification (manager lobby_server) guest_file_handler "report.pdf" 6
       [JStr "all"] 5 in
   get_client_username_by_ip (manager lobby_server) "10.0.0.9" = "10.0.0.9"%string /\
   obj_get notification "sender" JNull = JStr "10.0.0.9" /\
   exists packet,
     pack_message MSG_CHAT (encode (@json_dumps example_runtime notification))
     = Ok packet /\
     @_notify_file_availability example_runtime good_network guest_file_handler
       lobby_server "report.pdf" 6 [JStr "all"] 5
     = [EvSendall 1%nat packet true]).
Proof.
  split; [|split].
  - intros m ip u. subst u. unfold get_client_username_by_ip.
    pose proof (first_known_username_spec (PyDict.values (control_clients m)) ip)
      as Hspec.
    destruct (first_known_username (PyDict.values (control_clients m)) ip) as [u|].
    + left. exact Hspec.
    + right. split; [exact Hspec|reflexivity].
  - intros rt net fh srv filename filesize target_users now e.
    unfold _notify_file_availability. cbv zeta.
    destruct (server_ref (manager srv)); [|intros []].
    unfold _broadcast_file_notification. cbv zeta.
    destruct (negb (nonempty (get_room_by_ip (manager srv) (fh_ip fh))));
      [intros []|].
    destruct (PyDict.get (rooms srv) (get_room_by_ip (manager srv) (fh_ip fh)))
      as [r|]; [|intros []].
    destruct (pack_message MSG_CHAT _) as [packet|err] eqn:Hpack; [|intros []].
    intros Hin. apply in_map_iff in Hin as (sock & <- & _).
    exists sock, packet. repeat split.
  - cbv zeta. split; [vm_compute; reflexivity|]. split; [vm_compute; reflexivity|].
    destruct (pack_message MSG_CHAT
                (encode (@json_dumps example_runtime
                           (file_notification (manager lobby_server)
                              guest_file_handler "report.pdf" 6 [JStr "all"] 5))))
      as [packet|err] eqn:Hpack; [|vm_compute in Hpack; discriminate].
    exists packet. split; [reflexivity|].
    vm_compute in Hpack. injection Hpack as <-. vm_compute. reflexivity.
Qed.

Lemma registration_keeps_asserted_names_witness :
  @reachable example_runtime alice_alice_registered /\
  (forall r,
     PyDict.get (rooms (sys_srv alice_alice_registered)) "team"%string = Some r ->
     NoDup (clients r)) /\
  h_server first_handler = true /\
  h_username
    (fst (fst (_handle_register first_handler (sys_srv two_accepted)
                 (RegData (Some "Alice"%string) (Some "team"%string)) 1)))
  = "Alice"%string /\
  @reachable example_runtime alice_twice_registered /\
  (exists r,
     PyDict.get (rooms (sys_srv alice_twice_registered)) "team"%string = Some r /\
     participants r = [("Alice"%string, 2%nat)] /\
     clients r = [1%nat; 2%nat]).
Proof.
  assert (Hstep : forall sys, @reachable example_runtime sys ->
            forall h reg now, In h (sys_handlers sys) ->
              sys_rooms_locked sys = false ->
              @reachable example_runtime (do_register sys h reg now)).
  { intros sys Hsys h reg now Hin Hfree.
    eapply reachable_step; [exact Hsys|]. apply step_register; assumption. }
  assert (Hfirst : @reachable example_runtime alice_registered).
  { unfold alice_registered, two_accepted. apply Hstep; [|now left|reflexivity].
    repeat (eapply reachable_step;
            [|apply step_accept; [reflexivity|]; cbn; intros h Hin;
              repeat (destruct Hin as [<-|Hin]; [discriminate|]);
              destruct Hin]).
    apply reachable_initial. }
  assert (Hreach : @reachable example_runtime alice_alice_registered).
  { unfold alice_alice_registered. apply Hstep; [exact Hfirst| |reflexivity].
    right. now left. }
  assert (Htwice : @reachable example_runtime alice_twice_registered).
  { unfold alice_twice_registered. apply Hstep; [exact Hfirst| |reflexivity].
    right. now left. }
  destruct (@registration_keeps_asserted_names example_runtime) as [Hinv Hreg].
  split; [exact Hreach|]. split; [|split; [reflexivity|split; [|split]]].
  - intros r Hget. exact (Hinv alice_alice_registered "team"%string r Hreach Hget).
  - pose proof (Hreg first_handler (sys_srv two_accepted) "Alice"%string
                  (Some "team"%string) 1 eq_refl) as H.
    cbv zeta in H.
    destruct (_handle_register first_handler (sys_srv two_accepted)
                (RegData (Some "Alice"%string) (Some "team"%string)) 1)
      as [[h' srv'] evs].
    exact (proj1 H).
  - exact Htwice.
  - eexists. split; [reflexivity|]. split; reflexivity.
Defined.

(** * Properties of the further parts *)

(** ** Wire codec: what a parsed packet guarantees *)

Lemma from_be_cons_bound (b3 b2 b1 b0 : byte) :
  0 <= Struct.from_be [b3; b2; b1; b0] < 4294967296.
Proof.
  unfold Struct.from_be, Struct.byte_val. cbn [fold_left].
  pose proof (Byte.to_N_bounded b3). pose proof (Byte.to_N_bounded b2).
  pose proof (Byte.to_N_bounded b1). pose proof (Byte.to_N_bounded b0). lia.
Qed.

Lemma byte_val_bound (b : byte) : 0 <= Struct.byte_val b < 256.
Proof. unfold Struct.byte_val. pose proof (Byte.to_N_bounded b). lia. Qed.

(** X1. A packet that [unpack_message] accepts is ten header bytes followed
    by the payload that is returned. The returned version is the value of the
    first byte and is the protocol version, the returned type is the value of
    the second byte, the returned length is the big-endian 32-bit field at
    offset 2 and is the length of the payload, and the returned sequence
    number is the big-endian 16-bit field at offset 6; the last two header
    bytes are not looked at. A short packet, a wrong version or a payload of
    another length is refused. *)
Theorem unpack_message_accepts (data : bytes) (version msg_type len seq : Z)
    (payload : bytes) :
  unpack_message data = Ok (version, msg_type, len, seq, payload) ->
  version = PROTOCOL_VERSION /\ 0 <= msg_type < 256 /\
  len = blen payload /\ 0 <= seq < 65536 /\
  blen data = HEADER_SIZE + len /\
  data = firstn 10 data ++ payload /\
  exists v t l3 l2 l1 l0 s1 s0 r1 r0,
    data = [v; t; l3; l2; l1; l0; s1; s0; r1; r0] ++ payload /\
    version = Struct.byte_val v /\
    msg_type = Struct.byte_val t /\
    len = Struct.from_be [l3; l2; l1; l0] /\
    seq = Struct.from_be [s1; s0].
Proof.
  unfold unpack_message. destruct (blen data <? HEADER_SIZE) eqn:Hshort;
    [discriminate|].
  change (Z.to_nat HEADER_SIZE) with 10%nat.
  destruct (Struct.unpack_BBIHH (firstn 10 data))
    as [[[[[v t] l] sq] r]|e] eqn:Hun; [|discriminate].
  destruct (blen (skipn 10 data) =? l) eqn:Hl; cbn [negb]; [|discriminate].
  destruct (v =? PROTOCOL_VERSION) eqn:Hv; cbn [negb]; [|discriminate].
  intros [= <- <- <- <- <-].
  apply Z.eqb_eq in Hl, Hv. apply Z.ltb_ge in Hshort.
  unfold Struct.unpack_BBIHH in Hun.
  destruct (firstn 10 data) as [|b0 [|b1 [|b2 [|b3 [|b4 [|b5 [|b6 [|b7 [|b8 [|b9 [|]]]]]]]]]]]
    eqn:Hhead; try discriminate.
  injection Hun as <- <- <- <- <-.
  split; [exact Hv|]. split; [apply byte_val_bound|].
  split; [symmetry; exact Hl|]. split.
  { unfold Struct.from_be, Struct.byte_val. cbn [fold_left].
    pose proof (Byte.to_N_bounded b6). pose proof (Byte.to_N_bounded b7). lia. }
  split; [|split].
  - rewrite <- Hl. unfold blen, HEADER_SIZE in *. rewrite length_skipn. lia.
  - rewrite <- Hhead. symmetry. apply firstn_skipn.
  - exists b0, b1, b2, b3, b4, b5, b6, b7, b8, b9.
    split; [|repeat split].
    rewrite <- Hhead. symmetry. apply firstn_skipn.
Qed.

Lemma unpack_message_accepts_witness :
  exists data,
    unpack_message data = Ok (PROTOCOL_VERSION, MSG_CHAT, 5, 0, encode "hello") /\
    blen data = HEADER_SIZE + 5.
Proof.
  destruct (pack_message MSG_CHAT (encode "hello")) as [data|e] eqn:Hp;
    [|vm_compute in Hp; discriminate].
  assert (Hu : unpack_message data
               = Ok (PROTOCOL_VERSION, MSG_CHAT, 5, 0, encode "hello"))
    by (vm_compute in Hp; injection Hp as <-; vm_compute; reflexivity).
  exists data. split; [exact Hu|].
  exact (proj1 (proj2 (proj2 (proj2 (proj2
           (unpack_message_accepts data _ _ _ _ _ Hu)))))).
Defined.

Lemma pack_message_Ok (msg_type : Z) (payload : bytes) (packet : bytes) :
  pack_message msg_type payload = Ok packet ->
  0 <= msg_type < 256 /\ blen payload <= MAX_MESSAGE_SIZE /\
  exists header,
    Struct.pack_BBIHH PROTOCOL_VERSION msg_type (blen payload) 0 0 = Ok header /\
    packet = header ++ payload.
Proof.
  unfold pack_message. destruct (blen payload >? MAX_MESSAGE_SIZE) eqn:Hbig;
    [discriminate|].
  rewrite Z.gtb_ltb in Hbig. apply Z.ltb_ge in Hbig.
  destruct (Struct.pack_BBIHH PROTOCOL_VERSION msg_type (blen payload) 0 0)
    as [header|e] eqn:Hh; cbn [bind]; [|discriminate].
  intros [= <-]. split; [|split; [exact Hbig|eauto]].
  unfold Struct.pack_BBIHH, Struct.in_range in Hh.
  destruct ((0 <=? msg_type) && (msg_type <? 256)) eqn:Ht.
  - apply andb_true_iff in Ht as [H1 H2].
    apply Z.leb_le in H1. apply Z.ltb_lt in H2. lia.
  - rewrite andb_false_r in Hh. cbn in Hh. discriminate.
Qed.

(** The round trip, from the parts of the codec. *)
Lemma pack_then_unpack (msg_type : Z) (payload packet : bytes) :
  pack_message msg_type payload = Ok packet ->
  unpack_message packet
  = Ok (PROTOCOL_VERSION, msg_type, blen payload, 0, payload).
Proof.
  intros Hp. destruct (pack_message_Ok _ _ _ Hp) as (Ht & Hsz & header & Hh & ->).
  assert (Hl : 0 <= blen payload < 4294967296)
    by (unfold blen, MAX_MESSAGE_SIZE in *; lia).
  destruct (pack_BBIHH_unpack PROTOCOL_VERSION msg_type (blen payload) 0 0)
    as (header' & Hh' & Hlen & Hun); try (unfold PROTOCOL_VERSION; lia);
    try assumption.
  rewrite Hh in Hh'. injection Hh' as <-.
  apply unpack_message_header_payload with (r := 0); auto.
Qed.

(** X2. Packing is injective: two packets that are equal were packed from the
    same type and the same payload, so a receiver never confuses two
    messages. In particular a chat packet is never a user-list packet. *)
Theorem pack_message_injective (t1 t2 : Z) (p1 p2 packet : bytes) :
  pack_message t1 p1 = Ok packet ->
  pack_message t2 p2 = Ok packet ->
  t1 = t2 /\ p1 = p2.
Proof.
  intros H1 H2. apply pack_then_unpack in H1, H2.
  rewrite H1 in H2. injection H2 as -> _ ->. auto.
Qed.

Lemma pack_message_injective_witness :
  exists packet,
    pack_message MSG_CHAT (encode "hello") = Ok packet /\
    forall t p, pack_message t p = Ok packet ->
                MSG_CHAT = t /\ encode "hello" = p.
Proof.
  destruct (pack_message MSG_CHAT (encode "hello")) as [packet|e] eqn:Hp;
    [|vm_compute in Hp; discriminate].
  exists packet. split; [reflexivity|].
  intros t p Ht. exact (pack_message_injective _ _ _ _ _ Hp Ht).
Defined.

(** ** Framing on a TCP stream *)

Lemma data_stream_bytes_nil (s : tcp_stream) :
  data_stream s -> stream_bytes s = [] -> s = [].
Proof.
  destruct s as [|[[|b d]| |] rest]; cbn; try tauto. discriminate.
Qed.

(** On a stream of data that holds at least [remaining] more bytes, the loop
    returns exactly the next [remaining] bytes and leaves the others. *)
Lemma recv_loop_takes_prefix (fuel : nat) :
  forall (s : tcp_stream) (remaining : Z) (data : bytes),
    data_stream s ->
    0 <= remaining <= blen (stream_bytes s) ->
    (Z.to_nat remaining <= fuel)%nat ->
    exists s',
      recv_loop fuel s remaining data
      = (s', Ok (Some (data ++ firstn (Z.to_nat remaining) (stream_bytes s)))) /\
      data_stream s' /\
      stream_bytes s' = skipn (Z.to_nat remaining) (stream_bytes s).
Proof.
  induction fuel as [|fuel IH]; intros s remaining data Hs Hrem Hfuel.
  - assert (remaining = 0) by lia. subst. cbn. rewrite app_nil_r. eauto.
  - cbn [recv_loop]. destruct (remaining <=? 0) eqn:Hz.
    + apply Z.leb_le in Hz. assert (remaining = 0) by lia. subst. cbn.
      rewrite app_nil_r. eauto.
    + apply Z.leb_gt in Hz.
      destruct s as [|[[|b d]| |] rest]; cbn in Hs; try contradiction.
      { cbn in Hrem. lia. }
      set (seg := b :: d) in *. cbn [sock_recv stream_bytes] in *.
      assert (Hk : 0 < Z.min remaining BUFFER_SIZE)
        by (unfold BUFFER_SIZE; lia).
      destruct (blen seg <=? Z.min remaining BUFFER_SIZE) eqn:Hfit.
      * apply Z.leb_le in Hfit. subst seg.
        destruct (IH rest (remaining - blen (b :: d)) (data ++ b :: d) Hs)
          as (s' & Hrun & Hs' & Hb').
        { unfold blen in *. rewrite length_app in Hrem. cbn [List.length] in *. lia. }
        { unfold blen in *. cbn [List.length] in *. lia. }
        exists s'. rewrite Hrun. split; [|split; [exact Hs'|]].
        -- f_equal. f_equal. f_equal. rewrite <- app_assoc. f_equal.
           rewrite firstn_app.
           replace (Z.to_nat remaining - List.length (b :: d))%nat
             with (Z.to_nat (remaining - blen (b :: d)))
             by (unfold blen; lia).
           rewrite (@firstn_all2 _ (Z.to_nat remaining) (b :: d))
             by (unfold blen in *; lia).
           reflexivity.
        -- rewrite Hb'. rewrite skipn_app.
           replace (Z.to_nat remaining - List.length (b :: d))%nat
             with (Z.to_nat (remaining - blen (b :: d)))
             by (unfold blen; lia).
           rewrite (@skipn_all2 _ (Z.to_nat remaining) (b :: d))
             by (unfold blen in *; lia).
           reflexivity.
      * apply Z.leb_gt in Hfit. clearbody seg.
        set (k := Z.min remaining BUFFER_SIZE) in *.
        assert (Hlen : (Z.to_nat k < List.length seg)%nat)
          by (unfold blen in Hfit; lia).
        destruct (firstn (Z.to_nat k) seg) as [|c chunk] eqn:Hchunk.
        { apply (f_equal (@List.length byte)) in Hchunk.
          rewrite length_firstn in Hchunk. cbn in Hchunk. lia. }
        assert (Hclen : blen (c :: chunk) = k).
        { rewrite <- Hchunk. unfold blen. rewrite length_firstn. lia. }
        destruct (skipn (Z.to_nat k) seg) as [|c' tail] eqn:Htail.
        { apply (f_equal (@List.length byte)) in Htail.
          rewrite length_skipn in Htail. cbn in Htail. lia. }
        destruct (IH (SegData (c' :: tail) :: rest) (remaining - k)
                    (data ++ c :: chunk)) as (s' & Hrun & Hs' & Hb').
        { exact Hs. }
        { cbn [stream_bytes]. rewrite <- Htail. unfold blen in *.
          rewrite length_app, length_skipn. rewrite length_app in Hrem. lia. }
        { lia. }
        rewrite Hclen. exists s'. rewrite Hrun.
        assert (Hsplit : seg ++ stream_bytes rest
                         = (c :: chunk) ++ stream_bytes (SegData (c' :: tail) :: rest)).
        { cbn [stream_bytes]. rewrite app_assoc, <- Hchunk, <- Htail.
          now rewrite firstn_skipn. }
        assert (Hcl : List.length (c :: chunk) = Z.to_nat k)
          by (unfold blen in Hclen; lia).
        split; [|split; [exact Hs'|]].
        -- f_equal. f_equal. f_equal. rewrite <- app_assoc. f_equal.
           rewrite Hsplit, firstn_app, Hcl.
           replace (Z.to_nat remaining - Z.to_nat k)%nat
             with (Z.to_nat (remaining - k)) by lia.
           rewrite (@firstn_all2 _ (Z.to_nat remaining) (c :: chunk)) by lia.
           reflexivity.
        -- rewrite Hb', Hsplit, skipn_app, Hcl.
           replace (Z.to_nat remaining - Z.to_nat k)%nat
             with (Z.to_nat (remaining - k)) by lia.
           rewrite (@skipn_all2 _ (Z.to_nat remaining) (c :: chunk)) by lia.
           reflexivity.
Qed.

Lemma header_length_field (header payload : bytes) (v t l s r : Z) :
  List.length header = 10%nat ->
  Struct.unpack_BBIHH header = Ok (v, t, l, s, r) ->
  Struct.unpack_I (slice header 2 4) = Ok l.
Proof.
  intros Hlen Hun. unfold Struct.unpack_BBIHH in Hun.
  destruct header as [|b0 [|b1 [|b2 [|b3 [|b4 [|b5 [|b6 [|b7 [|b8 [|b9 [|]]]]]]]]]]];
    try discriminate.
  injection Hun as _ _ <- _ _. reflexivity.
Qed.

(** X3. Whatever way the kernel cuts the byte stream into runs, when the
    stream starts with a packed message [read_tcp_message] returns exactly
    that message and leaves exactly the bytes after it: a read never runs
    across a message boundary. *)
Theorem read_tcp_message_frames (s : tcp_stream) (msg_type : Z)
    (payload message tail : bytes) :
  data_stream s ->
  pack_message msg_type payload = Ok message ->
  stream_bytes s = message ++ tail ->
  exists s',
    read_tcp_message s = (s', Ok (Some message)) /\
    data_stream s' /\ stream_bytes s' = tail.
Proof.
  intros Hs Hpack Hbytes.
  destruct (pack_message_Ok _ _ _ Hpack) as (Ht & Hsz & header & Hh & ->).
  assert (Hl : 0 <= blen payload < 4294967296)
    by (unfold blen, MAX_MESSAGE_SIZE in *; lia).
  destruct (pack_BBIHH_unpack PROTOCOL_VERSION msg_type (blen payload) 0 0)
    as (header' & Hh' & Hlen & Hun); try (unfold PROTOCOL_VERSION; lia);
    try assumption.
  rewrite Hh in Hh'. injection Hh' as <-.
  unfold read_tcp_message, _recv_exact.
  destruct (recv_loop_takes_prefix (Z.to_nat HEADER_SIZE) s HEADER_SIZE [] Hs)
    as (s1 & Hrun1 & Hs1 & Hb1).
  { rewrite Hbytes. unfold blen, HEADER_SIZE. rewrite !length_app, Hlen. lia. }
  { lia. }
  rewrite Hrun1. cbn [app].
  change (Z.to_nat HEADER_SIZE) with 10%nat in *.
  rewrite Hbytes in Hb1 |- *. rewrite <- app_assoc in Hb1 |- *.
  rewrite <- Hlen in Hb1 |- *.
  rewrite firstn_app, Nat.sub_diag, firstn_all, firstn_O, app_nil_r.
  rewrite skipn_app, Nat.sub_diag, skipn_all, skipn_O in Hb1. cbn [app] in Hb1.
  rewrite (header_length_field header payload _ _ _ _ _ Hlen Hun).
  destruct (blen payload >? 0) eqn:Hpos.
  - destruct (recv_loop_takes_prefix (Z.to_nat (blen payload)) s1 (blen payload)
                [] Hs1) as (s2 & Hrun2 & Hs2 & Hb2).
    { rewrite Hb1. unfold blen. rewrite length_app. lia. }
    { lia. }
    rewrite Hrun2. cbn [app]. exists s2.
    unfold blen in Hb2 |- *. rewrite Nat2Z.id in Hb2 |- *. rewrite Hb1 in Hb2 |- *.
    rewrite firstn_app, Nat.sub_diag, firstn_all, firstn_O, app_nil_r.
    rewrite skipn_app, Nat.sub_diag, skipn_all, skipn_O in Hb2.
    split; [reflexivity|]. split; [exact Hs2|exact Hb2].
  - rewrite Z.gtb_ltb in Hpos. apply Z.ltb_ge in Hpos.
    assert (payload = []).
    { destruct payload; [reflexivity|]. unfold blen in Hpos. cbn in Hpos. lia. }
    subst payload. exists s1. split; [reflexivity|]. split; [exact Hs1|exact Hb1].
Qed.

Lemma read_tcp_message_frames_witness :
  exists message s',
    data_stream split_stream_example /\
    pack_message MSG_CHAT (encode "hello") = Ok message /\
    stream_bytes split_stream_example = message ++ encode "next" /\
    read_tcp_message split_stream_example = (s', Ok (Some message)) /\
    stream_bytes s' = encode "next".
Proof.
  destruct (pack_message MSG_CHAT (encode "hello")) as [message|e] eqn:Hp;
    [|vm_compute in Hp; discriminate].
  assert (Hs : data_stream split_stream_example) by (vm_compute; exact I).
  assert (Hb : stream_bytes split_stream_example = message ++ encode "next")
    by (vm_compute in Hp; injection Hp as <-; vm_compute; reflexivity).
  destruct (read_tcp_message_frames split_stream_example MSG_CHAT
              (encode "hello") message (encode "next") Hs Hp Hb)
    as (s' & Hread & _ & Hrest).
  exists message, s'. auto.
Defined.

(** ** File metadata *)

Lemma decode_encode (text : string) : decode (encode text) = text.
Proof. apply string_of_list_byte_of_string. Qed.

Section Metadata.
Context {rt : PyRuntime}.

(** X4. File metadata survives the JSON round trip with its four fields,
    target included, whenever the JSON library reads back the object it
    wrote. *)
Theorem file_metadata_roundtrip (filename : string) (filesize : Z)
    (checksum target : string) :
  let obj := JObj [("filename"%string, JStr filename);
                   ("filesize"%string, JNum filesize);
                   ("checksum"%string, JStr checksum);
                   ("target"%string, JStr target)] in
  json_loads (json_dumps obj) = Some obj ->
  unpack_file_metadata (pack_file_metadata filename filesize checksum target)
  = Ok (mk_file_metadata (JStr filename) (JNum filesize) (JStr checksum)
          (JStr target)).
Proof.
  intros obj Hjson. unfold unpack_file_metadata, pack_file_metadata.
  rewrite decode_encode. fold obj. rewrite Hjson. reflexivity.
Qed.







End Metadata.

Lemma file_metadata_roundtrip_witness :
  @json_loads example_runtime
    (@json_dumps example_runtime
       (JObj [("filename"%string, JStr "report.pdf");
              ("filesize"%string, JNum 6);
              ("checksum"%string, JStr "61926");
              ("target"%string, JStr "all")]))
  = Some (JObj [("filename"%string, JStr "report.pdf");
                ("filesize"%string, JNum 6);
                ("checksum"%string, JStr "61926");
                ("target"%string, JStr "all")]) /\
  @unpack_file_metadata example_runtime
    (@pack_file_metadata example_runtime "report.pdf" 6 "61926" "all")
  = Ok (mk_file_metadata (JStr "report.pdf") (JNum 6) (JStr "61926") (JStr "all")).
Proof.
  assert (H : @json_loads example_runtime
                (@json_dumps example_runtime
                   (JObj [("filename"%string, JStr "report.pdf");
                          ("filesize"%string, JNum 6);
                          ("checksum"%string, JStr "61926");
                          ("target"%string, JStr "all")]))
              = Some (JObj [("filename"%string, JStr "report.pdf");
                            ("filesize"%string, JNum 6);
                            ("checksum"%string, JStr "61926");
                            ("target"%string, JStr "all")]))
    by (vm_compute; reflexivity).
  split; [exact H|].
  exact (@file_metadata_roundtrip example_runtime "report.pdf" 6 "61926" "all" H).
Defined.



(** ** Stream registrations: who listens *)

(** The listeners of a well-formed registry, read off its entries. *)
Lemma collect_listeners_iff (m : ConnectionManager)
    (sel : stream_info -> option address) (room_id : option string)
    (sc : PyDict.t string stream_info) (a : address) :
  PyDict.wf sc ->
  (In a (collect_listeners m sel room_id sc) <->
   exists ip info,
     PyDict.get sc ip = Some info /\ sel info = Some a /\
     passes_room m room_id ip = true).
Proof.
  unfold PyDict.wf. induction sc as [|[ip0 info0] sc IH]; intros Hwf.
  - cbn. split; [tauto|]. intros (ip & info & Hg & _). discriminate.
  - cbn in Hwf. inversion Hwf as [|? ? Hnin Hnd]; subst.
    specialize (IH Hnd).
    assert (Htail : forall ip info,
              PyDict.get sc ip = Some info -> ip <> ip0).
    { intros ip info Hg ->. apply Hnin. apply get_In in Hg.
      unfold PyDict.keys. apply in_map_iff. exists (ip0, info). auto. }
    assert (Hrest :
      (exists ip info, PyDict.get sc ip = Some info /\ sel info = Some a /\
                       passes_room m room_id ip = true) ->
      exists ip info,
        PyDict.get ((ip0, info0) :: sc) ip = Some info /\ sel info = Some a /\
        passes_room m room_id ip = true).
    { intros (ip & info & Hg & Hs & Hr). exists ip, info. cbn.
      destruct (eq_dec ip0 ip) as [E|E]; [|auto].
      exfalso. exact (Htail ip info Hg (eq_sym E)). }
    assert (Hback :
      forall ip info,
        PyDict.get ((ip0, info0) :: sc) ip = Some info -> sel info = Some a ->
        passes_room m room_id ip = true ->
        (ip = ip0 /\ info = info0) \/
        exists ip info, PyDict.get sc ip = Some info /\ sel info = Some a /\
                        passes_room m room_id ip = true).
    { intros ip info Hg Hs Hr. cbn in Hg.
      destruct (eq_dec ip0 ip) as [E|E].
      - injection Hg as <-. left. auto.
      - right. eauto. }
    cbn [collect_listeners]. fold (passes_room m room_id ip0).
    destruct (sel info0) as [a0|] eqn:Hsel0.
    + destruct (passes_room m room_id ip0) eqn:Hroom0.
      * split.
        -- intros [<-|Hin].
           ++ exists ip0, info0. cbn. destruct (eq_dec ip0 ip0); [auto|contradiction].
           ++ apply Hrest, IH, Hin.
        -- intros (ip & info & Hg & Hs & Hr).
           destruct (Hback ip info Hg Hs Hr) as [[-> ->]|Hex].
           ++ left. congruence.
           ++ right. apply IH, Hex.
      * split; [intros Hin; apply Hrest, IH, Hin|].
        intros (ip & info & Hg & Hs & Hr).
        destruct (Hback ip info Hg Hs Hr) as [[-> ->]|Hex]; [congruence|].
        apply IH, Hex.
    + split; [intros Hin; apply Hrest, IH, Hin|].
      intros (ip & info & Hg & Hs & Hr).
      destruct (Hback ip info Hg Hs Hr) as [[-> ->]|Hex]; [congruence|].
      apply IH, Hex.
Qed.

Lemma listeners_iff (st : stream_type) (m : ConnectionManager)
    (room_id : option string) (a : address) :
  PyDict.wf (stream_clients m) ->
  (In a (listeners st m room_id) <->
   exists ip info,
     PyDict.get (stream_clients m) ip = Some info /\
     stream_addr st info = Some a /\ passes_room m room_id ip = true).
Proof.
  intros Hwf. destruct st; apply collect_listeners_iff, Hwf.
Qed.

Lemma stream_ok_get (sc : PyDict.t string stream_info) (st : stream_type)
    (ip : string) (info : stream_info) (a : address) :
  stream_ok sc -> PyDict.get sc ip = Some info ->
  stream_addr st info = Some a -> fst a = ip.
Proof.
  intros [_ Hok] Hg Ha. destruct (Hok _ _ (get_In _ _ _ Hg)) as [Hv Hau].
  destruct st; auto.
Qed.

Lemma passes_room_control (m m' : ConnectionManager) (room_id : option string)
    (ip : string) :
  control_clients m = control_clients m' ->
  passes_room m room_id ip = passes_room m' room_id ip.
Proof.
  intros Hc. destruct room_id; [|reflexivity]. cbn. unfold _ip_in_room.
  now rewrite Hc.
Qed.

Lemma register_stream_control (m : ConnectionManager) (st : stream_type)
    (addr : address) (now : time) :
  control_clients (register_stream m st addr now) = control_clients m.
Proof.
  unfold register_stream.
  destruct (PyDict.get _ (fst addr)); [reflexivity|].
  destruct (PyDict.mem (stream_clients m) (fst addr)); reflexivity.
Qed.

(** The entry that [register_stream] leaves under the IP of the address. *)
Lemma register_stream_entry (m : ConnectionManager) (st : stream_type)
    (addr : address) (now : time) :
  exists info,
    stream_clients (register_stream m st addr now)
    = PyDict.set (if PyDict.mem (stream_clients m) (fst addr)
                  then stream_clients m
                  else PyDict.set (stream_clients m) (fst addr)
                         (mk_stream_info None None now))
        (fst addr) info /\
    stream_addr st info = Some addr /\
    stream_addr (other_stream st) info
    = match PyDict.get (stream_clients m) (fst addr) with
      | Some old => stream_addr (other_stream st) old
      | None => None
      end.
Proof.
  unfold register_stream, PyDict.mem.
  destruct (PyDict.get (stream_clients m) (fst addr)) as [old|] eqn:Hold.
  - rewrite Hold. eexists. split; [reflexivity|]. destruct st; auto.
  - rewrite get_set_same. eexists. split; [reflexivity|]. destruct st; auto.
Qed.

Lemma register_stream_lookup (m : ConnectionManager) (st : stream_type)
    (addr : address) (now : time) (ip : string) :
  ip <> fst addr ->
  PyDict.get (stream_clients (register_stream m st addr now)) ip
  = PyDict.get (stream_clients m) ip.
Proof.
  intros Hne. destruct (register_stream_entry m st addr now) as (info & -> & _).
  rewrite get_set_other by congruence.
  destruct (PyDict.mem (stream_clients m) (fst addr)); [reflexivity|].
  apply get_set_other. congruence.
Qed.

Lemma register_stream_wf (m : ConnectionManager) (st : stream_type)
    (addr : address) (now : time) :
  PyDict.wf (stream_clients m) ->
  PyDict.wf (stream_clients (register_stream m st addr now)).
Proof.
  intros Hwf. destruct (register_stream_entry m st addr now) as (info & -> & _).
  apply wf_set. destruct (PyDict.mem _ _); [exact Hwf|apply wf_set, Hwf].
Qed.

(** X6. After [register_stream] the address is a listener of its kind; it is
    the only listener of that kind at its IP (a later address replaces an
    earlier one); the listeners of that kind at other IPs and all listeners
    of the other kind are the same as before. *)
Theorem register_stream_listeners (m : ConnectionManager) (st : stream_type)
    (addr : address) (now : time) (room_id : option string) :
  stream_ok (stream_clients m) ->
  let m' := register_stream m st addr now in
  In addr (listeners st m' None) /\
  (forall a, In a (listeners st m' room_id) -> fst a = fst addr -> a = addr) /\
  (forall a, fst a <> fst addr ->
     (In a (listeners st m' room_id) <-> In a (listeners st m room_id))) /\
  (forall a, In a (listeners (other_stream st) m' room_id)
             <-> In a (listeners (other_stream st) m room_id)).
Proof.
  intros Hok m'. pose proof (proj1 Hok) as Hwf.
  remember (register_stream m st addr now) as m1 eqn:Hm1. subst m'.
  rename m1 into m'.
  assert (Hwf' : PyDict.wf (stream_clients m'))
    by (subst m'; apply register_stream_wf, Hwf).
  assert (Hok' : stream_ok (stream_clients m'))
    by (subst m'; apply register_stream_ok, Hok).
  assert (Hroom : forall ip, passes_room m' room_id ip = passes_room m room_id ip).
  { intros ip. subst m'. apply passes_room_control, register_stream_control. }
  destruct (register_stream_entry m st addr now) as (info & Hsc & Hst & Hoth).
  rewrite <- Hm1 in Hsc.
  assert (Hlook : forall ip, ip <> fst addr ->
            PyDict.get (stream_clients m') ip = PyDict.get (stream_clients m) ip).
  { intros ip Hne. subst m'. apply register_stream_lookup, Hne. }
  assert (Hself : PyDict.get (stream_clients m') (fst addr) = Some info)
    by (rewrite Hsc; apply get_set_same).
  split; [|split; [|split]].
  - apply listeners_iff; [exact Hwf'|]. exists (fst addr), info. auto.
  - intros a Hin Hip. apply listeners_iff in Hin as (ip & i & Hg & Ha & _);
      [|exact Hwf'].
    assert (ip = fst addr)
      by (rewrite <- Hip; symmetry; exact (stream_ok_get _ st _ _ _ Hok' Hg Ha)).
    subst ip. rewrite Hself in Hg. injection Hg as <-. congruence.
  - intros a Hne. rewrite !listeners_iff by assumption.
    split; intros (ip & i & Hg & Ha & Hr).
    + assert (fst a = ip) by exact (stream_ok_get _ st _ _ _ Hok' Hg Ha).
      exists ip, i. rewrite <- Hroom, <- Hlook by congruence. auto.
    + assert (fst a = ip) by exact (stream_ok_get _ st _ _ _ Hok Hg Ha).
      exists ip, i. rewrite Hroom, Hlook by congruence. auto.
  - intros a. rewrite !listeners_iff by assumption.
    split; intros (ip & i & Hg & Ha & Hr).
    + destruct (eq_dec ip (fst addr)) as [->|Hne].
      * rewrite Hself in Hg. injection Hg as <-. rewrite Hoth in Ha.
        destruct (PyDict.get (stream_clients m) (fst addr)) as [old|] eqn:Hold;
          [|discriminate].
        exists (fst addr), old. rewrite <- Hroom. auto.
      * exists ip, i. rewrite <- Hroom, <- Hlook by assumption. auto.
    + destruct (eq_dec ip (fst addr)) as [->|Hne].
      * exists (fst addr), info. rewrite Hroom, Hoth, Hg. auto.
      * exists ip, i. rewrite Hroom, Hlook by assumption. auto.
Qed.


Lemma video_meeting_stream_ok : stream_ok (stream_clients video_meeting).
Proof.
  unfold video_meeting.
  apply register_stream_ok, register_stream_ok, register_stream_ok.
  exact stream_ok_empty.
Qed.

Lemma register_stream_listeners_witness :
  stream_ok (stream_clients video_meeting) /\
  In ("10.0.0.2"%string, 7102)
     (listeners Video
        (register_stream video_meeting Video ("10.0.0.2"%string, 7102) 20) None).
Proof.
  split; [exact video_meeting_stream_ok|].
  exact (proj1 (register_stream_listeners video_meeting Video
                  ("10.0.0.2"%string, 7102) 20 None video_meeting_stream_ok)).
Defined.

(** In a registry whose entries are filed under their own IP, the listeners
    are the addresses found under their own IP that pass the room filter. *)
Lemma listeners_spec (st : stream_type) (m : ConnectionManager)
    (room_id : option string) (a : address) :
  stream_ok (stream_clients m) ->
  (In a (listeners st m room_id) <->
   stream_at st m (fst a) = Some a /\ passes_room m room_id (fst a) = true).
Proof.
  intros Hok. rewrite listeners_iff by apply Hok. unfold stream_at. split.
  - intros (ip & info & Hg & Ha & Hr).
    assert (fst a = ip) by exact (stream_ok_get _ st _ _ _ Hok Hg Ha).
    subst ip. rewrite Hg. auto.
  - intros [Hat Hr].
    destruct (PyDict.get (stream_clients m) (fst a)) as [info|] eqn:Hg;
      [|discriminate].
    exists (fst a), info. auto.
Qed.

Lemma unregister_stream_at_same (m : ConnectionManager) (st : stream_type)
    (key : address) (now : time) :
  nonempty (fst key) = true ->
  stream_at st (unregister_stream m st key now) (fst key) = None.
Proof.
  intros Hne. unfold stream_at, unregister_stream. rewrite Hne. cbn [negb].
  destruct (PyDict.get (stream_clients m) (fst key)) as [info|] eqn:Hg.
  - cbn [stream_clients set_stream]. rewrite get_set_same. now destruct st.
  - now rewrite Hg.
Qed.

Lemma unregister_stream_at_other_ip (m : ConnectionManager)
    (st st' : stream_type) (key : address) (now : time) (ip : string) :
  ip <> fst key ->
  stream_at st' (unregister_stream m st key now) ip = stream_at st' m ip.
Proof.
  intros Hip. unfold stream_at, unregister_stream.
  destruct (negb (nonempty (fst key))); [reflexivity|].
  destruct (PyDict.get (stream_clients m) (fst key)) as [info|] eqn:Hg;
    [|reflexivity].
  cbn [stream_clients set_stream]. rewrite get_set_other by congruence.
  reflexivity.
Qed.

Lemma unregister_stream_at_other_kind (m : ConnectionManager)
    (st : stream_type) (key : address) (now : time) (ip : string) :
  stream_at (other_stream st) (unregister_stream m st key now) ip
  = stream_at (other_stream st) m ip.
Proof.
  destruct (eq_dec ip (fst key)) as [->|Hne];
    [|apply unregister_stream_at_other_ip, Hne].
  unfold stream_at, unregister_stream.
  destruct (negb (nonempty (fst key))); [reflexivity|].
  destruct (PyDict.get (stream_clients m) (fst key)) as [info|] eqn:Hg.
  - cbn [stream_clients set_stream]. rewrite get_set_same. now destruct st.
  - now rewrite Hg.
Qed.

Lemma unregister_stream_passes_room (m : ConnectionManager) (st : stream_type)
    (key : address) (now : time) (room_id : option string) (ip : string) :
  passes_room (unregister_stream m st key now) room_id ip
  = passes_room m room_id ip.
Proof. apply passes_room_control, unregister_stream_control. Qed.

(** X7. [unregister_stream] with an address key works by IP alone: whatever
    address of that kind is registered under the key's IP stops being a
    listener, also when its port differs from the key's; the listeners of
    that kind at other IPs and all listeners of the other kind stay. *)
Theorem unregister_stream_listeners (m : ConnectionManager) (st : stream_type)
    (key : address) (now : time) (room_id : option string) :
  stream_ok (stream_clients m) ->
  nonempty (fst key) = true ->
  (forall a, In a (listeners st (unregister_stream m st key now) room_id)
             <-> In a (listeners st m room_id) /\ fst a <> fst key) /\
  (forall a, In a (listeners (other_stream st)
                     (unregister_stream m st key now) room_id)
             <-> In a (listeners (other_stream st) m room_id)).
Proof.
  intros Hok Hne.
  pose proof (unregister_stream_ok m st key now Hok) as Hok'.
  split; intros a; rewrite !listeners_spec by assumption;
    rewrite unregister_stream_passes_room.
  - destruct (eq_dec (fst a) (fst key)) as [E|E].
    + rewrite E, unregister_stream_at_same by exact Hne.
      split; [intros [? _]; discriminate|intros [_ ?]; contradiction].
    + rewrite unregister_stream_at_other_ip by exact E. tauto.
  - rewrite unregister_stream_at_other_kind. tauto.
Qed.

Lemma unregister_stream_listeners_witness :
  stream_ok (stream_clients video_meeting) /\
  nonempty "10.0.0.2"%string = true /\
  ~ In ("10.0.0.2"%string, 7002)
       (listeners Video
          (unregister_stream video_meeting Video ("10.0.0.2"%string, 9999) 20)
          None).
Proof.
  split; [exact video_meeting_stream_ok|]. split; [reflexivity|].
  intros Hin.
  destruct (proj1 (proj1 (unregister_stream_listeners video_meeting Video
                            ("10.0.0.2"%string, 9999) 20 None
                            video_meeting_stream_ok eq_refl)
                     ("10.0.0.2"%string, 7002)) Hin) as [_ Hne].
  apply Hne. reflexivity.
Defined.

(** ** Removing a registered member *)

Lemma filter_none {A : Type} (f : A -> bool) (l : list A) :
  (forall x, In x l -> f x = false) -> filter f l = [].
Proof.
  induction l as [|x l IH]; intros Hf; cbn; [reflexivity|].
  rewrite (Hf x) by now left. apply IH. intros y Hy. apply Hf. now right.
Qed.

Lemma In_keys_get {K V : Type} `{EqDec K} (d : PyDict.t K V) (k : K) :
  In k (PyDict.keys d) <-> PyDict.get d k <> None.
Proof.
  split.
  - intros Hin Hg. apply get_None_keys in Hg. contradiction.
  - intros Hg. destruct (PyDict.get d k) as [v|] eqn:E; [|contradiction].
    apply get_In in E. unfold PyDict.keys. apply in_map_iff. exists (k, v). auto.
Qed.

(** The user-list broadcast drops exactly the members it cannot write to. *)
Lemma broadcast_user_list_registry (net : Network) (m : ConnectionManager) :
  PyDict.wf (control_clients m) ->
  let m' := fst (broadcast_user_list net m) in
  PyDict.wf (control_clients m') /\
  server_ref m' = server_ref m /\
  (forall k, PyDict.get (control_clients m') k
             = if send_ok net k then PyDict.get (control_clients m) k else None) /\
  (List.length (control_clients m') <= List.length (control_clients m))%nat.
Proof.
  intros Hwf. unfold broadcast_user_list, broadcast_user_list_with.
  destruct (remove_each_registry net (remove_client net)
              (remove_client_registry net)
              (filter (fun c => negb (send_ok net c))
                 (PyDict.keys (control_clients m))) m Hwf)
    as (Hwf' & Hs & Hgone & Honly & Hkeep & Hlen).
  cbn zeta. repeat split; try assumption.
  intros k. destruct (send_ok net k) eqn:Hok.
  - apply Hkeep; [|exact Hok]. intros Hin. apply filter_In in Hin as [_ Hf].
    rewrite Hok in Hf. discriminate.
  - destruct (PyDict.get (control_clients m) k) as [v|] eqn:E.
    + apply Hgone, filter_In. split; [|now rewrite Hok].
      apply In_keys_get. congruence.
    + match goal with |- ?x = None => destruct x as [v|] eqn:E' end;
        [|reflexivity].
      apply Honly in E'. congruence.
Qed.

(** When every member can be written to, the broadcast removes nobody. *)
Lemma broadcast_user_list_quiet (net : Network) (m : ConnectionManager) :
  (forall k, PyDict.get (control_clients m) k <> None -> send_ok net k = true) ->
  broadcast_user_list net m = (m, []).
Proof.
  intros Hall. unfold broadcast_user_list, broadcast_user_list_with.
  rewrite filter_none; [reflexivity|].
  intros k Hin. apply In_keys_get in Hin. now rewrite (Hall k Hin).
Qed.

Lemma broadcast_user_list_streams (net : Network) (m : ConnectionManager) :
  stream_ok (stream_clients m) ->
  stream_ok (stream_clients (fst (broadcast_user_list net m))) /\
  forall x, In x (stream_clients (fst (broadcast_user_list net m))) ->
            In x (stream_clients m).
Proof.
  intros Hok. unfold broadcast_user_list, broadcast_user_list_with.
  apply remove_each_streams; [|exact Hok].
  intros m0 s0. apply remove_client_rec_streams.
Qed.

Lemma broadcast_user_list_events (net : Network) (m : ConnectionManager) :
  PyDict.wf (control_clients m) ->
  (forall e, In e (snd (broadcast_user_list net m)) -> is_sendall e = false) /\
  (forall k, PyDict.get (control_clients m) k <> None ->
     PyDict.get (control_clients (fst (broadcast_user_list net m))) k = None ->
     In (EvClose k) (snd (broadcast_user_list net m))).
Proof.
  intros Hwf. unfold broadcast_user_list, broadcast_user_list_with.
  apply (remove_each_events net (remove_client net) (remove_client_registry net)
           (remove_client_events net)). exact Hwf.
Qed.

(** [remove_client] on a member, by the broadcast that follows the removal. *)
Lemma remove_client_present (net : Network) (m : ConnectionManager) (s : socket)
    (info : client_info) :
  PyDict.wf (control_clients m) ->
  PyDict.get (control_clients m) s = Some info ->
  remove_client net m s
  = let m1 :=
      mk_manager (PyDict.del (control_clients m) s)
        (if PyDict.mem (stream_clients m) (fst (info_addr info))
         then PyDict.del (stream_clients m) (fst (info_addr info))
         else stream_clients m)
        (server_ref m) in
    if negb (eqb_of (info_username info) "Unknown"%string) then
      let out := broadcast_user_list net m1 in
      (fst out,
       [EvClose s] ++ EvBroadcastUserList :: snd out ++
       (if server_ref (fst out) && nonempty (info_room info)
        then [EvBroadcastRoomUserList (info_room info)] else []),
       (info_username info, info_addr info))
    else (m1, [EvClose s], (info_username info, info_addr info)).
Proof.
  intros Hwf Hg. unfold remove_client at 1. rewrite remove_client_rec_eq, Hg.
  cbv zeta.
  destruct (negb (eqb_of (info_username info) "Unknown"%string)); [|reflexivity].
  pose proof (length_del_present (control_clients m) s info Hg) as Hlen.
  destruct (List.length (control_clients m)) as [|fuel]; [discriminate Hlen|].
  injection Hlen as Hlen.
  set (m1 := mk_manager (PyDict.del (control_clients m) s) _ (server_ref m)).
  assert (Hwf1 : PyDict.wf (control_clients m1)) by (apply wf_del, Hwf).
  unfold broadcast_user_list, broadcast_user_list_with.
  rewrite (remove_each_ext net fuel (remove_client_rec fuel net) (remove_client net));
    [reflexivity| | |exact Hwf1|cbn [control_clients m1]; lia].
  - intros m0 s0 Hw Hl. apply remove_client_rec_fuel; assumption.
  - intros m0 s0 Hw.
    destruct (remove_client_rec_registry net fuel m0 s0 Hw)
      as (H1 & _ & _ & _ & _ & H2). auto.
Qed.

Lemma stream_at_only_removed (st : stream_type) (m m' : ConnectionManager)
    (ip : string) (a : address) :
  PyDict.wf (stream_clients m) ->
  (forall x, In x (stream_clients m') -> In x (stream_clients m)) ->
  stream_at st m' ip = Some a -> stream_at st m ip = Some a.
Proof.
  intros Hwf Hin. unfold stream_at.
  destruct (PyDict.get (stream_clients m') ip) as [i|] eqn:E; [|discriminate].
  apply get_In, Hin in E. rewrite (In_get _ _ _ Hwf E). auto.
Qed.

(** What [remove_client] does to the streams of a member: the entry at its
    IP goes, and nothing is added. *)
Lemma remove_client_streams_present (net : Network) (m : ConnectionManager)
    (s : socket) (info : client_info) (st : stream_type) (ip : string) (a : address) :
  PyDict.wf (control_clients m) ->
  stream_ok (stream_clients m) ->
  PyDict.get (control_clients m) s = Some info ->
  stream_at st (fst (fst (remove_client net m s))) ip = Some a ->
  stream_at st m ip = Some a /\ ip <> fst (info_addr info).
Proof.
  intros Hwf Hok Hg Hat.
  set (m1 := mk_manager (PyDict.del (control_clients m) s)
               (if PyDict.mem (stream_clients m) (fst (info_addr info))
                then PyDict.del (stream_clients m) (fst (info_addr info))
                else stream_clients m)
               (server_ref m)).
  assert (H1 : stream_ok (stream_clients m1) /\
               PyDict.get (stream_clients m1) (fst (info_addr info)) = None /\
               forall ip', ip' <> fst (info_addr info) ->
                 PyDict.get (stream_clients m1) ip'
                 = PyDict.get (stream_clients m) ip').
  { cbn [stream_clients m1]. unfold PyDict.mem.
    destruct (PyDict.get (stream_clients m) (fst (info_addr info))) eqn:E.
    - split; [apply stream_ok_del, Hok|].
      split; [apply get_del_same, Hok|].
      intros ip' Hne. apply get_del_other. congruence.
    - auto. }
  destruct H1 as (Hok1 & Hgone1 & Hother1).
  assert (Hm1 : stream_at st m1 ip = Some a).
  { rewrite (remove_client_present net m s info Hwf Hg) in Hat. fold m1 in Hat.
    cbv zeta in Hat.
    destruct (negb (eqb_of (info_username info) "Unknown"%string));
      cbn [fst] in Hat; [|exact Hat].
    apply (stream_at_only_removed st m1 _ ip a (proj1 Hok1)
             (proj2 (broadcast_user_list_streams net m1 Hok1)) Hat). }
  unfold stream_at in Hm1 |- *.
  destruct (eq_dec ip (fst (info_addr info))) as [E|E].
  - subst ip. rewrite Hgone1 in Hm1. discriminate.
  - rewrite Hother1 in Hm1 by exact E. auto.
Qed.

(** X8. Removing a registered member takes it out of the registry and, when
    it had a name, the user-list broadcast that follows takes out every
    member that cannot be written to; the members that stay are as they
    were. The call returns the member's name and address and closes the
    socket of every member it removes. No stream listener is added and none
    stays at the member's IP, of either kind: the stream entry goes by IP,
    also when another member shares that IP. When no other member is lost
    the listeners that stay are exactly those at another IP. *)
Theorem remove_client_registered (net : Network) (m : ConnectionManager)
    (s : socket) (info : client_info) (st : stream_type) :
  PyDict.wf (control_clients m) ->
  stream_ok (stream_clients m) ->
  PyDict.get (control_clients m) s = Some info ->
  let m' := fst (fst (remove_client net m s)) in
  let named := negb (eqb_of (info_username info) "Unknown"%string) in
  (forall k,
     PyDict.get (control_clients m') k
     = if eqb_of k s then None
       else if named && negb (send_ok net k) then None
       else PyDict.get (control_clients m) k) /\
  snd (remove_client net m s) = (info_username info, info_addr info) /\
  (forall k, PyDict.get (control_clients m) k <> None ->
     PyDict.get (control_clients m') k = None ->
     In (EvClose k) (snd (fst (remove_client net m s)))) /\
  (forall a, In a (listeners st m' None) ->
     In a (listeners st m None) /\ fst a <> fst (info_addr info)) /\
  (named = false \/
   (forall k, k <> s -> PyDict.get (control_clients m) k <> None ->
              send_ok net k = true) ->
   forall a, In a (listeners st m' None)
             <-> In a (listeners st m None) /\ fst a <> fst (info_addr info)).
Proof.
  intros Hwf Hok Hg m' named.
  pose proof (remove_client_stream_ok net m s Hok) as Hok'.
  assert (Hdrop : forall a, In a (listeners st m' None) ->
            In a (listeners st m None) /\ fst a <> fst (info_addr info)).
  { intros a Hin. apply listeners_spec in Hin; [|exact Hok'].
    destruct Hin as [Hat _].
    destruct (remove_client_streams_present net m s info st (fst a) a Hwf Hok Hg Hat)
      as [Hat0 Hne].
    split; [|exact Hne]. apply listeners_spec; [exact Hok|]. split; [exact Hat0|].
    reflexivity. }
  split; [|split; [|split; [|split]]].
  - intros k. unfold m'. rewrite (remove_client_lookup net m s k Hwf), Hg.
    reflexivity.
  - rewrite (remove_client_present net m s info Hwf Hg). cbv zeta.
    destruct (negb (eqb_of (info_username info) "Unknown"%string)); reflexivity.
  - apply remove_client_events, Hwf.
  - exact Hdrop.
  - intros Hquiet a. split; [apply Hdrop|]. intros [Hin Hne].
    apply listeners_spec in Hin; [|exact Hok]. destruct Hin as [Hat _].
    apply listeners_spec; [exact Hok'|]. split; [|reflexivity].
    unfold m'. rewrite (remove_client_present net m s info Hwf Hg). cbv zeta.
    set (m1 := mk_manager (PyDict.del (control_clients m) s) _ (server_ref m)).
    assert (Hm1 : stream_at st m1 (fst a) = Some a).
    { unfold stream_at in Hat |- *. cbn [stream_clients m1].
      destruct (PyDict.mem (stream_clients m) (fst (info_addr info)));
        [|exact Hat].
      rewrite get_del_other by congruence. exact Hat. }
    fold named. destruct named eqn:Hnamed; cbn [fst]; [|exact Hm1].
    rewrite broadcast_user_list_quiet; [exact Hm1|].
    destruct Hquiet as [Hq|Hq]; [discriminate|].
    intros k Hk. cbn [control_clients m1] in Hk.
    destruct (eq_dec k s) as [E|E].
    + subst k. rewrite get_del_same in Hk by exact Hwf. contradiction.
    + rewrite get_del_other in Hk by congruence. apply Hq; assumption.
Qed.

(** ** Stale stream entries *)

Lemma existsb_filter_keys {K V : Type} `{EqDec K} (p : K * V -> bool)
    (d : PyDict.t K V) (k : K) :
  PyDict.wf d ->
  existsb (eqb_of k) (map fst (filter p d))
  = match PyDict.get d k with Some v => p (k, v) | None => false end.
Proof.
  unfold PyDict.wf. induction d as [|[k0 v0] d IH]; cbn; [reflexivity|].
  intros Hwf. inversion Hwf as [|? ? Hnin Hnd]; subst. specialize (IH Hnd).
  destruct (eq_dec k0 k) as [E|E].
  - subst k0. apply get_None_keys in Hnin. rewrite Hnin in IH.
    destruct (p (k, v0)); cbn; [|exact IH].
    now rewrite eqb_of_refl.
  - destruct (p (k0, v0)); cbn; [|exact IH].
    replace (eqb_of k k0) with false; [exact IH|].
    symmetry. apply eqb_of_false. congruence.
Qed.

(** X9. [_cleanup_stale_streams] removes exactly the stream entries last
    seen more than [CLIENT_IDLE_TIMEOUT] before [now]; the entries it keeps
    are unchanged, and so are the TCP members. *)
Theorem cleanup_stale_streams_lookup (m : ConnectionManager) (now : time)
    (ip : string) :
  PyDict.wf (stream_clients m) ->
  PyDict.get (stream_clients (_cleanup_stale_streams m now)) ip
  = match PyDict.get (stream_clients m) ip with
    | Some info => if stale now info then None else Some info
    | None => None
    end /\
  control_clients (_cleanup_stale_streams m now) = control_clients m.
Proof.
  intros Hwf. split; [|reflexivity].
  unfold _cleanup_stale_streams. cbn [stream_clients set_stream].
  rewrite get_fold_del by exact Hwf. unfold PyDict.items.
  rewrite (existsb_filter_keys
             (fun entry => now - stream_last_seen (snd entry) >? CLIENT_IDLE_TIMEOUT)
             (stream_clients m) ip Hwf).
  destruct (PyDict.get (stream_clients m) ip) as [info|]; reflexivity.
Qed.

Lemma cleanup_stale_streams_lookup_witness :
  PyDict.wf (stream_clients video_meeting) /\
  PyDict.get (stream_clients (_cleanup_stale_streams video_meeting 15011))
    "10.0.0.1"%string = None /\
  PyDict.get (stream_clients (_cleanup_stale_streams video_meeting 15011))
    "10.0.0.2"%string
  = Some (mk_stream_info (Some ("10.0.0.2"%string, 7002)) None 11).
Proof.
  split; [exact (proj1 video_meeting_stream_ok)|].
  split.
  - etransitivity;
      [exact (proj1 (cleanup_stale_streams_lookup video_meeting 15011
                       "10.0.0.1"%string (proj1 video_meeting_stream_ok)))|].
    vm_compute. reflexivity.
  - etransitivity;
      [exact (proj1 (cleanup_stale_streams_lookup video_meeting 15011
                       "10.0.0.2"%string (proj1 video_meeting_stream_ok)))|].
    vm_compute. reflexivity.
Defined.


Lemma video_meeting_control_wf : PyDict.wf (control_clients video_meeting).
Proof.
  vm_compute.
  repeat (constructor; [cbn; intuition discriminate|]). constructor.
Qed.

Lemma remove_client_registered_witness :
  exists info,
    PyDict.wf (control_clients video_meeting) /\
    stream_ok (stream_clients video_meeting) /\
    PyDict.get (control_clients video_meeting) 2%nat = Some info /\
    PyDict.get (control_clients
                  (fst (fst (remove_client bob_unreachable video_meeting 2%nat))))
      2%nat = None.
Proof.
  destruct (PyDict.get (control_clients video_meeting) 2%nat) as [info|] eqn:Hg;
    [|vm_compute in Hg; discriminate].
  exists info.
  split; [exact video_meeting_control_wf|].
  split; [exact video_meeting_stream_ok|].
  split; [reflexivity|].
  exact (proj1 (remove_client_registered bob_unreachable video_meeting 2%nat info
                  Video video_meeting_control_wf video_meeting_stream_ok Hg) 2%nat).
Defined.

(** ** Names are set once *)

Lemma update_first_by_ip_lookup (items items' : list (socket * client_info))
    (ip : string) (username room_id : option string) (now : time)
    (s : socket) (info : client_info) :
  update_first_by_ip items ip username room_id now = Some items' ->
  PyDict.get items s = Some info ->
  exists info',
    PyDict.get items' s = Some info' /\
    info_addr info' = info_addr info /\
    (info_username info <> "Unknown"%string ->
     info_username info' = info_username info).
Proof.
  revert items'. induction items as [|[s0 i0] rest IH]; intros items';
    cbn [update_first_by_ip]; [discriminate|].
  destruct (eqb_of (fst (info_addr i0)) ip) eqn:Hip.
  - intros [= <-]. cbn [PyDict.get]. destruct (eq_dec s0 s) as [E|E].
    + intros [= ->]. eexists. split; [reflexivity|].
      split.
      * destruct username as [u|]; destruct room_id as [r|]; cbn;
          repeat match goal with
                 | |- context [if ?b then _ else _] => destruct b
                 end; reflexivity.
      * intros Hname.
        assert (Hn : eqb_of (info_username info) "Unknown"%string = false)
          by (apply eqb_of_false; exact Hname).
        cbv zeta. cbn [info_username with_last_seen].
        destruct username as [u|]; [rewrite !Hn, !andb_false_r|];
          destruct room_id as [r|]; cbn;
          repeat match goal with
                 | |- context [if ?b then _ else _] => destruct b
                 end; reflexivity.
    + intros Hg. exists info. auto.
  - destruct (update_first_by_ip rest ip username room_id now) as [rest'|] eqn:Hr;
      [|discriminate].
    intros [= <-]. cbn [PyDict.get]. destruct (eq_dec s0 s) as [E|E].
    + intros [= ->]. exists info. auto.
    + intros Hg. exact (IH rest' eq_refl Hg).
Qed.

(** X10. A name other than the placeholder "Unknown" is never replaced:
    whatever name and room either status update is called with, for
    whichever socket or IP, every member that already had a name keeps it,
    along with its address. *)
Theorem registered_name_is_kept (m : ConnectionManager) (s s' : socket)
    (ip : string) (username room_id : option string) (now : time)
    (info : client_info) :
  PyDict.get (control_clients m) s' = Some info ->
  info_username info <> "Unknown"%string ->
  (exists info',
     PyDict.get (control_clients
                   (fst (fst (update_client_status m s username room_id now))))
       s' = Some info' /\
     info_username info' = info_username info /\
     info_addr info' = info_addr info) /\
  (exists info',
     PyDict.get (control_clients
                   (fst (update_client_status_by_ip m ip username room_id now)))
       s' = Some info' /\
     info_username info' = info_username info /\
     info_addr info' = info_addr info).
Proof.
  intros Hg Hname. split.
  - unfold update_client_status.
    destruct (PyDict.get (control_clients m) s) as [i|] eqn:Hs;
      cbn [fst control_clients set_control]; [|eauto].
    destruct (eq_dec s s') as [->|Hne].
    + rewrite get_set_same. rewrite Hg in Hs. injection Hs as <-.
      eexists. split; [reflexivity|].
      assert (Hn : eqb_of (info_username info) "Unknown"%string = false)
        by (apply eqb_of_false; exact Hname).
      cbv zeta. cbn [info_username with_last_seen].
      rewrite !Hn, !andb_false_r.
      destruct username as [u|]; destruct room_id as [r|]; cbn;
        repeat match goal with
               | |- context [if ?b then _ else _] => destruct b
               end; auto.
    + rewrite get_set_other by exact Hne. eauto.
  - unfold update_client_status_by_ip.
    destruct (update_first_by_ip (PyDict.items (control_clients m)) ip username
                room_id now) as [cc|] eqn:E; cbn [fst control_clients set_control];
      [|eauto].
    destruct (update_first_by_ip_lookup _ _ _ _ _ _ _ _ E Hg)
      as (info' & Hg' & Haddr & Hn).
    exists info'. auto.
Qed.

Lemma registered_name_is_kept_witness :
  exists info,
    PyDict.get (control_clients video_meeting) 1%nat = Some info /\
    info_username info <> "Unknown"%string /\
    exists info',
      PyDict.get (control_clients
                    (fst (fst (update_client_status video_meeting 1%nat
                                 (Some "Mallory"%string) None 30))))
        1%nat = Some info' /\
      info_username info' = info_username info.
Proof.
  destruct (PyDict.get (control_clients video_meeting) 1%nat) as [info|] eqn:Hg;
    [|vm_compute in Hg; discriminate].
  assert (Hname : info_username info <> "Unknown"%string).
  { vm_compute in Hg. injection Hg as <-. cbn. discriminate. }
  exists info. split; [reflexivity|]. split; [exact Hname|].
  destruct (proj1 (registered_name_is_kept video_meeting 1%nat 1%nat
                     "10.0.0.1"%string (Some "Mallory"%string) None 30 info
                     Hg Hname)) as (info' & Hg' & Hn & _).
  exists info'. split; [exact Hg'|exact Hn].
Defined.

(** ** Heartbeat *)

(** The removal loop takes out the sockets it is given; whatever else goes
    is a member that cannot be written to, and nothing is added or altered. *)
Lemma remove_failed_registry (net : Network) (failed : list socket)
    (m : ConnectionManager) :
  PyDict.wf (control_clients m) ->
  let m' := fst (remove_failed net m failed) in
  PyDict.wf (control_clients m') /\
  server_ref m' = server_ref m /\
  (forall k, In k failed -> PyDict.get (control_clients m') k = None) /\
  (forall k v, PyDict.get (control_clients m') k = Some v ->
     PyDict.get (control_clients m) k = Some v) /\
  (forall k, ~ In k failed -> send_ok net k = true ->
     PyDict.get (control_clients m') k = PyDict.get (control_clients m) k) /\
  (List.length (control_clients m') <= List.length (control_clients m))%nat.
Proof.
  rewrite remove_failed_eq.
  apply (remove_each_registry net (remove_client net) (remove_client_registry net)).
Qed.

(** Given all the members that cannot be written to, the loop removes them
    and nobody else. *)
Lemma remove_failed_all (net : Network) (failed : list socket)
    (m : ConnectionManager) (k : socket) :
  PyDict.wf (control_clients m) ->
  (forall s, In s failed
             <-> PyDict.get (control_clients m) s <> None /\ send_ok net s = false) ->
  PyDict.get (control_clients (fst (remove_failed net m failed))) k
  = if send_ok net k then PyDict.get (control_clients m) k else None.
Proof.
  intros Hwf Hall.
  destruct (remove_failed_registry net failed m Hwf)
    as (_ & _ & Hgone & Honly & Hkeep & _).
  destruct (send_ok net k) eqn:Hok.
  - apply Hkeep; [|exact Hok]. intros Hin. apply Hall in Hin as [_ Hf]. congruence.
  - destruct (PyDict.get (control_clients m) k) as [v|] eqn:E.
    + apply Hgone, Hall. split; [congruence|exact Hok].
    + match goal with |- ?x = None => destruct x as [v|] eqn:E' end;
        [|reflexivity].
      apply Honly in E'. congruence.
Qed.

Lemma heartbeat_sends_spec (net : Network) (items : list (socket * client_info))
    (pk : bytes) (now : time) :
  let '(items', to_remove, evs) := heartbeat_sends net items pk now in
  items' = map (fun e => (fst e, if send_ok net (fst e)
                                 then with_last_seen (snd e) now else snd e))
               items /\
  to_remove = map fst (filter (fun e => negb (send_ok net (fst e))) items) /\
  evs = map (fun e => EvSendall (fst e) pk (send_ok net (fst e))) items.
Proof.
  induction items as [|[s i] rest IH]; cbn [heartbeat_sends]; [auto|].
  destruct (heartbeat_sends net rest pk now) as [[items' to_remove] evs].
  destruct IH as (-> & -> & ->). cbn [map filter fst snd].
  destruct (send_ok net s); cbn [negb map fst]; auto.
Qed.

Lemma get_map_values {K V : Type} `{EqDec K} (f : K -> V -> V)
    (d : PyDict.t K V) (k : K) :
  PyDict.get (map (fun e => (fst e, f (fst e) (snd e))) d) k
  = option_map (f k) (PyDict.get d k).
Proof.
  induction d as [|[k0 v0] d IH]; cbn; [reflexivity|].
  destruct (eq_dec k0 k) as [->|E]; [reflexivity|exact IH].
Qed.

Lemma keys_map_values {K V : Type} `{EqDec K} (f : K -> V -> V)
    (d : PyDict.t K V) :
  PyDict.keys (map (fun e => (fst e, f (fst e) (snd e))) d) = PyDict.keys d.
Proof.
  unfold PyDict.keys. rewrite map_map. reflexivity.
Qed.

Lemma filter_is_sendall_none (evs : list event) :
  (forall e, In e evs -> is_sendall e = false) -> filter is_sendall evs = [].
Proof.
  induction evs as [|e evs IH]; intros Hall; cbn; [reflexivity|].
  rewrite (Hall e) by now left. apply IH. intros e' Hin. apply Hall. now right.
Qed.

(** X11. One heartbeat turn writes the same empty HEARTBEAT packet once to
    every member, in registry order; afterwards the members are exactly
    those whose write succeeded, each with its [last_seen] set to the time of
    the turn, and those whose write failed are gone. *)
Theorem heartbeat_tick_members (net : Network) (m : ConnectionManager)
    (now : time) :
  PyDict.wf (control_clients m) ->
  exists heartbeat_packet,
    pack_message CMD_HEARTBEAT [] = Ok heartbeat_packet /\
    filter is_sendall (snd (heartbeat_tick net m now))
    = map (fun s => EvSendall s heartbeat_packet (send_ok net s))
          (PyDict.keys (control_clients m)) /\
    forall s,
      PyDict.get (control_clients (fst (heartbeat_tick net m now))) s
      = match PyDict.get (control_clients m) s with
        | Some info =>
            if send_ok net s then Some (with_last_seen info now) else None
        | None => None
        end.
Proof.
  intros Hwf. unfold heartbeat_tick.
  destruct (pack_message CMD_HEARTBEAT []) as [pk|e] eqn:Hpk;
    [|vm_compute in Hpk; discriminate].
  exists pk. split; [reflexivity|].
  pose proof (heartbeat_sends_spec net (PyDict.items (control_clients m)) pk now)
    as Hs.
  destruct (heartbeat_sends net (PyDict.items (control_clients m)) pk now)
    as [[items' to_remove] ev_send].
  destruct Hs as (Hitems & Hrem & Hev).
  set (f := fun (k : socket) (v : client_info) =>
              if send_ok net k then with_last_seen v now else v).
  assert (Hitems' : items' = map (fun e => (fst e, f (fst e) (snd e)))
                                 (control_clients m)) by exact Hitems.
  assert (Hwf' : PyDict.wf items').
  { unfold PyDict.wf. rewrite Hitems', keys_map_values. exact Hwf. }
  assert (Hall : forall s, In s to_remove
                   <-> PyDict.get items' s <> None /\ send_ok net s = false).
  { intros s. rewrite Hrem, Hitems', get_map_values. unfold PyDict.items.
    rewrite in_map_iff. split.
    - intros ([k v] & <- & Hin). apply filter_In in Hin as [Hin Hf]. cbn in *.
      rewrite (In_get _ _ _ Hwf Hin). split; [discriminate|].
      now apply negb_true_iff.
    - intros [Hg Hf]. destruct (PyDict.get (control_clients m) s) as [v|] eqn:E;
        [|contradiction].
      exists (s, v). split; [reflexivity|]. apply filter_In.
      split; [apply get_In, E|]. cbn. now rewrite Hf. }
  pose proof (fun k => remove_failed_all net to_remove (set_control m items') k
                         Hwf' Hall) as Hc.
  pose proof (fun e => remove_failed_no_sendall net to_remove (set_control m items') e)
    as Hns.
  destruct (remove_failed net (set_control m items') to_remove) as [m1 ev_remove].
  cbn [fst snd] in *. split.
  - rewrite filter_app, (filter_is_sendall_none ev_remove Hns), app_nil_r.
    rewrite Hev. unfold PyDict.items, PyDict.keys.
    generalize (control_clients m). intros d.
    induction d as [|[s i] d IH]; cbn; [reflexivity|]. now rewrite IH.
  - intros s. unfold _cleanup_stale_streams. cbn [control_clients set_stream].
    rewrite Hc. cbn [control_clients set_control].
    rewrite Hitems', get_map_values.
    destruct (PyDict.get (control_clients m) s) as [info|]; cbn;
      [|destruct (send_ok net s); reflexivity].
    unfold f. destruct (send_ok net s); reflexivity.
Qed.

Lemma heartbeat_tick_members_witness :
  PyDict.wf (control_clients video_meeting) /\
  PyDict.get (control_clients (fst (heartbeat_tick bob_unreachable video_meeting 40)))
    2%nat = None.
Proof.
  split; [exact video_meeting_control_wf|].
  destruct (heartbeat_tick_members bob_unreachable video_meeting 40
              video_meeting_control_wf) as (pk & _ & _ & Hget).
  etransitivity; [exact (Hget 2%nat)|]. vm_compute. reflexivity.
Defined.


(** ** Video fan-out *)

(** The video listeners of a well-formed registry are pairwise different. *)
Lemma video_listeners_NoDup (m : ConnectionManager) (room_id : option string) :
  stream_ok (stream_clients m) -> NoDup (get_video_listeners m room_id).
Proof.
  unfold get_video_listeners, PyDict.items, stream_ok, PyDict.wf.
  generalize (stream_clients m). intros sc.
  induction sc as [|[ip info] rest IH]; intros [Hwf Hok]; cbn; [constructor|].
  cbn in Hwf. inversion Hwf as [|? ? Hnin Hnd]; subst.
  assert (Hrest : NoDup (collect_listeners m video room_id rest)).
  { apply IH. split; [exact Hnd|]. intros ip' info' Hin. apply Hok. now right. }
  destruct (video info) as [a|] eqn:Ha; [|exact Hrest].
  destruct (match room_id with None => true | Some r => _ip_in_room m ip r end);
    [|exact Hrest].
  constructor; [|exact Hrest]. intros Hin.
  apply collect_listeners_In in Hin as (ip' & info' & Hin' & Ha').
  assert (fst a = ip) by (apply (proj1 (Hok ip info (or_introl eq_refl))), Ha).
  assert (fst a = ip')
    by (apply (proj1 (Hok ip' info' (or_intror Hin'))), Ha').
  apply Hnin. unfold PyDict.keys. apply in_map_iff. exists (ip', info').
  split; [cbn; congruence|exact Hin'].
Qed.

Lemma frame_fanout_events (net : Network) (frame_data : bytes)
    (sender_addr : address) (now : time) (L : list address)
    (m : ConnectionManager) :
  snd (frame_fanout net m frame_data sender_addr L now)
  = map (fun a => EvSendto a frame_data (sendto_ok net a))
        (filter (fun a => negb (eqb_of a sender_addr)) L).
Proof.
  revert m. induction L as [|a L IH]; intros m; cbn [frame_fanout filter];
    [reflexivity|].
  destruct (eqb_of a sender_addr); cbn [negb]; [apply IH|].
  specialize (IH (if sendto_ok net a then m
                  else unregister_stream m Video a now)).
  destruct (frame_fanout net _ frame_data sender_addr L now) as [m' evs].
  cbn [snd map] in *. now rewrite IH.
Qed.

Lemma frame_fanout_control (net : Network) (frame_data : bytes)
    (sender_addr : address) (now : time) (L : list address)
    (m : ConnectionManager) :
  control_clients (fst (frame_fanout net m frame_data sender_addr L now))
  = control_clients m.
Proof.
  revert m. induction L as [|a L IH]; intros m; cbn [frame_fanout];
    [reflexivity|].
  destruct (eqb_of a sender_addr); [apply IH|].
  specialize (IH (if sendto_ok net a then m
                  else unregister_stream m Video a now)).
  destruct (frame_fanout net _ frame_data sender_addr L now) as [m' evs].
  cbn [fst] in *. rewrite IH.
  destruct (sendto_ok net a); [reflexivity|apply unregister_stream_control].
Qed.

Lemma frame_fanout_stream_ok (net : Network) (frame_data : bytes)
    (sender_addr : address) (now : time) (L : list address)
    (m : ConnectionManager) :
  stream_ok (stream_clients m) ->
  stream_ok (stream_clients
               (fst (frame_fanout net m frame_data sender_addr L now))).
Proof.
  revert m. induction L as [|a L IH]; intros m Hok; cbn [frame_fanout];
    [exact Hok|].
  destruct (eqb_of a sender_addr); [apply IH, Hok|].
  specialize (IH (if sendto_ok net a then m
                  else unregister_stream m Video a now)).
  destruct (frame_fanout net _ frame_data sender_addr L now) as [m' evs].
  cbn [fst] in *. apply IH.
  destruct (sendto_ok net a); [exact Hok|apply unregister_stream_ok, Hok].
Qed.

Lemma unregister_stream_at (m : ConnectionManager) (st : stream_type)
    (key : address) (now : time) (ip : string) :
  stream_at st (unregister_stream m st key now) ip
  = if nonempty (fst key) && eqb_of ip (fst key) then None
    else stream_at st m ip.
Proof.
  destruct (nonempty (fst key)) eqn:Hne; cbn [andb].
  - destruct (eqb_of ip (fst key)) eqn:E.
    + apply eqb_of_true in E. subst ip. apply unregister_stream_at_same, Hne.
    + apply eqb_of_false in E. apply unregister_stream_at_other_ip, E.
  - unfold unregister_stream. rewrite Hne. reflexivity.
Qed.

(** The video address under an IP after the fan-out: gone when a listener at
    that IP other than the sender could not be written to. *)
Lemma frame_fanout_video_at (net : Network) (frame_data : bytes)
    (sender_addr : address) (now : time) (ip : string) (L : list address)
    (m : ConnectionManager) :
  stream_at Video (fst (frame_fanout net m frame_data sender_addr L now)) ip
  = if existsb (fun a => negb (eqb_of a sender_addr) && negb (sendto_ok net a)
                         && nonempty (fst a) && eqb_of ip (fst a)) L
    then None else stream_at Video m ip.
Proof.
  revert m. induction L as [|a L IH]; intros m; cbn [frame_fanout existsb];
    [reflexivity|].
  destruct (eqb_of a sender_addr); cbn [negb andb orb]; [apply IH|].
  specialize (IH (if sendto_ok net a then m
                  else unregister_stream m Video a now)).
  destruct (frame_fanout net _ frame_data sender_addr L now) as [m' evs].
  cbn [fst] in *. rewrite IH.
  destruct (existsb _ L); [now rewrite orb_true_r|]. rewrite orb_false_r.
  destruct (sendto_ok net a); cbn [negb andb]; [reflexivity|].
  apply unregister_stream_at.
Qed.

Lemma frame_fanout_audio_at (net : Network) (frame_data : bytes)
    (sender_addr : address) (now : time) (ip : string) (L : list address)
    (m : ConnectionManager) :
  stream_at Audio (fst (frame_fanout net m frame_data sender_addr L now)) ip
  = stream_at Audio m ip.
Proof.
  revert m. induction L as [|a L IH]; intros m; cbn [frame_fanout];
    [reflexivity|].
  destruct (eqb_of a sender_addr); [apply IH|].
  specialize (IH (if sendto_ok net a then m
                  else unregister_stream m Video a now)).
  destruct (frame_fanout net _ frame_data sender_addr L now) as [m' evs].
  cbn [fst] in *. rewrite IH.
  destruct (sendto_ok net a); [reflexivity|].
  exact (unregister_stream_at_other_kind m Video a now ip).
Qed.

Lemma NoDup_map_injective {A B : Type} (f : A -> B) (l : list A) :
  (forall x y, f x = f y -> x = y) -> NoDup l -> NoDup (map f l).
Proof.
  intros Hinj. induction 1 as [|x l Hnin Hnd IH]; cbn; constructor; [|exact IH].
  rewrite in_map_iff. intros (y & Hy & Hin). apply Hinj in Hy. now subst y.
Qed.

(** The datagrams of one [_broadcast_frame]. *)
Lemma broadcast_frame_sendto (net : Network) (m : ConnectionManager)
    (frame_data : bytes) (sender_addr : address) (now : time)
    (a : address) (pk : bytes) (ok : bool) :
  stream_ok (stream_clients m) ->
  (In (EvSendto a pk ok) (snd (_broadcast_frame net m frame_data sender_addr now))
   <-> pk = frame_data /\ ok = sendto_ok net a /\ a <> sender_addr /\
       stream_at Video m (fst a) = Some a /\
       _ip_in_room m (fst a) (get_room_by_ip m (fst sender_addr)) = true).
Proof.
  intros Hok. unfold _broadcast_frame. cbv zeta. rewrite frame_fanout_events.
  rewrite in_map_iff. split.
  - intros (b & [= -> -> ->] & Hin). apply filter_In in Hin as [Hin Hne].
    apply (listeners_spec Video m (Some (get_room_by_ip m (fst sender_addr))) a Hok)
      in Hin as [Hat Hroom].
    apply negb_true_iff, eqb_of_false in Hne. auto.
  - intros (-> & -> & Hne & Hat & Hroom). exists a. split; [reflexivity|].
    apply filter_In. split.
    + apply (listeners_spec Video m (Some (get_room_by_ip m (fst sender_addr)))
               a Hok). auto.
    + apply negb_true_iff, eqb_of_false, Hne.
Qed.

(** X12. A video datagram is forwarded unchanged, header included, to exactly
    the video listeners registered under an IP of a member of the sender's
    room, the sender's own address excepted; nothing else is sent, and no
    listener gets the datagram twice. *)
Theorem video_frame_recipients (net : Network) (m : ConnectionManager)
    (frame_data : bytes) (sender_addr : address) (now : time) :
  stream_ok (stream_clients m) ->
  let evs := snd (_broadcast_frame net m frame_data sender_addr now) in
  (forall a pk ok,
     In (EvSendto a pk ok) evs
     <-> pk = frame_data /\ ok = sendto_ok net a /\ a <> sender_addr /\
         stream_at Video m (fst a) = Some a /\
         _ip_in_room m (fst a) (get_room_by_ip m (fst sender_addr)) = true) /\
  (forall e, In e evs -> exists a, e = EvSendto a frame_data (sendto_ok net a)) /\
  NoDup evs.
Proof.
  intros Hok evs. split; [|split].
  - intros a pk ok. apply broadcast_frame_sendto, Hok.
  - intros e. unfold evs, _broadcast_frame. cbv zeta.
    rewrite frame_fanout_events, in_map_iff. intros (a & <- & _). eauto.
  - unfold evs, _broadcast_frame. cbv zeta. rewrite frame_fanout_events.
    apply NoDup_map_injective.
    + intros x y [= -> _]. reflexivity.
    + apply NoDup_filter, video_listeners_NoDup, Hok.
Qed.

Lemma video_frame_recipients_witness :
  stream_ok (stream_clients video_meeting) /\
  In (EvSendto ("10.0.0.2"%string, 7002) [x01; x0b] false)
     (snd (_broadcast_frame bob_unreachable video_meeting [x01; x0b]
             ("10.0.0.1"%string, 7001) 20)) /\
  ~ In (EvSendto ("10.0.0.4"%string, 7004) [x01; x0b] true)
       (snd (_broadcast_frame bob_unreachable video_meeting [x01; x0b]
               ("10.0.0.1"%string, 7001) 20)).
Proof.
  split; [exact video_meeting_stream_ok|].
  pose proof (proj1 (video_frame_recipients bob_unreachable video_meeting
                       [x01; x0b] ("10.0.0.1"%string, 7001) 20
                       video_meeting_stream_ok)) as H.
  split.
  - apply (proj2 (H ("10.0.0.2"%string, 7002) [x01; x0b] false)).
    split; [reflexivity|]. split; [reflexivity|].
    split; [discriminate|]. split; vm_compute; reflexivity.
  - intros Hin.
    apply (proj1 (H ("10.0.0.4"%string, 7004) [x01; x0b] true)) in Hin.
    destruct Hin as (_ & _ & _ & _ & Hroom). vm_compute in Hroom. discriminate.
Defined.

(** X13. After a video datagram has been forwarded, a video listener is
    still registered exactly when it was before and the write to it did not
    fail; the audio listeners and the TCP members are as before. *)
Theorem video_failed_listeners_dropped (net : Network) (m : ConnectionManager)
    (frame_data : bytes) (sender_addr : address) (now : time) :
  stream_ok (stream_clients m) ->
  let m' := fst (_broadcast_frame net m frame_data sender_addr now) in
  let evs := snd (_broadcast_frame net m frame_data sender_addr now) in
  control_clients m' = control_clients m /\
  (forall a, nonempty (fst a) = true ->
     (In a (listeners Video m' None)
      <-> In a (listeners Video m None) /\
          ~ In (EvSendto a frame_data false) evs)) /\
  (forall a room_id,
     In a (listeners Audio m' room_id) <-> In a (listeners Audio m room_id)).
Proof.
  intros Hok m' evs.
  assert (Hc : control_clients m' = control_clients m)
    by apply frame_fanout_control.
  assert (Hok' : stream_ok (stream_clients m'))
    by (apply frame_fanout_stream_ok, Hok).
  split; [exact Hc|]. split.
  - intros a Hne. rewrite !listeners_spec by assumption. cbn [passes_room].
    unfold m', evs. rewrite broadcast_frame_sendto by exact Hok.
    unfold _broadcast_frame. cbv zeta. rewrite frame_fanout_video_at.
    set (L := get_video_listeners m (Some (get_room_by_ip m (fst sender_addr)))).
    destruct (existsb _ L) eqn:Hex.
    + split; [intros [? _]; discriminate|].
      intros [[Hat _] Hnot]. exfalso. apply Hnot.
      apply existsb_exists in Hex as (b & Hin & Hb).
      apply andb_true_iff in Hb as [Hb Hip].
      apply andb_true_iff in Hb as [Hb _].
      apply andb_true_iff in Hb as [Hsender Hfail].
      apply eqb_of_true in Hip.
      apply (listeners_spec Video m
               (Some (get_room_by_ip m (fst sender_addr))) b Hok)
        in Hin as [Hatb Hroom].
      assert (b = a) by (rewrite <- Hip, Hat in Hatb; congruence). subst b.
      apply negb_true_iff in Hfail. apply negb_true_iff, eqb_of_false in Hsender.
      cbn [passes_room] in Hroom. auto.
    + split; [intros [Hat _]; split; [auto|]|intros [[Hat _] _]; auto].
      intros (_ & Hfail & Hsender & _ & Hroom).
      assert (Hin : In a L).
      { apply (listeners_spec Video m
                 (Some (get_room_by_ip m (fst sender_addr))) a Hok). auto. }
      assert (Hall : forall b, In b L ->
                (negb (eqb_of b sender_addr) && negb (sendto_ok net b)
                 && nonempty (fst b) && eqb_of (fst a) (fst b)) = false).
      { intros b Hb. destruct (_ && _) eqn:Hv; [|reflexivity].
        assert (existsb (fun a0 => negb (eqb_of a0 sender_addr)
                                   && negb (sendto_ok net a0)
                                   && nonempty (fst a0) && eqb_of (fst a) (fst a0))
                 L = true) by (apply existsb_exists; eauto).
        congruence. }
      specialize (Hall a Hin).
      rewrite <- Hfail, Hne, eqb_of_refl in Hall. cbn [negb] in Hall.
      rewrite !andb_true_r in Hall.
      apply negb_false_iff, eqb_of_true in Hall. contradiction.
  - intros a room_id. rewrite !listeners_spec by assumption.
    unfold m', _broadcast_frame. cbv zeta. rewrite frame_fanout_audio_at.
    rewrite (passes_room_control _ m room_id (fst a)
               (frame_fanout_control net frame_data sender_addr now _ m)).
    tauto.
Qed.

Lemma video_failed_listeners_dropped_witness :
  stream_ok (stream_clients video_meeting) /\
  nonempty "10.0.0.2"%string = true /\
  ~ In ("10.0.0.2"%string, 7002)
       (listeners Video
          (fst (_broadcast_frame bob_unreachable video_meeting [x01; x0b]
                  ("10.0.0.1"%string, 7001) 20)) None).
Proof.
  split; [exact video_meeting_stream_ok|]. split; [reflexivity|].
  intros Hin.
  destruct (proj1 (proj1 (proj2 (video_failed_listeners_dropped bob_unreachable
                                   video_meeting [x01; x0b]
                                   ("10.0.0.1"%string, 7001) 20
                                   video_meeting_stream_ok))
                     ("10.0.0.2"%string, 7002) eq_refl) Hin) as [_ Hnot].
  apply Hnot. vm_compute. left. reflexivity.
Defined.


(** ** Private chat: who is addressed *)

Section ChatRecipients.
Context {rt : PyRuntime}.
Variable net : Network.





(** ** Chat: recipients that cannot be written to *)

Lemma remove_failed_events (failed : list socket) (m : ConnectionManager) :
  PyDict.wf (control_clients m) ->
  forall k, PyDict.get (control_clients m) k <> None ->
    PyDict.get (control_clients (fst (remove_failed net m failed))) k = None ->
    In (EvClose k) (snd (remove_failed net m failed)).
Proof.
  intros Hwf. rewrite remove_failed_eq.
  apply (remove_each_events net (remove_client net) (remove_client_registry net)
           (remove_client_events net)). exact Hwf.
Qed.

(** X15. Relaying a chat packet also prunes the registry: a recipient whose
    write fails is removed from [control_clients]. The removals broadcast the
    user list, which can take out further members, but only ones that cannot
    be written to: a member that can be written to stays as it was, and
    nothing is added or altered. The socket of every member that is removed
    is closed. *)
Theorem failed_recipients_are_deregistered (h : TCPHandler)
    (m : ConnectionManager) (targets : list socket) (chat_packet : bytes)
    (delivery_status : string) (now : time) :
  PyDict.wf (control_clients m) ->
  let out := _send_to_targets net h m targets chat_packet delivery_status now in
  (forall s, In s targets -> send_ok net s = false ->
     PyDict.get (control_clients (fst (fst out))) s = None) /\
  (forall s, send_ok net s = true ->
     PyDict.get (control_clients (fst (fst out))) s
     = PyDict.get (control_clients m) s) /\
  (forall s info, PyDict.get (control_clients (fst (fst out))) s = Some info ->
     PyDict.get (control_clients m) s = Some info) /\
  (forall s, PyDict.get (control_clients m) s <> None ->
     PyDict.get (control_clients (fst (fst out))) s = None ->
     In (EvClose s) (snd (fst out))).
Proof.
  intros Hwf out. unfold out, _send_to_targets.
  pose proof (send_loop_counts net targets chat_packet) as Hcount.
  destruct (send_loop net targets chat_packet) as [[[sent failed] fs] ev_send].
  destruct Hcount as (_ & _ & Hfs).
  destruct (remove_failed_registry net fs m Hwf)
    as (_ & _ & Hgone & Honly & Hkeep & _).
  pose proof (remove_failed_events fs m Hwf) as Hclose.
  destruct (remove_failed net m fs) as [m' ev_remove]. cbn [fst snd] in *.
  assert (Hev : forall s, PyDict.get (control_clients m) s <> None ->
            PyDict.get (control_clients m') s = None ->
            In (EvClose s)
               (ev_send ++ ev_remove
                ++ match chat_packet_of
                           (confirm_message h delivery_status sent failed now) with
                   | Ok confirm_packet =>
                       [EvSendall (h_sock h) confirm_packet (send_ok net (h_sock h))]
                   | Raise _ => []
                   end)).
  { intros s Hreg Hnone. apply in_or_app. right. apply in_or_app. left. auto. }
  assert (Hm : (forall s, In s targets -> send_ok net s = false ->
                  PyDict.get (control_clients m') s = None) /\
               (forall s, send_ok net s = true ->
                  PyDict.get (control_clients m') s
                  = PyDict.get (control_clients m) s)).
  { split.
    - intros s Hin Hfail. apply Hgone. rewrite Hfs. apply filter_In.
      split; [exact Hin|]. now rewrite Hfail.
    - intros s Hok. apply Hkeep; [|exact Hok]. rewrite Hfs. intros Hin.
      apply filter_In in Hin as [_ Hf]. rewrite Hok in Hf. discriminate. }
  destruct Hm as [Hm1 Hm2].
  destruct (chat_packet_of _) as [confirm_packet|e]; cbn [fst snd];
    repeat split; auto.
  intros s Hreg Hnone. specialize (Hev s Hreg Hnone). now rewrite app_nil_r in Hev.
Qed.

End ChatRecipients.


Lemma failed_recipients_are_deregistered_witness :
  PyDict.wf (control_clients video_meeting) /\
  In 2%nat [2%nat; 3%nat] /\ send_ok bob_unreachable 2%nat = false /\
  PyDict.get
    (control_clients
       (fst (fst (@_send_to_targets example_runtime bob_unreachable
                    alice_handler video_meeting [2%nat; 3%nat] [x01]
                    "broadcast to 2 recipients" 5))))
    2%nat = None.
Proof.
  split; [exact video_meeting_control_wf|].
  split; [now left|]. split; [reflexivity|].
  exact (proj1 (@failed_recipients_are_deregistered example_runtime
                  bob_unreachable alice_handler video_meeting
                  [2%nat; 3%nat] [x01] "broadcast to 2 recipients" 5
                  video_meeting_control_wf) 2%nat (or_introl eq_refl) eq_refl).
Defined.


(** ** Audio: jitter buffers *)

Lemma deque_append_length (buffer : list bytes) (x : bytes) :
  (List.length buffer <= 10)%nat ->
  (List.length (deque_append buffer x) <= 10)%nat.
Proof.
  intros Hb. unfold deque_append.
  destruct (10 <=? List.length buffer)%nat eqn:E.
  - apply Nat.leb_le in E. rewrite length_app. cbn [List.length].
    destruct buffer; cbn [tl List.length] in *; lia.
  - apply Nat.leb_gt in E. rewrite length_app. cbn [List.length]. lia.
Qed.

Lemma pop_chunks_In (buffers : list (address * list bytes)) (key : address)
    (buffer : list bytes) :
  In (key, buffer) (fst (pop_chunks buffers)) ->
  exists before, In (key, before) buffers /\
                 (List.length buffer <= List.length before)%nat.
Proof.
  induction buffers as [|[k b] rest IH]; cbn [pop_chunks]; [intros []|].
  destruct (pop_chunks rest) as [rest' chunks]. cbn [fst] in IH.
  destruct b as [|chunk b']; cbn [fst]; intros [[= <- <-]|Hin].
  - exists []. split; [now left|lia].
  - destruct (IH Hin) as (before & Hb & Hl). exists before. split; [now right|lia].
  - exists (chunk :: b'). split; [now left|cbn; lia].
  - destruct (IH Hin) as (before & Hb & Hl). exists before. split; [now right|lia].
Qed.

Lemma fold_del_present_In {K V : Type} `{EqDec K} (removed : list K)
    (d : PyDict.t K V) (x : K * V) :
  In x (fold_left (fun bs key => if PyDict.mem bs key then PyDict.del bs key else bs)
          removed d) ->
  In x d.
Proof.
  revert d. induction removed as [|k rest IH]; intros d; cbn [fold_left]; [auto|].
  intros Hin. apply IH in Hin. destruct (PyDict.mem d k); [|exact Hin].
  eapply In_del, Hin.
Qed.

Lemma cleanup_stale_clients_buffers_In (a : UDPAudioServer)
    (m : ConnectionManager) (now : time) (x : address * list bytes) :
  In x (audio_buffers (fst (_cleanup_stale_clients a m now))) ->
  In x (audio_buffers a).
Proof.
  unfold _cleanup_stale_clients. cbv zeta.
  destruct (split_stale (PyDict.items (last_seen a)) (now - CLIENT_TIMEOUT))
    as [removed kept].
  cbn [fst audio_buffers]. apply fold_del_present_In.
Qed.

Section AudioBuffers.
Context {rt : PyRuntime}.

(** X16. The jitter buffers stay bounded: when every buffer holds at most
    ten chunks, this is still so after any received datagram and after any
    turn of the mixer. An audio datagram is appended to the buffer of its
    source address as the newest chunk, and the oldest chunk makes room
    exactly when the buffer was full. *)
Theorem audio_buffers_stay_bounded (a : UDPAudioServer) (m : ConnectionManager) :
  buffers_bounded a ->
  (forall data sender_addr now a' m',
     audio_receive a m data sender_addr now = Some (a', m') ->
     buffers_bounded a') /\
  (forall net now,
     buffers_bounded (fst (fst (fst (mixer_tick net a m now))))) /\
  (forall data sender_addr now a' m' version seq_num payload_length payload,
     audio_receive a m data sender_addr now = Some (a', m') ->
     unpack_message data
     = Ok (version, STREAM_AUDIO, payload_length, seq_num, payload) ->
     let before :=
       match PyDict.get (audio_buffers a) sender_addr with
       | Some b => b
       | None => []
       end in
     PyDict.get (audio_buffers a') sender_addr
     = Some ((if (List.length before =? 10)%nat then tl before else before)
             ++ [payload])).
Proof.
  intros Hb. split; [|split].
  - intros data sender_addr now a' m'. unfold audio_receive, _handle_incoming_chunk.
    destruct (unpack_message data) as [[[[[v t] l] sq] payload]|e];
      [|intros [= <- _]; exact Hb].
    destruct (t =? STREAM_AUDIO).
    + intros [= <- _]. intros key buffer Hin. cbn [audio_buffers] in Hin.
      apply In_set in Hin as [[= -> ->]|Hin]; [|exact (Hb _ _ Hin)].
      apply deque_append_length.
      destruct (PyDict.get (audio_buffers a) sender_addr) as [b|] eqn:Hg;
        [|cbn; lia].
      exact (Hb _ _ (get_In _ _ _ Hg)).
    + destruct (t =? CMD_REGISTER); [|intros [= <- _]; exact Hb].
      destruct (decode_udp_register payload) as [[|u r]|]; [| |discriminate];
        intros [= <- _]; exact Hb.
  - intros net now. unfold mixer_tick.
    pose proof (pop_chunks_In (PyDict.items (audio_buffers a))) as Hpop.
    destruct (pop_chunks (PyDict.items (audio_buffers a))) as [buffers chunks].
    cbn [fst] in Hpop.
    assert (Hpopped : buffers_bounded (mk_audio_server buffers (last_seen a))).
    { intros key buffer Hin. destruct (Hpop key buffer Hin) as (before & Hin' & Hl).
      pose proof (Hb _ _ Hin'). lia. }
    assert (Hclean : forall m0,
              buffers_bounded
                (fst (_cleanup_stale_clients
                        (mk_audio_server buffers (last_seen a)) m0 now))).
    { intros m0 key buffer Hin. apply cleanup_stale_clients_buffers_In in Hin.
      exact (Hpopped _ _ Hin). }
    destruct chunks as [|c chunks].
    + specialize (Hclean m).
      destruct (_cleanup_stale_clients _ m now) as [a1 m1]. exact Hclean.
    + destruct (mix_fanout net m (c :: chunks) (get_audio_listeners m None) now)
        as [[m1 evs] [u|e]]; [|exact Hpopped].
      specialize (Hclean m1).
      destruct (_cleanup_stale_clients _ m1 now) as [a2 m2]. exact Hclean.
  - intros data sender_addr now a' m' version seq_num payload_length payload.
    unfold audio_receive, _handle_incoming_chunk. intros Hrecv Hun.
    rewrite Hun in Hrecv. rewrite Z.eqb_refl in Hrecv.
    injection Hrecv as <- _. cbn [audio_buffers]. rewrite get_set_same.
    unfold deque_append. f_equal.
    destruct (PyDict.get (audio_buffers a) sender_addr) as [b|] eqn:Hg;
      [|reflexivity].
    pose proof (Hb _ _ (get_In _ _ _ Hg)) as Hl.
    destruct (10 <=? List.length b)%nat eqn:E.
    + apply Nat.leb_le in E. replace (List.length b =? 10)%nat with true;
        [reflexivity|]. symmetry. apply Nat.eqb_eq. lia.
    + apply Nat.leb_gt in E. replace (List.length b =? 10)%nat with false;
        [reflexivity|]. symmetry. apply Nat.eqb_neq. lia.
Qed.

End AudioBuffers.

Lemma two_sources_bounded : buffers_bounded two_sources.
Proof.
  intros key buffer [[= <- <-]|[[= <- <-]|[]]]; cbn; lia.
Qed.

Lemma audio_buffers_stay_bounded_witness :
  buffers_bounded two_sources /\
  buffers_bounded
    (fst (fst (fst (@mixer_tick example_runtime good_network two_sources
                      two_sources_manager 9500)))).
Proof.
  split; [exact two_sources_bounded|].
  exact (proj1 (proj2 (@audio_buffers_stay_bounded example_runtime two_sources
                         two_sources_manager two_sources_bounded))
           good_network 9500).
Defined.

(** ** Audio: sources that went silent *)

Lemma split_stale_spec (seen : list (address * time)) (cutoff : time) :
  split_stale seen cutoff
  = (map fst (filter (fun e => snd e <? cutoff) seen),
     filter (fun e => negb (snd e <? cutoff)) seen).
Proof.
  induction seen as [|[key ts] rest IH]; cbn [split_stale filter map snd];
    [reflexivity|].
  rewrite IH. destruct (ts <? cutoff); reflexivity.
Qed.

Lemma get_filter {K V : Type} `{EqDec K} (p : K * V -> bool) (d : PyDict.t K V)
    (k : K) :
  PyDict.wf d ->
  PyDict.get (filter p d) k
  = match PyDict.get d k with
    | Some v => if p (k, v) then Some v else None
    | None => None
    end.
Proof.
  unfold PyDict.wf. induction d as [|[k0 v0] d IH]; cbn; [reflexivity|].
  intros Hwf. inversion Hwf as [|? ? Hnin Hnd]; subst. specialize (IH Hnd).
  destruct (eq_dec k0 k) as [E|E].
  - subst k0. apply get_None_keys in Hnin. rewrite Hnin in IH.
    destruct (p (k, v0)); cbn.
    + destruct (eq_dec k k); [reflexivity|contradiction].
    + exact IH.
  - destruct (p (k0, v0)); cbn; [|exact IH].
    destruct (eq_dec k0 k); [contradiction|exact IH].
Qed.

Lemma fold_del_present {K V : Type} `{EqDec K} (removed : list K)
    (d : PyDict.t K V) :
  fold_left (fun bs key => if PyDict.mem bs key then PyDict.del bs key else bs)
    removed d
  = fold_left (fun bs key => PyDict.del bs key) removed d.
Proof.
  revert d. induction removed as [|k rest IH]; intros d; cbn [fold_left];
    [reflexivity|].
  destruct (PyDict.mem d k) eqn:Hm; [apply IH|].
  unfold PyDict.mem in Hm.
  destruct (PyDict.get d k) eqn:Hg; [discriminate|].
  rewrite (del_absent d k Hg). apply IH.
Qed.

Lemma fold_unregister_audio_at (now : time) (ip : string)
    (removed : list address) (m : ConnectionManager) :
  stream_at Audio
    (fold_left (fun m key => unregister_stream m Audio key now) removed m) ip
  = if existsb (fun key => nonempty (fst key) && eqb_of ip (fst key)) removed
    then None else stream_at Audio m ip.
Proof.
  revert m. induction removed as [|key rest IH]; intros m;
    cbn [fold_left existsb]; [reflexivity|].
  rewrite IH.
  match goal with
  | |- context [existsb ?f rest] => destruct (existsb f rest)
  end; [now rewrite orb_true_r|].
  rewrite orb_false_r. apply unregister_stream_at.
Qed.

(** X17. [_cleanup_stale_clients] forgets exactly the sources last heard more
    than [CLIENT_TIMEOUT] before [now]: their [last_seen] entry and their
    buffer are deleted and the audio listener filed under their IP is
    unregistered, whatever its port; the entries and buffers of the other
    sources are untouched. *)
Theorem stale_audio_sources_dropped (a : UDPAudioServer) (m : ConnectionManager)
    (now : time) :
  PyDict.wf (last_seen a) -> PyDict.wf (audio_buffers a) ->
  let a' := fst (_cleanup_stale_clients a m now) in
  let m' := snd (_cleanup_stale_clients a m now) in
  (forall key,
     PyDict.get (last_seen a') key
     = if stale_source a now key then None else PyDict.get (last_seen a) key) /\
  (forall key,
     PyDict.get (audio_buffers a') key
     = if stale_source a now key then None
       else PyDict.get (audio_buffers a) key) /\
  (forall key, stale_source a now key = true -> nonempty (fst key) = true ->
     stream_at Audio m' (fst key) = None) /\
  control_clients m' = control_clients m.
Proof.
  intros Hseen Hbuf a' m'. unfold a', m', _cleanup_stale_clients. clear a' m'.
  cbv zeta.
  rewrite split_stale_spec. cbn [fst snd last_seen audio_buffers].
  unfold PyDict.items.
  assert (Hremoved : forall key,
            existsb (eqb_of key)
              (map fst (filter (fun e => snd e <? now - CLIENT_TIMEOUT)
                          (last_seen a)))
            = stale_source a now key).
  { intros key.
    rewrite (existsb_filter_keys (fun e => snd e <? now - CLIENT_TIMEOUT)
               (last_seen a) key Hseen).
    unfold stale_source. reflexivity. }
  split; [|split; [|split]].
  - intros key. rewrite get_filter by exact Hseen. unfold stale_source.
    destruct (PyDict.get (last_seen a) key) as [ts|]; [|reflexivity].
    cbn [snd]. destruct (ts <? now - CLIENT_TIMEOUT); reflexivity.
  - intros key. rewrite fold_del_present, get_fold_del by exact Hbuf.
    now rewrite Hremoved.
  - intros key Hstale Hne. rewrite fold_unregister_audio_at.
    replace (existsb _ _) with true; [reflexivity|]. symmetry.
    rewrite <- Hremoved in Hstale.
    apply existsb_exists in Hstale as (k & Hin & Hk).
    apply eqb_of_true in Hk. subst k.
    apply existsb_exists. exists key. split; [exact Hin|].
    now rewrite Hne, eqb_of_refl.
  - generalize (map fst (filter (fun e => snd e <? now - CLIENT_TIMEOUT)
                           (last_seen a))).
    intros removed. revert m. induction removed as [|k rest IH]; intros m;
      cbn [fold_left]; [reflexivity|].
    rewrite IH. apply unregister_stream_control.
Qed.

Lemma stale_audio_sources_dropped_witness :
  PyDict.wf (last_seen two_sources) /\ PyDict.wf (audio_buffers two_sources) /\
  PyDict.get
    (audio_buffers (fst (_cleanup_stale_clients two_sources two_sources_manager
                           9500)))
    ("10.0.0.1"%string, 6001) = None.
Proof.
  assert (Hseen : PyDict.wf (last_seen two_sources)).
  { vm_compute. repeat (constructor; [cbn; intuition discriminate|]). constructor. }
  assert (Hbuf : PyDict.wf (audio_buffers two_sources)).
  { vm_compute. repeat (constructor; [cbn; intuition discriminate|]). constructor. }
  split; [exact Hseen|]. split; [exact Hbuf|].
  etransitivity;
    [exact (proj1 (proj2 (stale_audio_sources_dropped two_sources
                            two_sources_manager 9500 Hseen Hbuf))
              ("10.0.0.1"%string, 6001))|].
  vm_compute. reflexivity.
Defined.


(** ** File transfer *)


Lemma safe_reply_type (msg_type : Z) (payload packet : bytes) :
  In packet (replies (safe_reply msg_type payload)) ->
  reply_type packet = Some msg_type.
Proof.
  unfold safe_reply.
  destruct (pack_message msg_type payload) as [pk|e] eqn:Hp; cbn; [|intros []].
  intros [<-|[]]. unfold reply_type. now rewrite (pack_then_unpack _ _ _ Hp).
Qed.

Lemma safe_reply_quiet (msg_type : Z) (payload : bytes) :
  storage_ops (safe_reply msg_type payload) = [] /\
  notices (safe_reply msg_type payload) = [] /\
  written (safe_reply msg_type payload) = [].
Proof.
  unfold safe_reply. destruct (pack_message msg_type payload); cbn; auto.
Qed.





Section FileTransfers.
Context {rt : PyRuntime}.




(** X20. An upload request is refused before the storage is touched when
    its metadata cannot be read, its filename is empty, its declared size is
    not positive or exceeds MAX_FILE_SIZE, or its resolved path fails the
    prefix test: the storage is as before, no file is opened, nobody is
    notified, and whatever is replied is a FILE_ACK_FAILURE. *)
Theorem rejected_upload_untouched (net : Network) (host : Host) (fh : FileHandler)
    (srv : SaporaServer) (fs : filesystem) (payload : bytes)
    (incoming : list recv) (now : time) :
  (forall e, unpack_file_metadata payload = Raise e ->
     upload_refused fs
       (_handle_upload_request net host fh srv fs payload incoming now)) /\
  (forall filename filesize checksum target,
     upload_request payload filename filesize checksum target ->
     filename = ""%string \/ filesize <= 0 \/ MAX_FILE_SIZE < filesize \/
     path_check (fh_cwd fh) (resolve_in_storage (fh_cwd fh) filename) = false ->
     upload_refused fs
       (_handle_upload_request net host fh srv fs payload incoming now)).
Proof.
  assert (Hrefuse : forall reason,
            upload_refused fs
              (fs, safe_reply FILE_ACK_FAILURE (encode reason), None)).
  { intros reason. unfold upload_refused. cbn [fst snd].
    destruct (safe_reply_quiet FILE_ACK_FAILURE (encode reason)) as (Hs & Hn & _).
    repeat split; auto. intros packet Hin. eapply safe_reply_type, Hin. }
  split.
  - intros e He. unfold _handle_upload_request. rewrite He. cbn [bind].
    apply Hrefuse.
  - intros filename filesize checksum target
      (metadata & Hun & Hf & Hs & Hc & Ht) Hbad.
    unfold _handle_upload_request. rewrite Hun. cbn [bind]. rewrite Hs.
    cbn [bind]. rewrite Hf.
    destruct (negb (json_truthy (JStr filename)) || (filesize <=? 0)) eqn:B1;
      [apply Hrefuse|].
    destruct (filesize >? MAX_FILE_SIZE) eqn:B2; [apply Hrefuse|].
    destruct (path_check (fh_cwd fh) (resolve_in_storage (fh_cwd fh) filename))
      eqn:B3; cbn [negb]; [exfalso|apply Hrefuse].
    apply orb_false_iff in B1 as [B1 B1'].
    apply Z.leb_gt in B1'. rewrite Z.gtb_ltb in B2. apply Z.ltb_ge in B2.
    destruct Hbad as [->|[Hbad|[Hbad|Hbad]]]; try lia; discriminate.
Qed.


End FileTransfers.





Lemma rejected_upload_untouched_witness :
  exists e,
    @unpack_file_metadata example_runtime (encode "x") = Raise e /\
    upload_refused stored_report
      (@_handle_upload_request example_runtime good_network plain_host
         storage_handler meeting_server stored_report (encode "x") [] 5).
Proof.
  destruct (@unpack_file_metadata example_runtime (encode "x")) as [md|e] eqn:H;
    [vm_compute in H; discriminate|].
  exists e. split; [reflexivity|].
  exact (proj1 (@rejected_upload_untouched example_runtime good_network plain_host
                  storage_handler meeting_server stored_report (encode "x")
                  [] 5) e H).
Defined.



(** ** The session of a TCP member *)

Lemma update_client_status_wf (m : ConnectionManager) (s : socket)
    (username room_id : option string) (now : time) :
  PyDict.wf (control_clients m) ->
  PyDict.wf (control_clients
               (fst (fst (update_client_status m s username room_id now)))).
Proof.
  intros Hwf. unfold update_client_status.
  destruct (PyDict.get (control_clients m) s); cbv zeta;
    cbn [fst control_clients set_control]; [apply wf_set|]; exact Hwf.
Qed.

Lemma set_client_room_wf (m : ConnectionManager) (s : socket) (room_id : string) :
  PyDict.wf (control_clients m) ->
  PyDict.wf (control_clients (fst (set_client_room m s room_id))).
Proof.
  intros Hwf. unfold set_client_room.
  destruct (PyDict.get (control_clients m) s);
    cbn [fst control_clients set_control]; [apply wf_set|]; exact Hwf.
Qed.

Lemma handle_register_frame (h : TCPHandler) (srv : SaporaServer)
    (reg : register_payload) (now : time) :
  let out := _handle_register h srv reg now in
  h_sock (fst (fst out)) = h_sock h /\
  h_running (fst (fst out)) = h_running h /\
  h_server (fst (fst out)) = h_server h /\
  (PyDict.wf (control_clients (manager srv)) ->
   PyDict.wf (control_clients (manager (snd (fst out))))).
Proof.
  unfold _handle_register. destruct reg as [|username meeting_id]; [cbn; auto|].
  cbv zeta. cbn [h_sock h_server h_running].
  set (u := match username with Some u => u | None => _ end).
  set (mid := match meeting_id with Some r => r | None => _ end).
  pose proof (update_client_status_wf (manager srv) (h_sock h) (Some u) None now)
    as H1.
  destruct (update_client_status (manager srv) (h_sock h) (Some u) None now)
    as [[m1 ev1] b]. cbn [fst] in H1.
  pose proof (set_client_room_wf m1 (h_sock h) mid) as H2.
  destruct (set_client_room m1 (h_sock h) mid) as [m2 ev2]. cbn [fst] in H2.
  destruct (h_server h); cbn; repeat split; auto.
Qed.

Section Session.
Context {rt : PyRuntime}.
Variable net : Network.

Lemma send_to_targets_wf (h : TCPHandler) (m : ConnectionManager)
    (targets : list socket) (chat_packet : bytes) (delivery_status : string)
    (now : time) :
  PyDict.wf (control_clients m) ->
  PyDict.wf (control_clients
               (fst (fst (_send_to_targets net h m targets chat_packet
                            delivery_status now)))).
Proof.
  intros Hwf. unfold _send_to_targets.
  destruct (send_loop net targets chat_packet) as [[[sent failed] fs] ev_send].
  pose proof (proj1 (remove_failed_registry net fs m Hwf)) as Hc.
  destruct (remove_failed net m fs) as [m' ev_remove]. cbn [fst] in Hc.
  destruct (chat_packet_of _); cbn [fst]; exact Hc.
Qed.

Lemma handle_chat_wf (h : TCPHandler) (srv : SaporaServer) (payload : bytes)
    (now : time) :
  PyDict.wf (control_clients (manager srv)) ->
  PyDict.wf (control_clients
               (manager (fst (_handle_chat net h srv payload now)))).
Proof.
  intros Hwf. unfold _handle_chat, chat_body.
  destruct (prepare_chat h payload now) as [[pkt tv]|e]; [|exact Hwf].
  destruct (negb (h_server h)).
  - pose proof (send_to_targets_wf h (manager srv)
                  (filter (fun s => negb (eqb_of s (h_sock h)))
                     (PyDict.keys (control_clients (manager srv))))
                  pkt (py_str tv) now Hwf) as H.
    destruct (_send_to_targets _ _ _ _ _ _ _) as [[m evs] res]. exact H.
  - destruct (PyDict.get (rooms srv) (h_meeting_id h)) as [r|].
    + destruct (route_chat net h r tv now) as [targets status|pkt'|e];
        try exact Hwf.
      pose proof (send_to_targets_wf h (manager srv) targets pkt status now Hwf)
        as H.
      destruct (_send_to_targets _ _ _ _ _ _ _) as [[m evs] res]. exact H.
    + destruct (chat_packet_of _); exact Hwf.
Qed.

Lemma handle_chat_client_rooms (h : TCPHandler) (srv : SaporaServer)
    (payload : bytes) (now : time) :
  client_rooms (fst (_handle_chat net h srv payload now)) = client_rooms srv.
Proof.
  unfold _handle_chat, chat_body.
  destruct (prepare_chat h payload now) as [[pkt tv]|e]; [|reflexivity].
  destruct (negb (h_server h)).
  - destruct (_send_to_targets _ _ _ _ _ _ _) as [[m evs] res]. reflexivity.
  - destruct (PyDict.get (rooms srv) (h_meeting_id h)) as [r|].
    + destruct (route_chat net h r tv now) as [targets status|pkt'|e];
        try reflexivity.
      destruct (_send_to_targets _ _ _ _ _ _ _) as [[m evs] res]. reflexivity.
    + destruct (chat_packet_of _); reflexivity.
Qed.

Lemma handle_message_frame (h : TCPHandler) (srv : SaporaServer) (raw : bytes)
    (now : time) (h' : TCPHandler) (srv' : SaporaServer) (evs : list event)
    (go : bool) :
  handle_message net h srv raw now = Some (h', srv', evs, go) ->
  h_sock h' = h_sock h /\ h_running h' = h_running h /\
  (PyDict.wf (control_clients (manager srv)) ->
   PyDict.wf (control_clients (manager srv'))).
Proof.
  unfold handle_message.
  destruct (unpack_message raw) as [[[[[v t] l] sq] payload]|e];
    [|intros [= <- <- _ _]; auto].
  pose proof (update_client_status_wf (manager srv) (h_sock h) None None now)
    as Htouch.
  destruct (update_client_status (manager srv) (h_sock h) None None now)
    as [[m ev0] b]. cbn [fst] in Htouch.
  destruct (t =? CMD_REGISTER).
  - destruct (decode_register payload) as [reg|]; [|discriminate].
    pose proof (handle_register_frame h (set_manager srv m) reg now) as Hreg.
    destruct (_handle_register h (set_manager srv m) reg now) as [[h1 srv1] ev1].
    cbn [fst snd manager set_manager] in Hreg.
    destruct Hreg as (Hs & Hr & _ & Hw). intros [= <- <- _ _]. auto.
  - destruct (t =? MSG_CHAT).
    + pose proof (handle_chat_wf h (set_manager srv m) payload now) as Hchat.
      destruct (_handle_chat net h (set_manager srv m) payload now) as [srv1 ev1].
      cbn [fst manager set_manager] in Hchat. intros [= <- <- _ _]. auto.
    + destruct (t =? CMD_HEARTBEAT); [intros [= <- <- _ _]; auto|].
      destruct (t =? CMD_DISCONNECT); intros [= <- <- _ _]; auto.
Qed.

Lemma run_loop_frame (incoming : list (recv * time)) (h : TCPHandler)
    (srv : SaporaServer) (h' : TCPHandler) (srv' : SaporaServer)
    (evs : list event) :
  run_loop net h srv incoming = Some (h', srv', evs) ->
  h_sock h' = h_sock h /\ h_running h' = h_running h /\
  (PyDict.wf (control_clients (manager srv)) ->
   PyDict.wf (control_clients (manager srv'))).
Proof.
  revert h srv h' srv' evs.
  induction incoming as [|[r now] rest IH]; intros h srv h' srv' evs;
    cbn [run_loop].
  - destruct (negb (h_running h)); intros [= <- <- _]; auto.
  - destruct (negb (h_running h)); [intros [= <- <- _]; auto|].
    destruct r as [| |raw]; [intros [= <- <- _]; auto|apply IH|].
    destruct raw as [|b raw]; [intros [= <- <- _]; auto|].
    destruct (handle_message net h srv (b :: raw) now)
      as [[[[h1 srv1] ev1] go]|] eqn:Hm; [|discriminate].
    destruct (handle_message_frame _ _ _ _ _ _ _ _ Hm) as (Hs & Hr & Hw).
    destruct go.
    + destruct (run_loop net h1 srv1 rest) as [[[h2 srv2] ev2]|] eqn:Hl;
        [|discriminate].
      destruct (IH _ _ _ _ _ Hl) as (Hs' & Hr' & Hw').
      intros [= <- <- _]. repeat split; try congruence. auto.
    + intros [= <- <- _]. auto.
Qed.

Lemma run_loop_total (incoming : list (recv * time)) (h : TCPHandler)
    (srv : SaporaServer) :
  (forall raw now version msg_type len seq payload,
     In (RecvRaw raw, now) incoming ->
     unpack_message raw = Ok (version, msg_type, len, seq, payload) ->
     msg_type = CMD_REGISTER ->
     decode_register payload <> None) ->
  run_loop net h srv incoming <> None.
Proof.
  intros Hdec. revert h srv.
  induction incoming as [|[r now] rest IH]; intros h srv; cbn [run_loop].
  - destruct (negb (h_running h)); discriminate.
  - assert (Hrest : forall raw now version msg_type len seq payload,
              In (RecvRaw raw, now) rest ->
              unpack_message raw = Ok (version, msg_type, len, seq, payload) ->
              msg_type = CMD_REGISTER ->
              decode_register payload <> None).
    { intros raw0 now0 v0 t0 l0 s0 p0 Hin. apply (Hdec raw0 now0 v0 t0 l0 s0 p0).
      now right. }
    specialize (IH Hrest).
    destruct (negb (h_running h)); [discriminate|].
    destruct r as [| |raw]; [discriminate|apply IH|].
    destruct raw as [|b raw]; [discriminate|].
    assert (Hm : handle_message net h srv (b :: raw) now <> None).
    { unfold handle_message.
      pose proof (Hdec (b :: raw) now) as Hhere.
      destruct (unpack_message (b :: raw)) as [[[[[v t] l] sq] payload]|e];
        [|discriminate].
      destruct (update_client_status _ _ _ _ _) as [[m ev0] ok].
      destruct (t =? CMD_REGISTER) eqn:Et.
      - apply Z.eqb_eq in Et.
        specialize (Hhere v t l sq payload (or_introl eq_refl) eq_refl Et).
        destruct (decode_register payload) as [reg|]; [|contradiction].
        destruct (_handle_register _ _ _ _) as [[h1 srv1] ev1]. discriminate.
      - destruct (t =? MSG_CHAT).
        + destruct (_handle_chat _ _ _ _ _). discriminate.
        + destruct (t =? CMD_HEARTBEAT); [discriminate|].
          destruct (t =? CMD_DISCONNECT); discriminate. }
    destruct (handle_message net h srv (b :: raw) now)
      as [[[[h1 srv1] ev1] go]|]; [|contradiction].
    destruct go; [|discriminate].
    specialize (IH h1 srv1).
    destruct (run_loop net h1 srv1 rest) as [[[h2 srv2] ev2]|];
      [discriminate|contradiction].
Qed.

Lemma cleanup_manager (h : TCPHandler) (srv : SaporaServer) :
  h_running h = true ->
  let out := _cleanup net h srv in
  manager (snd (fst (fst out)))
  = fst (fst (remove_client net (manager srv) (h_sock h))) /\
  h_running (fst (fst (fst out))) = false /\
  h_sock (fst (fst (fst out))) = h_sock h /\
  snd out = negb (cleanup_blocks h srv) /\
  (snd out = true -> In (EvClose (h_sock h)) (snd (fst out))) /\
  (snd out = false ->
   snd (fst out) = snd (fst (remove_client net (manager srv) (h_sock h)))).
Proof.
  intros Hrun. unfold _cleanup, cleanup_blocks. rewrite Hrun.
  cbn [negb h_sock h_server].
  destruct (remove_client net (manager srv) (h_sock h)) as [[m ev1] ret].
  cbn [fst snd].
  assert (Hlast : In (EvClose (h_sock h)) (ev1 ++ [EvClose (h_sock h)])).
  { apply in_or_app. right. now left. }
  destruct (h_server h); cbn [andb];
    [|cbn [fst snd manager h_running h_sock set_manager];
      repeat split; auto; discriminate].
  cbn [client_rooms rooms set_manager manager].
  destruct (PyDict.get (client_rooms srv) (h_sock h)) as [room_id|];
    [|cbn [fst snd manager h_running h_sock set_manager];
      repeat split; auto; discriminate].
  destruct (nonempty room_id); cbn [andb];
    [|cbn [fst snd manager h_running h_sock set_manager];
      repeat split; auto; discriminate].
  unfold PyDict.mem.
  destruct (PyDict.get (rooms srv) room_id) as [r|];
    cbn [fst snd manager h_running h_sock set_manager negb];
    repeat split; auto; discriminate.
Qed.

(** X22. However a session goes, it ends with the member gone: for every
    sequence of reads (timeouts, messages of any type, messages that do not
    unpack, a disconnect request, the closed connection) the handler is
    stopped and its socket is no longer in the registry once [run] is in its
    [finally]. [run] gets there whenever the REGISTER payloads among its
    reads decode. It then returns, with the socket closed, unless the socket
    is recorded in an existing room: in that case [_cleanup] asks for the
    room lock that it already holds, and [run] does not return. *)
Theorem run_ends_deregistered (h : TCPHandler) (srv : SaporaServer)
    (incoming : list (recv * time)) :
  PyDict.wf (control_clients (manager srv)) ->
  h_running h = true ->
  ((forall raw now version msg_type len seq payload,
      In (RecvRaw raw, now) incoming ->
      unpack_message raw = Ok (version, msg_type, len, seq, payload) ->
      msg_type = CMD_REGISTER ->
      decode_register payload <> None) ->
   TCPHandler_run net h srv incoming <> None) /\
  (forall h' srv' evs returned,
     TCPHandler_run net h srv incoming = Some (h', srv', evs, returned) ->
     h_sock h' = h_sock h /\ h_running h' = false /\
     PyDict.get (control_clients (manager srv')) (h_sock h) = None /\
     (returned = true -> In (EvClose (h_sock h)) evs) /\
     exists h1 srv1 ev1,
       run_loop net h srv incoming = Some (h1, srv1, ev1) /\
       returned = negb (cleanup_blocks h1 srv1)).
Proof.
  intros Hwf Hrun. unfold TCPHandler_run. split.
  - intros Hdec. pose proof (run_loop_total incoming h srv Hdec) as Hl.
    destruct (run_loop net h srv incoming) as [[[h1 srv1] ev1]|];
      [|contradiction].
    destruct (_cleanup net h1 srv1) as [[[h2 srv2] ev2] returned]. discriminate.
  - intros h' srv' evs returned.
    destruct (run_loop net h srv incoming) as [[[h1 srv1] ev1]|] eqn:Hl;
      [|discriminate].
    destruct (run_loop_frame _ _ _ _ _ _ Hl) as (Hs & Hr & Hw).
    assert (Hrun1 : h_running h1 = true) by congruence.
    destruct (cleanup_manager h1 srv1 Hrun1)
      as (Hm & Hstop & Hsock & Hret & Hclose & _).
    destruct (_cleanup net h1 srv1) as [[[h2 srv2] ev2] ret2]. cbn [fst snd] in *.
    intros [= <- <- <- <-]. split; [congruence|]. split; [exact Hstop|].
    split; [|split].
    + rewrite Hm, <- Hs.
      apply (remove_client_registry net srv1.(manager) (h_sock h1) (Hw Hwf)).
    + intros Hret'. apply in_or_app. right. rewrite <- Hs. auto.
    + exists h1, srv1, ev1. auto.
Qed.

End Session.

Lemma meeting_server_control_wf :
  PyDict.wf (control_clients (manager meeting_server)).
Proof.
  vm_compute.
  repeat (constructor; [cbn; intuition discriminate|]). constructor.
Qed.

Lemma run_ends_deregistered_witness :
  PyDict.wf (control_clients (manager meeting_server)) /\
  h_running alice_handler = true /\
  exists h' srv' evs,
    @TCPHandler_run example_runtime good_network alice_handler meeting_server
      alice_session = Some (h', srv', evs, false) /\
    PyDict.get (control_clients (manager srv')) 1%nat = None.
Proof.
  split; [exact meeting_server_control_wf|]. split; [reflexivity|].
  destruct (@TCPHandler_run example_runtime good_network alice_handler
              meeting_server alice_session) as [[[[h' srv'] evs] returned]|] eqn:Hrun;
    [|vm_compute in Hrun; discriminate].
  assert (Hret : returned = false).
  { vm_compute in Hrun. injection Hrun as _ _ _ <-. reflexivity. }
  subst returned.
  exists h', srv', evs. split; [reflexivity|].
  exact (proj1 (proj2 (proj2
           (proj2 (@run_ends_deregistered example_runtime good_network
                     alice_handler meeting_server alice_session
                     meeting_server_control_wf eq_refl)
              h' srv' evs false Hrun)))).
Defined.


(** ** Leaving and joining rooms *)

Lemma list_remove_first_not_In (l : list socket) (x : socket) :
  NoDup l -> ~ In x (list_remove_first l x).
Proof.
  induction l as [|z l IH]; cbn; [tauto|]. intros Hnd.
  inversion Hnd as [|? ? Hnin Hnd']; subst.
  destruct (eqb_of z x) eqn:E.
  - apply eqb_of_true in E. now subst z.
  - apply eqb_of_false in E. intros [->|Hin]; [contradiction|].
    exact (IH Hnd' Hin).
Qed.

Lemma list_remove_first_In_other (l : list socket) (x y : socket) :
  y <> x -> In y l -> In y (list_remove_first l x).
Proof.
  intros Hne. induction l as [|z l IH]; cbn; [tauto|].
  destruct (eqb_of z x) eqn:E.
  - apply eqb_of_true in E. subst z. intros [->|Hin]; [contradiction|exact Hin].
  - intros [->|Hin]; [now left|right; auto].
Qed.

(** X23. When a running handler whose socket is recorded in an existing room
    cleans up, the socket leaves the registry, the record and that room's
    client list, and the other sockets' records and the other rooms are
    untouched. The handler then asks for the room lock that it holds:
    [_cleanup] does not return, so the room is not deleted even when the
    socket was its last client, and the handler's own [close] is not
    reached; all that is logged is what [remove_client] logged. *)
Theorem cleanup_leaves_room (net : Network) (h : TCPHandler) (srv : SaporaServer)
    (room_id : string) (r : room) :
  h_running h = true -> h_server h = true ->
  PyDict.wf (control_clients (manager srv)) ->
  PyDict.wf (client_rooms srv) -> PyDict.wf (rooms srv) ->
  PyDict.get (client_rooms srv) (h_sock h) = Some room_id ->
  nonempty room_id = true ->
  PyDict.get (rooms srv) room_id = Some r ->
  NoDup (clients r) ->
  let h' := fst (fst (fst (_cleanup net h srv))) in
  let srv' := snd (fst (fst (_cleanup net h srv))) in
  snd (_cleanup net h srv) = false /\
  snd (fst (_cleanup net h srv))
  = snd (fst (remove_client net (manager srv) (h_sock h))) /\
  h_running h' = false /\
  PyDict.get (control_clients (manager srv')) (h_sock h) = None /\
  PyDict.get (client_rooms srv') (h_sock h) = None /\
  (forall s, s <> h_sock h ->
     PyDict.get (client_rooms srv') s = PyDict.get (client_rooms srv) s) /\
  (forall id, id <> room_id ->
     PyDict.get (rooms srv') id = PyDict.get (rooms srv) id) /\
  (exists r',
     PyDict.get (rooms srv') room_id = Some r' /\
     participants r' = del_first_value (participants r) (h_sock h) /\
     forall s, In s (clients r') <-> In s (clients r) /\ s <> h_sock h).
Proof.
  intros Hrun Hserver Hcc Hcr Hrooms Hrec Hne Hroom Hnd h' srv'.
  destruct (cleanup_manager net h srv Hrun) as (Hm & Hstop & _ & Hret & _ & Hlog).
  fold srv' in Hm. fold h' in Hstop.
  assert (Hblocks : cleanup_blocks h srv = true).
  { unfold cleanup_blocks, PyDict.mem. now rewrite Hserver, Hrec, Hne, Hroom. }
  rewrite Hblocks in Hret. cbn [negb] in Hret.
  assert (Hclients : forall s,
            In s (list_remove_first (clients r) (h_sock h))
            <-> In s (clients r) /\ s <> h_sock h).
  { intros s. split.
    - intros Hin. split; [eapply list_remove_first_incl, Hin|].
      intros ->. exact (list_remove_first_not_In _ _ Hnd Hin).
    - intros [Hin Hs]. apply list_remove_first_In_other; assumption. }
  assert (Hshape :
    client_rooms srv' = PyDict.del (client_rooms srv) (h_sock h) /\
    rooms srv'
    = PyDict.set (rooms srv) room_id
        (mk_room (list_remove_first (clients r) (h_sock h))
           (del_first_value (participants r) (h_sock h)))).
  { unfold srv', _cleanup. rewrite Hrun, Hserver. cbn [negb h_sock h_server].
    destruct (remove_client net (manager srv) (h_sock h)) as [[m ev1] ret].
    cbn [client_rooms rooms set_manager manager]. rewrite Hrec, Hne, Hroom.
    cbn. auto. }
  destruct Hshape as [Hcr' Hrooms'].
  split; [exact Hret|]. split; [exact (Hlog Hret)|]. split; [exact Hstop|].
  split; [rewrite Hm;
          apply (remove_client_registry net (manager srv) (h_sock h) Hcc)|].
  split; [rewrite Hcr'; apply get_del_same, Hcr|].
  split; [intros s Hs; rewrite Hcr'; apply get_del_other; congruence|].
  split.
  - intros id Hid. rewrite Hrooms'. apply get_set_other; congruence.
  - eexists. rewrite Hrooms'. split; [apply get_set_same|].
    cbn [participants clients]. split; [reflexivity|exact Hclients].
Qed.

Lemma meeting_server_directory_wf :
  PyDict.wf (client_rooms meeting_server) /\ PyDict.wf (rooms meeting_server).
Proof.
  split; vm_compute;
    repeat (constructor; [cbn; intuition discriminate|]); constructor.
Qed.

Lemma cleanup_leaves_room_witness :
  h_running alice_handler = true /\ h_server alice_handler = true /\
  PyDict.wf (control_clients (manager meeting_server)) /\
  PyDict.wf (client_rooms meeting_server) /\ PyDict.wf (rooms meeting_server) /\
  PyDict.get (client_rooms meeting_server) 1%nat = Some "team"%string /\
  nonempty "team"%string = true /\
  PyDict.get (rooms meeting_server) "team"%string = Some team_room /\
  NoDup (clients team_room) /\
  snd (_cleanup good_network alice_handler meeting_server) = false.
Proof.
  assert (Hnd : NoDup (clients team_room)).
  { cbn. repeat (constructor; [cbn; intuition discriminate|]). constructor. }
  assert (Hrec : PyDict.get (client_rooms meeting_server) 1%nat
                 = Some "team"%string) by (vm_compute; reflexivity).
  assert (Hroom : PyDict.get (rooms meeting_server) "team"%string
                  = Some team_room) by (vm_compute; reflexivity).
  split; [reflexivity|]. split; [reflexivity|].
  split; [exact meeting_server_control_wf|].
  split; [exact (proj1 meeting_server_directory_wf)|].
  split; [exact (proj2 meeting_server_directory_wf)|].
  split; [exact Hrec|]. split; [reflexivity|]. split; [exact Hroom|].
  split; [exact Hnd|].
  exact (proj1 (cleanup_leaves_room good_network alice_handler meeting_server
                  "team" team_room eq_refl eq_refl
                  meeting_server_control_wf
                  (proj1 meeting_server_directory_wf)
                  (proj2 meeting_server_directory_wf)
                  Hrec eq_refl Hroom Hnd)).
Defined.

(** The room directory after a registration with the server set. *)
Lemma handle_register_directory (h : TCPHandler) (srv : SaporaServer)
    (username meeting_id : option string) (now : time) :
  h_server h = true ->
  let name :=
    match username with
    | Some u => u
    | None => ("User-" ++ str_of_Z (snd (h_address h)))%string
    end in
  let joined :=
    match meeting_id with Some r => r | None => "default"%string end in
  let before :=
    match PyDict.get (rooms srv) joined with
    | Some r => r
    | None => mk_room [] PyDict.empty
    end in
  let srv' := snd (fst (_handle_register h srv (RegData username meeting_id) now)) in
  rooms srv'
  = PyDict.set (rooms srv) joined
      (mk_room (add_room_client (clients before) (h_sock h))
         (PyDict.set (participants before) name (h_sock h))) /\
  client_rooms srv' = PyDict.set (client_rooms srv) (h_sock h) joined.
Proof.
  intros Hserver name joined before srv'. unfold srv', _handle_register.
  cbv zeta. cbn [h_sock h_server]. fold name joined.
  destruct (update_client_status (manager srv) (h_sock h) (Some name) None now)
    as [[m1 ev1] b].
  destruct (set_client_room m1 (h_sock h) joined) as [m2 ev2].
  rewrite Hserver. cbn [fst snd rooms client_rooms set_manager manager].
  fold before. auto.
Qed.

Lemma add_room_client_incl (cl : list socket) (s x : socket) :
  In x cl -> In x (add_room_client cl s).
Proof.
  unfold add_room_client. destruct (existsb (eqb_of s) cl); [auto|].
  intros Hin. apply in_or_app. now left.
Qed.

(** X24. A registration only adds. It touches the room that is joined and
    no other: nobody leaves a room at a registration, so a socket that
    registers again for another room is still a client of the room it was
    in, and a socket that registers again under another name in the same
    room is bound to both names. *)
Theorem register_only_adds (h : TCPHandler) (srv : SaporaServer)
    (username meeting_id : option string) (now : time) :
  h_server h = true ->
  let joined :=
    match meeting_id with Some r => r | None => "default"%string end in
  let srv' := snd (fst (_handle_register h srv (RegData username meeting_id) now)) in
  (forall id, id <> joined ->
     PyDict.get (rooms srv') id = PyDict.get (rooms srv) id) /\
  (forall id r, PyDict.get (rooms srv) id = Some r ->
     exists r',
       PyDict.get (rooms srv') id = Some r' /\
       (forall s, In s (clients r) -> In s (clients r')) /\
       (forall n s, PyDict.get (participants r) n = Some s ->
          h_username (fst (fst (_handle_register h srv
                                  (RegData username meeting_id) now))) <> n ->
          PyDict.get (participants r') n = Some s)) /\
  (forall s, s <> h_sock h ->
     PyDict.get (client_rooms srv') s = PyDict.get (client_rooms srv) s).
Proof.
  intros Hserver joined srv'.
  destruct (handle_register_directory h srv username meeting_id now Hserver)
    as [Hrooms Hcr].
  fold joined srv' in Hrooms, Hcr.
  assert (Hname :
    h_username (fst (fst (_handle_register h srv (RegData username meeting_id) now)))
    = match username with
      | Some u => u
      | None => ("User-" ++ str_of_Z (snd (h_address h)))%string
      end).
  { unfold _handle_register. cbv zeta. cbn [h_sock h_server].
    destruct (update_client_status _ _ _ _ _) as [[m1 ev1] b].
    destruct (set_client_room _ _ _) as [m2 ev2].
    destruct (h_server h); reflexivity. }
  split; [|split].
  - intros id Hid. rewrite Hrooms. apply get_set_other. congruence.
  - intros id r Hr. destruct (eq_dec id joined) as [->|Hid].
    + rewrite Hrooms, get_set_same, Hr. eexists. split; [reflexivity|].
      cbn [clients participants]. split.
      * intros s Hin. apply add_room_client_incl, Hin.
      * intros n s Hn Hother. rewrite get_set_other; [exact Hn|].
        rewrite Hname in Hother. exact Hother.
    + exists r. rewrite Hrooms, get_set_other by congruence. auto.
  - intros s Hs. rewrite Hcr. apply get_set_other. congruence.
Qed.

Lemma register_only_adds_witness :
  h_server alice_handler = true /\
  PyDict.get
    (rooms (snd (fst (_handle_register alice_handler meeting_server
                        (RegData (Some "Alice"%string) (Some "other"%string))
                        20))))
    "team"%string
  = PyDict.get (rooms meeting_server) "team"%string.
Proof.
  split; [reflexivity|].
  apply (proj1 (register_only_adds alice_handler meeting_server
                  (Some "Alice"%string) (Some "other"%string) 20 eq_refl)).
  discriminate.
Defined.

(** ** The room directory in reachable states *)

Lemma handle_register_directory_ok (h : TCPHandler) (srv : SaporaServer)
    (reg : register_payload) (now : time) :
  directory_ok srv -> directory_ok (snd (fst (_handle_register h srv reg now))).
Proof.
  intros [Hwf Hdir]. destruct reg as [|username meeting_id]; [split; assumption|].
  destruct (h_server h) eqn:Hserver.
  - destruct (handle_register_directory h srv username meeting_id now Hserver)
      as [Hrooms Hcr].
    set (joined := match meeting_id with Some r => r | None => _ end) in *.
    split; [rewrite Hcr; apply wf_set, Hwf|].
    intros s room_id. rewrite Hcr, Hrooms.
    destruct (eq_dec (h_sock h) s) as [<-|Hs].
    + rewrite get_set_same. intros [= <-]. rewrite get_set_same.
      eexists. split; [reflexivity|]. cbn [clients]. apply add_room_client_In.
    + rewrite get_set_other by exact Hs. intros Hrec.
      destruct (Hdir s room_id Hrec) as (r & Hr & Hin).
      destruct (eq_dec joined room_id) as [<-|Hid].
      * rewrite get_set_same, Hr. eexists. split; [reflexivity|].
        cbn [clients]. apply add_room_client_incl, Hin.
      * rewrite get_set_other by exact Hid. eauto.
  - assert (Hsame : rooms (snd (fst (_handle_register h srv
                                       (RegData username meeting_id) now)))
                    = rooms srv /\
                    client_rooms (snd (fst (_handle_register h srv
                                              (RegData username meeting_id) now)))
                    = client_rooms srv).
    { unfold _handle_register. cbv zeta. cbn [h_sock h_server].
      destruct (update_client_status _ _ _ _ _) as [[m1 ev1] b].
      destruct (set_client_room _ _ _) as [m2 ev2].
      rewrite Hserver. cbn. auto. }
    destruct Hsame as [Hr Hc]. split; [rewrite Hc; exact Hwf|].
    intros s room_id. rewrite Hc, Hr. apply Hdir.
Qed.

Lemma cleanup_directory_ok (net : Network) (h : TCPHandler) (srv : SaporaServer) :
  directory_ok srv -> directory_ok (snd (fst (fst (_cleanup net h srv)))).
Proof.
  intros [Hwf Hdir]. unfold _cleanup, directory_ok.
  destruct (negb (h_running h)); [split; assumption|]. cbn [h_sock h_server].
  destruct (remove_client net (manager srv) (h_sock h)) as [[m ev1] ret].
  destruct (h_server h); [|split; assumption].
  cbn [client_rooms rooms set_manager manager].
  destruct (PyDict.get (client_rooms srv) (h_sock h)) as [room_id0|] eqn:Hrec;
    [|split; assumption].
  assert (Hother : forall s room_id,
            PyDict.get (PyDict.del (client_rooms srv) (h_sock h)) s = Some room_id ->
            s <> h_sock h /\ PyDict.get (client_rooms srv) s = Some room_id).
  { intros s room_id Hg. destruct (eq_dec s (h_sock h)) as [->|Hs].
    - rewrite get_del_same in Hg by exact Hwf. discriminate.
    - rewrite get_del_other in Hg by congruence. auto. }
  destruct (nonempty room_id0).
  - destruct (PyDict.get (rooms srv) room_id0) as [r0|] eqn:Hroom.
    + cbn [clients fst snd client_rooms rooms]. split; [apply wf_del, Hwf|].
      intros s room_id Hg. destruct (Hother s room_id Hg) as [Hs Hg'].
      destruct (Hdir s room_id Hg') as (r & Hr & Hin).
      destruct (eq_dec room_id0 room_id) as [<-|Hid].
      * rewrite get_set_same. rewrite Hroom in Hr. injection Hr as <-.
        eexists. split; [reflexivity|]. cbn [clients].
        apply list_remove_first_In_other; assumption.
      * rewrite get_set_other by exact Hid. exists r. auto.
    + cbn [fst snd client_rooms rooms]. split; [apply wf_del, Hwf|].
      intros s room_id Hg. destruct (Hother s room_id Hg) as [_ Hg'].
      exact (Hdir s room_id Hg').
  - cbn [fst snd client_rooms rooms]. split; [apply wf_del, Hwf|].
    intros s room_id Hg. destruct (Hother s room_id Hg) as [_ Hg'].
    exact (Hdir s room_id Hg').
Qed.

Section Directory.
Context {rt : PyRuntime}.

Lemma step_directory_ok (sys sys' : system) :
  step sys sys' -> directory_ok (sys_srv sys) -> directory_ok (sys_srv sys').
Proof.
  intros Hstep Hok. destruct Hstep as [sys net s addr now _ _|sys h reg now _ _
                                       |sys net h payload now _ _|sys net h _ _
                                       |sys m hs _].
  - unfold do_accept, TCPHandler_init.
    destruct (add_client _ _ _ _ _ _) as [m evs]. exact Hok.
  - unfold do_register.
    pose proof (handle_register_directory_ok h (sys_srv sys) reg now Hok) as H.
    destruct (_handle_register h (sys_srv sys) reg now) as [[h' srv] evs]. exact H.
  - unfold do_chat, directory_ok. cbn [sys_srv].
    rewrite handle_chat_rooms, handle_chat_client_rooms. exact Hok.
  - unfold do_cleanup.
    pose proof (cleanup_directory_ok net h (sys_srv sys) Hok) as H.
    destruct (_cleanup net h (sys_srv sys)) as [[[h' srv] evs] returned]. exact H.
  - exact Hok.
Qed.

(** X25. In every state the control server can reach by accepting
    connections, registrations, chat messages and cleanups, the room
    recorded for a socket exists and lists that socket among its clients,
    and no socket is recorded twice. *)
Theorem reachable_directory_sound (sys : system) (s : socket)
    (room_id : string) :
  reachable sys ->
  PyDict.get (client_rooms (sys_srv sys)) s = Some room_id ->
  PyDict.wf (client_rooms (sys_srv sys)) /\
  exists r,
    PyDict.get (rooms (sys_srv sys)) room_id = Some r /\ In s (clients r).
Proof.
  intros Hreach. revert s room_id.
  assert (Hok : directory_ok (sys_srv sys)).
  { induction Hreach as [|sys sys' _ IH Hstep].
    - split; [constructor|]. intros s room_id Hg. discriminate.
    - eapply step_directory_ok; eauto. }
  intros s room_id Hg. split; [exact (proj1 Hok)|exact (proj2 Hok s room_id Hg)].
Qed.

End Directory.

Lemma alice_alice_registered_reachable :
  @reachable example_runtime alice_alice_registered.
Proof.
  unfold alice_alice_registered, alice_registered, two_accepted.
  repeat (eapply reachable_step;
          [|first [apply step_register; [reflexivity|cbn; auto]
                  |apply step_accept; [reflexivity|]; cbn; intros h Hin;
                   repeat (destruct Hin as [<-|Hin]; [discriminate|]);
                   destruct Hin]]).
  apply reachable_initial.
Qed.

Lemma reachable_directory_sound_witness :
  @reachable example_runtime alice_alice_registered /\
  PyDict.get (client_rooms (sys_srv alice_alice_registered)) 2%nat
  = Some "team"%string /\
  exists r,
    PyDict.get (rooms (sys_srv alice_alice_registered)) "team"%string = Some r /\
    In 2%nat (clients r).
Proof.
  assert (Hrec : PyDict.get (client_rooms (sys_srv alice_alice_registered)) 2%nat
                 = Some "team"%string) by (vm_compute; reflexivity).
  split; [exact alice_alice_registered_reachable|]. split; [exact Hrec|].
  exact (proj2 (@reachable_directory_sound example_runtime
                  alice_alice_registered 2%nat "team"
                  alice_alice_registered_reachable Hrec)).
Defined.
